(* ===== verification/_CoqProject ===== *)
-Q . S2P
Prelude.v
Segmenter.v
PyFloat.v
PyString.v
PyValue.v
Reader.v
JsonDecode.v
Parser.v
Downsample.v
Figure.v
App.v
Layout.v
Main.v
Cli.v
Session.v
Threads.v
Scenarios.v
