(* ===== verification/Prelude.v ===== *)
(** * cracking_curve: a verification development of [password_cracking_curve.py]

    The program (src/password_cracking_curve.py) reads the JSON status lines
    that hashcat appends to one or more files and draws, with Dash and
    plotly, one progress curve per attack phase.  [HashcatStatusParser]
    turns a file into curves: it reads the lines, skips those that are not
    decodable ["{"] records, extracts from each record the counters and the
    phase key, and cuts the points into curves at each change of key, each
    new curve starting where the previous one ended.  [PasswordCrackingApp]
    holds the settings and one parser per file, and its Dash callback
    rebuilds the settings on a click of Update and the figure on every call;
    [_create_figure] downsamples long curves and labels and colours them.

    ** Files, in dependency order, and what each models

    - [Prelude] (this file): the Python exceptions the modelled lines can
      raise ([py_exc]), a result type [result] with its bind and the
      [let?] notation of [py_scope], the list primitives [l[-1]]
      ([py_last]), [l[-1].append(v)] ([append_last]), [l[k]] ([py_nth]) and
      a loop that stops at its first exception ([map_result]); the tactics
      and the hint databases [cc] and [cc_rw] the components share.
    - [Segmenter]: lines 79-94, the phase-transition step [seg_step] on the
      record [seg_state] of [(curves_x, curves_y, label_list,
      current_identifier)], generic in the key comparison; its fold
      [seg_run]; the abstract specification ([runs_of] cuts the points into
      maximal runs, [segmentation] characterises them, [stitch] builds the
      curves); the invariant [seg_wf].
    - [PyFloat]: binary64 arithmetic as CPython performs it for line 69
      ([int_truediv], [float_mul], [float_of_int], with [OverflowError])
      and [repr] of a float ([float_repr]) for the f-string of line 77, on
      the Standard Library's [SpecFloat] at precision 53 and [emax] 1024.
    - [PyString]: [str.strip] (line 44), [startswith] (45), [replace] (73),
      [split('/')] with [[-1]] (268) and [in] (271).
    - [PyValue]: the objects [json.loads] returns ([json]), [dict.get]
      ([py_get]), indexing ([py_index]), [+], [>], [/], [* 100], [==] on
      keys ([py_eq]) and [str()] ([py_str]), each with the exceptions
      Python raises on the wrong types.
    - [Reader]: lines 34-49 and 99-100, the file as text, iteration with
      universal newlines ([py_lines]), the ["{"] filter and the skip of
      undecodable lines ([status_records], [read_records]) against the
      decoder interface [JsonDecoder].
    - [JsonDecode]: [json.loads] itself, CPython's scanner, as the instance
      [py_json_loads] of [JsonDecoder] (library code, modelled from its
      documented behaviour).
    - [Parser]: [HashcatStatusParser.parse_status_file] (lines 25-102):
      the value extraction of lines 51-77 ([extract]), the loop body
      ([process_record], [parse_line]) and the loop ([parse_lines]); also
      the same computation in the spec's stages ([extract_all], [curves_spec]).
    - [Downsample]: lines 252-264, [l[::60]] ([slice_step]) plus the last
      point ([downsample]).
    - [Figure]: [_create_figure] (lines 234-295): labels ([attack_label]),
      colours ([trace_color]), [Path.stem] ([path_stem]), the traces of a
      file ([file_traces]) and the figure ([create_figure]).
    - [App]: [PasswordCrackingApp] (lines 105-129, 205-232): the settings
      record [app_state], [update_parsers], and the callback
      [update_graph_and_settings] as a step function [callback] returning
      the new state and the outputs or the exception; [app_reachable].
    - [Layout]: [_setup_layout] (lines 131-203) as the data the program
      reads back: the initial value and options of each control, the
      data-sources line and the timer's interval ([setup_layout]); the
      app's start ([app_start]).
    - [Main]: [main] (lines 302-350) after [parse_args]: the existence
      check of the files ([first_missing], exit status 1), and the app,
      page, output lines and address it serves ([main]).
    - [Cli]: [parser.parse_args()] (lines 302-334) for the program's four
      declarations and the help ArgumentParser adds, following CPython
      3.11's argparse (library code, modelled from its source and checked
      against it on 70 command lines): classification of each string
      ([parse_optional]: abbreviations, [--], negative numbers), the loop
      of [_parse_known_args] ([parse_loop]), [int()] for [--port]
      ([py_int]), the exits with status 0 and 2; and [main] from the
      command line ([main_argv]).
    - [Session]: the Dash page and server around the callback (lines
      205-217, 297-299): a [session] is the app state, the props of an open
      page (controls, timer interval, counters, graph) and the files on
      disk; [session_step] handles a page load, a timer tick, a click, an
      edit of a control and a write by hashcat, with Dash's dispatch
      ([fire]: Inputs fire the callback, States do not, no output is written
      when it raises); [exec] runs a sequence of events.
    - [Threads]: the callback as the statements Python runs ([action],
      [thread_step]) on the app object shared by the requests of Flask's
      threaded server, interleaved by a schedule ([run_sched]).
    - [Scenarios]: status files written as text and run through the whole
      model by evaluation, the witnesses of the theorems.

    ** What the theorems show

    - Refinement (Parser): [parse_status_file] equals [curves_spec], the
      reader, then the extraction, then the abstract segmentation into
      maximal runs; from it, the curves are the stitched maximal runs, every
      curve starts at the end of the previous one, and the result has one
      label per curve and equal-length lists of at least two points.
    - Invariants (Segmenter, App): [seg_step] preserves [seg_wf] and never
      raises on a well-formed state; the number of curves is the number of key changes for any key
      comparison that is an equivalence; the app's parsers always match its
      settings.
    - Program-level consequences (Parser): the curve count holds for the
      program's own tuple comparison [key_eqb] on files whose [guess_mod]
      values are scalars (on which [py_eq] is an equivalence, [PyValue]),
      through the fact that the loop only compares keys it reads
      ([seg_run_ext]); every curve's x values are in order, in time mode
      with [status_timer >= 0] and in guesses mode with progress ints
      [>= 0] ([stitch_chain]: each curve is a stretch of the anchor
      followed by the points).
    - Counters and errors (Parser): [guesses] is the sum of the progress
      values, [elapsed_seconds] is [status_timer] times the records
      ([parse_elapsed]); lines that are not records change nothing; a
      [recovered_hashes] of fewer than two items aborts the whole parse
      with [IndexError]; no file makes the parse raise [ZeroDivisionError]
      (the guard of line 57, and [float(n)] is not zero for an int
      [n <> 0], [PyFloat]).
    - Growth and types (Parser): text appended to a status file only
      extends the curves and labels ([extends]: the history of a live view
      never changes); the x values are numbers, and so are the y values
      except in count mode, where [recovered_hashes[0]] passes unchecked.
    - Start-up (Layout, Main): the page's defaults agree with the
      settings of [__init__], so a first click changes nothing; [main]
      exits on the first missing file, and otherwise serves an app from
      which the callback's invariants hold.
    - Command line (Cli): [parse_args] reads back the arguments from the
      command line that lists them (a round trip through [int] for the
      port); a file given after an option is rejected as an unrecognized
      argument, so the files must form one run; [-h]/[--help] exits with
      status 0 even without files; a [--port] value [int] rejects exits
      with status 2.
    - Sessions (Session): liveness: once hashcat stops writing, a page
      whose timer keeps firing (a fairness hypothesis) shows the figure of
      the final files again and again; a reload shows the
      default controls whatever the settings, and a click on a file that
      raises leaves the page's timer behind the app's interval.
    - Threads: a tick served in the middle of a click returns a figure
      titled for the new x axis and drawn by the old parsers, which no
      serial order of the two calls gives; ticks alone never race: under
      any schedule of tick requests the state stays as it was and each
      tick returns what the callback returns alone.
    - Downsampling and figure: the endpoints of a thinned curve are exact,
      x and y stay paired (both lists are cut at the same indices), the traces of a file connect,
      no trace gets a palette colour, labels are the last path segments.
    - Scenarios: the spec's scenarios B, C, D, the split of a phase by
      [guess_mod] and the interleaving that no serial order gives, by
      evaluation of the whole model on concrete text.

    ** Bounds and fuel

    [replace_fuel] runs with fuel [length s]: each step consumes at least
    one character, and [replace_fuel_enough] shows more fuel changes
    nothing.  The decoder [scan_once] runs with fuel [2 * length s + 1]:
    every two units of fuel an array or object uses, it consumes a
    character ([scan_length]), and [json_loads_fuel_enough] shows that any
    larger fuel gives the same result, so no line is lost to the bound.
    [parse_loop] runs [S (length items)] rounds, and each round consumes a
    string ([parse_loop_total], [parse_loop_mono]).
    A call of the callback has at most eight statements, so eight steps of
    a schedule run it to its end.  [repr] of
    a float tries 1 to 17 significant digits; 17 always round-trips for
    binary64.  Integers are unbounded [Z], as Python's are; floats keep
    their 53-bit precision and overflow to [OverflowError].

    ** Not modelled

    The HTML structure and CSS of the Dash layout; the help and usage texts
    argparse prints, and its features this parser does not use;
    the timer's period in milliseconds and the network between browser and
    server (a session sees each request whole, in the order it arrives);
    interleavings inside the drawing loop of [_create_figure], which is one
    step of a thread; plotly's rendering of a figure beyond
    the arguments the code passes; text outside Latin-1 and UTF-8 decoding errors;
    [json]'s nesting-depth and int-digit limits; [Path.exists] beyond the
    presence of a file. *)

From Stdlib Require Import ZArith String Ascii Lia Bool.
From stdpp Require Import base list decidable.

Declare Scope py_scope.
Delimit Scope py_scope with py.

(** ** Python exceptions and results *)

(** The exceptions that the modelled lines can raise.  None of them is
    caught by the program except [json.JSONDecodeError], which the reader
    models as a decoder returning [None]. *)
Inductive py_exc :=
| TypeError
| IndexError
| KeyError
| AttributeError
| OverflowError
| ZeroDivisionError.

#[export] Instance py_exc_eq_dec : EqDecision py_exc.
Proof. solve_decision. Defined.

(** A Python computation that returns a value or raises. *)
Inductive result (A : Type) : Type :=
| Ok (a : A)
| Exc (e : py_exc).
Arguments Ok {A} a.
Arguments Exc {A} e.

Definition rbind {A B} (r : result A) (f : A -> result B) : result B :=
  match r with
  | Ok a => f a
  | Exc e => Exc e
  end.

Definition rmap {A B} (f : A -> B) (r : result A) : result B :=
  match r with
  | Ok a => Ok (f a)
  | Exc e => Exc e
  end.

Notation "'let?' x ':=' r 'in' k" := (rbind r (fun x => k))
  (at level 10, x name, r at level 100, k at level 200) : py_scope.
Notation "'let?' ' p ':=' r 'in' k" := (rbind r (fun x => match x with p => k end))
  (at level 10, p pattern, r at level 100, k at level 200) : py_scope.

Open Scope py_scope.

(** ** List primitives of Python *)

Section PyList.
Context {A : Type}.

(** [l[-1]]. *)
Definition py_last (l : list A) : result A :=
  match list.last l with
  | Some x => Ok x
  | None => Exc IndexError
  end.

(** [ls[-1].append(v)] on a list of lists. *)
Fixpoint append_last (ls : list (list A)) (v : A) : result (list (list A)) :=
  match ls with
  | [] => Exc IndexError
  | [l] => Ok [l ++ [v]]
  | l :: ls' => let? r := append_last ls' v in Ok (l :: r)
  end.

(** [l[k]] for a non-negative [k]. *)
Definition py_nth (l : list A) (k : nat) : result A :=
  match l !! k with
  | Some x => Ok x
  | None => Exc IndexError
  end.

(** A loop that builds a list, stopping at the first exception. *)
Fixpoint map_result {B} (f : A -> result B) (l : list A) : result (list B) :=
  match l with
  | [] => Ok []
  | x :: t => let? y := f x in let? ys := map_result f t in Ok (y :: ys)
  end.
End PyList.

(** ** Ordered lists *)

(** [chainb r l]: [r] holds between every two neighbours of [l]. *)
Fixpoint chainb {A} (r : A -> A -> bool) (l : list A) : bool :=
  match l with
  | a :: ((b :: _) as t) => r a b && chainb r t
  | _ => true
  end.

(** [cs'] extends [cs]: every list of [cs] is a prefix of the list at
    the same index of [cs'], which may hold more lists. *)
Definition extends {A} (cs cs' : list (list A)) : Prop :=
  length cs <= length cs' /\ forall i c, cs !! i = Some c -> exists c', cs' !! i = Some c' /\ c `prefix_of` c'.

(** ** Tactics and hints *)

Create HintDb cc discriminated.
Create Rewrite HintDb cc_rw.

Ltac invc H := inversion H; subst; clear H.

(** Unfold the result monad and case on the scrutinee that blocks it. *)
Ltac rstep :=
  match goal with
  | H : context [rbind (Ok _) _] |- _ => cbn [rbind] in H
  | H : rbind ?r _ = Ok _ |- _ =>
      let E := fresh "E" in destruct r eqn:E; cbn [rbind] in H; [|discriminate H]
  | |- context [rbind (Ok _) _] => cbn [rbind]
  | |- context [rbind (Exc _) _] => cbn [rbind]
  end.

(** Split the tuples in the context, as a [let '(a, b) := ...] needs. *)
Ltac split_pairs :=
  repeat match goal with p : _ * _ |- _ => destruct p end.

(** Run a hypothesis [rbind ... = Ok v] down to its components. *)
Ltac rsteps := repeat (rstep; split_pairs; cbn beta iota in *).

(** ** Generic lemmas *)

Lemma rbind_Ok {A B} (r : result A) (f : A -> result B) b :
  rbind r f = Ok b <-> exists a, r = Ok a /\ f a = Ok b.
Proof. destruct r; cbn; split; [eauto| intros (?&[=->]&?); done |done|intros (?&?&?); done]. Qed.

Lemma rbind_Exc {A B} (r : result A) (f : A -> result B) e :
  r = Exc e -> rbind r f = Exc e.
Proof. by intros ->. Qed.

(** A bind raises [e] only when one of its two stages does. *)
Lemma rbind_not_Exc {A B} (r : result A) (f : A -> result B) e :
  r <> Exc e -> (forall a, r = Ok a -> f a <> Exc e) -> rbind r f <> Exc e.
Proof. destruct r as [a|e0]; cbn; [intros _ Hf; exact (Hf a eq_refl)|intros H _ [= ->]; by apply H]. Qed.

Lemma last_snoc {A} (l : list A) x : list.last (l ++ [x]) = Some x.
Proof. induction l as [|y [|z l] IH]; done. Qed.

#[export] Hint Rewrite @last_snoc : cc_rw.

Lemma append_last_spec {A} (ls : list (list A)) l v :
  append_last (ls ++ [l]) v = Ok (ls ++ [l ++ [v]]).
Proof.
  induction ls as [|l0 ls IH]; [done|].
  cbn [app append_last]. rewrite IH. by destruct ls.
Qed.

Lemma append_last_nil {A} (v : A) : append_last [] v = Exc IndexError.
Proof. done. Qed.

#[export] Hint Rewrite @append_last_spec : cc_rw.

Lemma py_last_snoc {A} (l : list A) x : py_last (l ++ [x]) = Ok x.
Proof. unfold py_last. by rewrite last_snoc. Qed.

#[export] Hint Rewrite @py_last_snoc : cc_rw.

Lemma py_last_cons {A} (v : A) l : py_last (v :: l) = Ok (default v (list.last l)).
Proof. unfold py_last. rewrite last_cons. by destruct (list.last l). Qed.

#[export] Hint Rewrite @py_last_cons : cc_rw.

Lemma Forall2_snoc_inv {A B} (P : A -> B -> Prop) l x k y :
  Forall2 P (l ++ [x]) (k ++ [y]) -> Forall2 P l k /\ P x y.
Proof.
  intros H. pose proof (Forall2_length H) as Hl. rewrite !length_app in Hl. cbn in Hl.
  apply Forall2_app_inv in H as [H1 H2]; [|lia]. by inversion H2.
Qed.

Lemma Forall2_snoc {A B} (P : A -> B -> Prop) l x k y :
  Forall2 P l k -> P x y -> Forall2 P (l ++ [x]) (k ++ [y]).
Proof. intros. apply Forall2_app; [done|by constructor]. Qed.

#[export] Hint Resolve Forall2_snoc : cc.

Lemma py_nth_Ok {A} (l : list A) k x : py_nth l k = Ok x <-> l !! k = Some x.
Proof. unfold py_nth. destruct (l !! k); split; congruence. Qed.

Lemma foldr_Zadd_acc (a b : Z) zs : foldr Z.add (a + b)%Z zs = (b + foldr Z.add a zs)%Z.
Proof. induction zs as [|z zs IH]; cbn; lia. Qed.

Lemma map_result_length {A B} (f : A -> result B) l ys :
  map_result f l = Ok ys -> length ys = length l.
Proof.
  revert ys; induction l as [|x l IH]; intros ys H; cbn in H; [by injection H as <-|].
  rsteps. injection H as <-. cbn. f_equal. eauto.
Qed.

Lemma map_result_lookup {A B} (f : A -> result B) l ys i y :
  map_result f l = Ok ys -> ys !! i = Some y -> exists x, l !! i = Some x /\ f x = Ok y.
Proof.
  revert ys i; induction l as [|x l IH]; intros ys i H Hi; cbn in H; [injection H as <-; discriminate Hi|].
  rsteps. injection H as <-.
  destruct i as [|i]; cbn in Hi; [injection Hi as <-; by exists x|]. eauto.
Qed.

Lemma map_result_Forall {A B} (P : B -> Prop) (f : A -> result B) l ys :
  (forall x y, f x = Ok y -> P y) -> map_result f l = Ok ys -> Forall P ys.
Proof.
  intros Hf H. apply Forall_lookup. intros i y Hy.
  destruct (map_result_lookup f l ys i y H Hy) as (x & _ & Hx). eauto.
Qed.

Lemma chainb_cons2 {A} (r : A -> A -> bool) a b l :
  chainb r (a :: b :: l) = r a b && chainb r (b :: l).
Proof. done. Qed.
#[export] Hint Rewrite @chainb_cons2 : cc_rw.

Lemma chainb_app_l {A} (r : A -> A -> bool) l1 l2 :
  chainb r (l1 ++ l2) = true -> chainb r l1 = true.
Proof.
  induction l1 as [|a [|b l1] IH]; [done|done|].
  cbn [app]. autorewrite with cc_rw. rewrite !andb_true_iff. intros [? ?]; auto.
Qed.

(** The neighbours from the last element of [l1] on. *)
Lemma chainb_app_last {A} (r : A -> A -> bool) l1 l2 a :
  chainb r (l1 ++ l2) = true -> list.last l1 = Some a -> chainb r (a :: l2) = true.
Proof.
  induction l1 as [|x [|y l1] IH]; [done| |].
  - intros H [= ->]. exact H.
  - cbn [app]. autorewrite with cc_rw. rewrite andb_true_iff. intros [_ H] Hl.
    apply IH; [done|]. by rewrite last_cons_cons in Hl.
Qed.

Lemma extends_refl {A} (cs : list (list A)) : extends cs cs.
Proof. split; [done|]. intros i c Hc. by exists c. Qed.

Lemma extends_trans {A} (cs1 cs2 cs3 : list (list A)) :
  extends cs1 cs2 -> extends cs2 cs3 -> extends cs1 cs3.
Proof.
  intros [Hl12 H12] [Hl23 H23]. split; [lia|]. intros i c Hc.
  destruct (H12 _ _ Hc) as (c2 & Hc2 & Hp2). destruct (H23 _ _ Hc2) as (c3 & Hc3 & Hp3).
  exists c3. split; [done|by trans c2].
Qed.

Lemma extends_snoc {A} (cs : list (list A)) c : extends cs (cs ++ [c]).
Proof.
  split; [rewrite length_app; lia|]. intros i c0 Hc. exists c0.
  split; [by apply lookup_app_l_Some|done].
Qed.

(** [ls[-1].append(v)] extends [ls]. *)
Lemma append_last_extends {A} (ls r : list (list A)) v : append_last ls v = Ok r -> extends ls r.
Proof.
  destruct ls as [|l ls _] using rev_ind; [discriminate|]. rewrite append_last_spec.
  intros [= <-]. split; [rewrite !length_app; cbn; lia|]. intros i c Hc.
  apply lookup_app_Some in Hc as [Hc|[Hi Hc]].
  - exists c. split; [by apply lookup_app_l_Some|done].
  - exists (l ++ [v]). rewrite lookup_app_r by lia.
    destruct (i - length ls) as [|j]; cbn in *; [|discriminate]. injection Hc as <-.
    split; [done|by exists [v]].
Qed.
#[export] Hint Resolve extends_refl extends_snoc : cc.
