(* ===== verification/Segmenter.v ===== *)
(** * Segmenter: the phase-transition logic of [parse_status_file]

    Lines 79-94 of src/password_cracking_curve.py: for each record, with its
    phase key [key] and its point [(x_value, y_value)], either start the
    first curve at the anchor [(0, 0)], or close the running phase and start
    a curve at the previous curve's last point, or extend the running
    curve.  The component is generic in the key, x and y types and takes
    the key comparison [keq] (Python's [==] on the key tuples) and the
    anchor values as section variables. *)

From Stdlib Require Import ZArith String Lia Bool.
From stdpp Require Import base list decidable sets.
From S2P Require Import Prelude.

Section Segmenter.
Context {K X Y : Type}.
(** [keq k c] is the value of [k == c] on two keys. *)
Variable keq : K -> K -> bool.
(** The anchor [curves_x.append([0, x_value])]: the int [0] in both axes. *)
Variables (x0 : X) (y0 : Y).

(** The local variables [curves_x], [curves_y], [label_list] and
    [current_identifier] of [parse_status_file].  [current_identifier]
    starts as the empty str, modelled as [None]: a key tuple never
    compares equal to a str. *)
Record seg_state := mk_seg {
  curves_x : list (list X);
  curves_y : list (list Y);
  label_list : list K;
  current_identifier : option K
}.

Definition seg_init : seg_state := mk_seg [] [] [] None.

(** [key != current_identifier]. *)
Definition key_changed (key : K) (cur : option K) : bool :=
  match cur with
  | None => true
  | Some c => negb (keq key c)
  end.

(** Lines 79-94, one record. *)
Definition seg_step (key : K) (x : X) (y : Y) (s : seg_state) : result seg_state :=
  if key_changed key (current_identifier s) then
    match current_identifier s with
    | Some _ =>
        (* curves_x.append([curves_x[-1][-1], x_value]) and the same for y *)
        let? cx := py_last (curves_x s) in
        let? px := py_last cx in
        let? cy := py_last (curves_y s) in
        let? py := py_last cy in
        Ok (mk_seg (curves_x s ++ [[px; x]]) (curves_y s ++ [[py; y]])
                   (label_list s ++ [key]) (Some key))
    | None =>
        Ok (mk_seg (curves_x s ++ [[x0; x]]) (curves_y s ++ [[y0; y]])
                   (label_list s ++ [key]) (Some key))
    end
  else
    let? cxs := append_last (curves_x s) x in
    let? cys := append_last (curves_y s) y in
    Ok (mk_seg cxs cys (label_list s) (current_identifier s)).

(** The loop over the records, each given by its key and point. *)
Fixpoint seg_fold (s : seg_state) (pts : list (K * X * Y)) : result seg_state :=
  match pts with
  | [] => Ok s
  | (k, x, y) :: t => let? s' := seg_step k x y s in seg_fold s' t
  end.

Definition seg_run (pts : list (K * X * Y)) : result seg_state := seg_fold seg_init pts.

(** ** Abstract specification: maximal runs and stitched curves *)

Definition pt_key (p : K * X * Y) : K := p.1.1.
Definition pt_x (p : K * X * Y) : X := p.1.2.
Definition pt_y (p : K * X * Y) : Y := p.2.

(** A run is a non-empty block of records whose keys all compare equal
    to the key of its first record. *)
Definition run_ok (r : list (K * X * Y)) : Prop :=
  match r with
  | [] => False
  | p :: t => Forall (fun q => keq (pt_key q) (pt_key p) = true) t
  end.

Definition run_head_key (r : list (K * X * Y)) : option K := pt_key <$> head r.

(** [rs] cuts [pts] into maximal runs: the runs concatenate to [pts], and
    the first record of each run compares unequal to the first record of
    the run before it. *)
Definition heads_distinct (hs : list (option K)) : Prop :=
  forall i k k', hs !! i = Some (Some k) -> hs !! S i = Some (Some k') -> keq k' k = false.

Definition segmentation (pts : list (K * X * Y)) (rs : list (list (K * X * Y))) : Prop :=
  concat rs = pts /\ Forall run_ok rs /\ heads_distinct (map run_head_key rs).

(** The curve of each run starts at the end point of the previous curve
    (the anchor for the first run) and continues with the run's points. *)
Fixpoint stitch {V} (f : K * X * Y -> V) (prev : V) (rs : list (list (K * X * Y)))
    : list (list V) :=
  match rs with
  | [] => []
  | r :: rs' => (prev :: map f r) :: stitch f (default prev (list.last (map f r))) rs'
  end.

Definition spec_state (rs : list (list (K * X * Y))) : seg_state :=
  let labels := omap run_head_key rs in
  mk_seg (stitch pt_x x0 rs) (stitch pt_y y0 rs) labels (list.last labels).

(** The grouping into runs, record by record. *)
Definition runs_push (rs : list (list (K * X * Y))) (p : K * X * Y) :=
  match list.last rs with
  | Some r =>
      match run_head_key r with
      | Some k => if keq (pt_key p) k then removelast rs ++ [r ++ [p]] else rs ++ [[p]]
      | None => rs ++ [[p]]
      end
  | None => [[p]]
  end.

Definition runs_of (pts : list (K * X * Y)) : list (list (K * X * Y)) :=
  foldl runs_push [] pts.

(** ** Well-formedness of the state *)

(** The three lists are parallel, each curve has as many x as y values and
    at least two points, and [current_identifier] is the last label. *)
Definition seg_wf (s : seg_state) : Prop :=
  length (curves_x s) = length (label_list s) /\
  length (curves_y s) = length (label_list s) /\
  Forall2 (fun cx cy => length cx = length cy /\ 2 <= length cx) (curves_x s) (curves_y s) /\
  list.last (label_list s) = current_identifier s.

(** The last value of the curves built from [rs]: where the next run's
    curve starts. *)
Definition stitch_end {V} (f : K * X * Y -> V) (prev : V) (rs : list (list (K * X * Y))) : V :=
  foldl (fun acc r => default acc (list.last (map f r))) prev rs.

(** Number of records whose key differs from the previous record's key
    (the first record always counts): the spec's number of maximal runs. *)
Fixpoint key_changes (prev : option K) (pts : list (K * X * Y)) : nat :=
  match pts with
  | [] => 0
  | p :: t => (if key_changed (pt_key p) prev then 1 else 0) + key_changes (Some (pt_key p)) t
  end.

(** ** The fold *)

Lemma seg_fold_app s l1 l2 :
  seg_fold s (l1 ++ l2) = let? s' := seg_fold s l1 in seg_fold s' l2.
Proof.
  revert s; induction l1 as [|[[k x] y] l1 IH]; intros s; [done|].
  cbn. destruct (seg_step k x y s); cbn; [apply IH|done].
Qed.

(** ** Stitching *)

Lemma stitch_snoc {V} (f : K * X * Y -> V) v rs r :
  stitch f v (rs ++ [r]) = stitch f v rs ++ [stitch_end f v rs :: map f r].
Proof. revert v; induction rs as [|r0 rs IH]; intros v; [done|]. cbn. by rewrite IH. Qed.

Lemma stitch_end_snoc {V} (f : K * X * Y -> V) v rs r :
  stitch_end f v (rs ++ [r]) = default (stitch_end f v rs) (list.last (map f r)).
Proof. unfold stitch_end. by rewrite foldl_app. Qed.

Lemma length_stitch {V} (f : K * X * Y -> V) v rs : length (stitch f v rs) = length rs.
Proof. revert v; induction rs; intros; cbn; auto. Qed.

(** ** Refinement: the fold computes the stitched runs *)

Lemma runs_push_ok rs p : Forall run_ok rs -> Forall run_ok (runs_push rs p).
Proof.
  intros Hok. destruct rs as [|r rs _] using rev_ind; [apply Forall_singleton; constructor|].
  apply Forall_app in Hok as [Hrs Hr]. rewrite Forall_singleton in Hr.
  unfold runs_push. rewrite last_snoc. destruct r as [|q t]; [destruct Hr|]. cbn.
  destruct (keq (pt_key p) (pt_key q)) eqn:E.
  - rewrite removelast_last. apply Forall_app; split; [done|].
    apply Forall_singleton. cbn. apply Forall_app; split; [done|]. by constructor.
  - apply Forall_app; split; [apply Forall_app; split; [done|by apply Forall_singleton]|]. apply Forall_singleton; constructor.
Qed.

Lemma runs_of_ok pts : Forall run_ok (runs_of pts).
Proof.
  induction pts as [|p pts IH] using rev_ind; [constructor|].
  unfold runs_of in *. rewrite foldl_app. by apply runs_push_ok.
Qed.

(** One step of the code on the abstract state of [rs] is the abstract
    state of [rs] with the record pushed. *)
Lemma seg_step_spec rs p : Forall run_ok rs ->
  seg_step (pt_key p) (pt_x p) (pt_y p) (spec_state rs) = Ok (spec_state (runs_push rs p)).
Proof.
  intros Hok. destruct rs as [|r rs _] using rev_ind; [done|].
  apply Forall_app in Hok as [_ Hr]. rewrite Forall_singleton in Hr.
  destruct r as [|q t]; [destruct Hr|].
  unfold spec_state, runs_push, seg_step, key_changed. cbn [curves_x curves_y label_list current_identifier].
  rewrite !omap_app, !last_snoc. cbn. rewrite last_snoc.
  destruct (keq (pt_key p) (pt_key q)) eqn:E; cbn.
  - rewrite removelast_last, !stitch_snoc, !append_last_spec, !omap_app. cbn.
    by rewrite map_app, map_app, last_snoc.
  - rewrite !stitch_snoc, !py_last_snoc. cbn [rbind map].
    rewrite !py_last_cons, !stitch_end_snoc, !omap_app. cbn. by rewrite last_snoc.
Qed.

(** The code's fold computes the stitched curves of [runs_of pts]: it never
    raises, and its output is the abstract state. *)
Lemma seg_run_spec pts : seg_run pts = Ok (spec_state (runs_of pts)).
Proof.
  induction pts as [|p pts IH] using rev_ind; [done|].
  unfold seg_run, runs_of in *. rewrite seg_fold_app, IH, foldl_app. cbn.
  destruct p as [[k x] y]. rewrite (seg_step_spec _ (k, x, y)); [done|].
  apply runs_of_ok.
Qed.

(** ** The runs are the maximal runs of the records *)

Lemma heads_distinct_snoc hs k k0 :
  heads_distinct hs -> list.last hs = Some (Some k0) -> keq k k0 = false ->
  heads_distinct (hs ++ [Some k]).
Proof.
  intros Hd Hl Hk i a b Ha Hb.
  apply lookup_snoc_Some in Ha as [[Hi Ha]|[-> _]];
    [|apply lookup_lt_Some in Hb; rewrite length_app in Hb; cbn in Hb; lia].
  apply lookup_snoc_Some in Hb as [[_ Hb]|[Hi' [= <-]]]; [eauto|].
  rewrite last_lookup, <- Hi' in Hl. cbn in Hl. congruence.
Qed.

Lemma runs_push_segmentation pts rs p :
  segmentation pts rs -> segmentation (pts ++ [p]) (runs_push rs p).
Proof.
  intros (Hc & Hok & Hd). unfold runs_push.
  destruct rs as [|r rs _] using rev_ind.
  { subst pts. split; [done|]. split; [apply Forall_singleton; constructor|].
    intros [|i] ? ? _ Hb; discriminate Hb. }
  rewrite last_snoc. apply Forall_app in Hok as [Hok Hr]. rewrite Forall_singleton in Hr.
  destruct r as [|q t]; [destruct Hr|]. cbn [run_head_key head fmap option_fmap option_map].
  rewrite concat_app in Hc. cbn in Hc. rewrite app_nil_r in Hc. subst pts.
  destruct (keq (pt_key p) (pt_key q)) eqn:E.
  - rewrite removelast_last. split; [by rewrite concat_app; cbn; rewrite !app_nil_r, <- app_assoc|].
    split; [apply Forall_app; split; [done|apply Forall_singleton]|].
    + cbn. apply Forall_app; split; [done|]. by constructor.
    + by rewrite map_app in Hd |- *.
  - split; [by rewrite !concat_app; cbn; rewrite !app_nil_r|].
    split; [rewrite <- app_assoc; apply Forall_app; split; [done|]; repeat constructor; done|].
    rewrite map_app. eapply heads_distinct_snoc; [done| |done].
    rewrite map_app. cbn [map]. by rewrite last_snoc.
Qed.

(** [runs_of pts] cuts the records into maximal runs. *)
Lemma runs_of_segmentation pts : segmentation pts (runs_of pts).
Proof.
  induction pts as [|p pts IH] using rev_ind.
  - split; [done|]. split; [constructor|]. intros ? ? ? Ha. discriminate Ha.
  - unfold runs_of in *. rewrite foldl_app. by apply runs_push_segmentation.
Qed.

(** ** Continuity of the stitched curves *)

Lemma stitch_continuity {V} (f : K * X * Y -> V) v rs i c c' :
  stitch f v rs !! i = Some c -> stitch f v rs !! S i = Some c' ->
  head c' = list.last c.
Proof.
  revert v i; induction rs as [|r rs IH]; intros v [|i] Hc Hc'; try discriminate Hc.
  - cbn in Hc, Hc'. injection Hc as <-. destruct rs as [|r' rs]; [discriminate Hc'|].
    cbn in Hc'. injection Hc' as <-. cbn. rewrite last_cons. by destruct (list.last (map f r)).
  - cbn in Hc, Hc'. eauto.
Qed.

(** ** The state invariant *)

(** A curve is a stretch of the anchor followed by the points: when that
    sequence is ordered, so is every curve. *)
Lemma stitch_chain {V} (r : V -> V -> bool) (f : K * X * Y -> V) v rs :
  chainb r (v :: map f (concat rs)) = true -> Forall (fun c => chainb r c = true) (stitch f v rs).
Proof.
  revert v; induction rs as [|q rs IH]; intros v Hc; cbn [stitch]; constructor.
  - cbn [concat] in Hc. rewrite map_app, app_comm_cons in Hc. by eapply chainb_app_l.
  - apply IH. cbn [concat] in Hc. rewrite map_app, app_comm_cons in Hc.
    apply (chainb_app_last _ _ _ _ Hc). rewrite last_cons. by destruct (list.last (map f q)).
Qed.

(** Every value of a stitched curve is the anchor or a value of a point. *)
Lemma stitch_Forall {V} (P : V -> Prop) (f : K * X * Y -> V) v rs :
  P v -> Forall (fun p => P (f p)) (concat rs) -> Forall (Forall P) (stitch f v rs).
Proof.
  revert v; induction rs as [|r rs IH]; intros v Hv Hc; cbn [stitch concat] in *; constructor.
  - apply Forall_app in Hc as [Hr _]. constructor; [done|by apply Forall_fmap].
  - apply Forall_app in Hc as [Hr Hrs]. apply IH; [|done].
    destruct (list.last (map f r)) as [z|] eqn:Ez; cbn; [|done].
    apply last_Some_elem_of in Ez. apply Forall_fmap in Hr. by eapply Forall_forall in Hr.
Qed.

Lemma seg_init_wf : seg_wf seg_init.
Proof. unfold seg_wf; cbn. split_and!; done. Qed.

(** From a well-formed state, a step never raises (the [curves_x[-1][-1]]
    and [curves_x[-1].append] of the code find a curve) and its result is
    well formed. *)
Lemma seg_step_wf s k x y : seg_wf s -> exists s', seg_step k x y s = Ok s' /\ seg_wf s'.
Proof.
  intros (Hx & Hy & Hf & Hl). destruct s as [cxs cys ls cur]; cbn in *.
  unfold seg_step, seg_wf, key_changed; cbn.
  destruct ls as [|c ls _] using rev_ind.
  { cbn in Hl; subst cur. destruct cxs; [|discriminate Hx]. destruct cys; [|discriminate Hy].
    eexists; split; [reflexivity|]. cbn. split_and!; [done|done| |done].
    repeat constructor; cbn; lia. }
  rewrite last_snoc in Hl; subst cur. rewrite length_app in Hx, Hy; cbn in Hx, Hy.
  destruct cxs as [|cx cxs _] using rev_ind; [cbn in Hx; lia|].
  destruct cys as [|cy cys _] using rev_ind; [cbn in Hy; lia|].
  rewrite length_app in Hx, Hy; cbn in Hx, Hy.
  apply Forall2_snoc_inv in Hf as [Hf [Hlen H2]].
  destruct (keq k c) eqn:E; cbn.
  - rewrite !append_last_spec. cbn. eexists; split; [reflexivity|]. cbn.
    rewrite !length_app, last_snoc. cbn. split_and!; [lia|lia| |done].
    apply Forall2_snoc; [done|]. rewrite !length_app; cbn; lia.
  - rewrite !py_last_snoc. cbn [rbind].
    destruct cx as [|a cx]; [cbn in H2; lia|]. destruct cy as [|b cy]; [cbn in Hlen; lia|].
    rewrite !py_last_cons. cbn [rbind]. eexists; split; [reflexivity|]. cbn.
    rewrite !length_app, last_snoc. cbn. split_and!; [lia|lia| |done].
    apply Forall2_snoc; [by apply Forall2_snoc|]. cbn; lia.
Qed.

(** C5 (invariant).  From a well-formed state a step of lines 79-94 never
    raises (the [curves_x[-1][-1]] and [curves_x[-1].append(...)] of the
    code find their curve), and the new state is well formed. *)
Theorem seg_step_preserves_wf s k x y :
  seg_wf s -> exists s', seg_step k x y s = Ok s' /\ seg_wf s'.
Proof. apply seg_step_wf. Qed.

(** ** Number of curves, when [==] on keys is an equivalence *)

(** A step only adds: to the last curve, or a new curve and its label. *)
Lemma seg_step_extends k x y s s' :
  seg_step k x y s = Ok s' ->
  extends (curves_x s) (curves_x s') /\ extends (curves_y s) (curves_y s') /\
  label_list s `prefix_of` label_list s'.
Proof.
  unfold seg_step. intros Hs.
  destruct (key_changed k (current_identifier s)); [destruct (current_identifier s)|].
  1-2: rsteps; injection Hs as <-; cbn; split_and!; auto with cc; by eexists.
  rsteps. injection Hs as <-. cbn.
  split_and!; [by eapply append_last_extends..|done].
Qed.

Lemma seg_fold_extends s pts s' :
  seg_fold s pts = Ok s' ->
  extends (curves_x s) (curves_x s') /\ extends (curves_y s) (curves_y s') /\
  label_list s `prefix_of` label_list s'.
Proof.
  revert s; induction pts as [|[[k x] y] t IH]; intros s Hs; cbn in Hs.
  - injection Hs as <-. split_and!; auto with cc.
  - destruct (seg_step k x y s) as [s1|] eqn:E; cbn [rbind] in Hs; [|discriminate].
    destruct (seg_step_extends _ _ _ _ _ E) as (Hx & Hy & Hl).
    destruct (IH _ Hs) as (Hx' & Hy' & Hl').
    split_and!; [by eapply extends_trans..|by trans (label_list s1)].
Qed.

Section KeyEquivalence.
Hypothesis keq_refl : forall k, keq k k = true.
Hypothesis keq_sym : forall a b, keq a b = keq b a.
Hypothesis keq_trans : forall a b c, keq a b = true -> keq b c = true -> keq a c = true.

Lemma keq_congr a b c : keq b c = true -> keq a b = keq a c.
Proof.
  intros Hbc. destruct (keq a b) eqn:Eab, (keq a c) eqn:Eac; try done.
  - assert (keq a c = true) by eauto. congruence.
  - assert (keq a b = true) by (apply (keq_trans _ c); [done|]; by rewrite keq_sym).
    congruence.
Qed.

Lemma key_changes_snoc prev pts p :
  key_changes prev (pts ++ [p]) =
  key_changes prev pts +
  (if key_changed (pt_key p) (match list.last pts with Some q => Some (pt_key q) | None => prev end)
   then 1 else 0).
Proof.
  revert prev; induction pts as [|q pts IH]; intros prev; cbn; [lia|].
  rewrite IH, last_cons. destruct (list.last pts); lia.
Qed.

Lemma run_last_key r q z :
  run_ok r -> head r = Some q -> list.last r = Some z -> keq (pt_key z) (pt_key q) = true.
Proof.
  destruct r as [|q' t]; [done|]. intros Hok [= <-] Hz.
  rewrite last_cons in Hz. destruct (list.last t) as [z'|] eqn:E; injection Hz as <-; [|done].
  apply last_Some_elem_of in E. cbn in Hok.
  rewrite Forall_forall in Hok. by apply Hok.
Qed.

(** The number of runs is the number of key changes along the records. *)
Lemma length_runs_of pts : length (runs_of pts) = key_changes None pts.
Proof.
  induction pts as [|p pts IH] using rev_ind; [done|].
  rewrite key_changes_snoc, <- IH. unfold runs_of in *. rewrite foldl_app. cbn.
  destruct (runs_of_segmentation pts) as (Hc & Hok & _). unfold runs_of in *.
  revert Hc Hok. generalize (foldl runs_push [] pts) as rs. intros rs Hc Hok.
  unfold runs_push.
  destruct rs as [|r rs _] using rev_ind; [subst pts; done|].
  apply Forall_app in Hok as [_ Hr]. rewrite Forall_singleton in Hr.
  destruct r as [|q t]; [destruct Hr|]. rewrite last_snoc. cbn.
  rewrite <- Hc, concat_app, last_app. cbn. rewrite app_nil_r, last_cons.
  assert (keq (pt_key (default q (list.last t))) (pt_key q) = true) as Hz.
  { apply (run_last_key (q :: t)); [done|done|]. rewrite last_cons. by destruct (list.last t). }
  destruct (list.last t) as [z|]; cbn in Hz |- *;
    try rewrite (keq_congr _ _ _ Hz); destruct (keq (pt_key p) (pt_key q)); cbn;
    rewrite ?length_app, ?removelast_last, ?length_app; cbn; lia.
Qed.

Lemma length_omap_heads rs : Forall run_ok rs -> length (omap run_head_key rs) = length rs.
Proof. induction 1 as [|[|q t] rs Hr _ IH]; [done|destruct Hr|]. cbn. by rewrite IH. Qed.

(** C6 (functional).  When [==] on keys is an equivalence, the number of
    curves (and of labels) is the number of records whose key differs
    from the previous record's key: one curve per maximal run. *)
Theorem seg_run_curve_count pts s :
  seg_run pts = Ok s ->
  length (curves_x s) = key_changes None pts /\ length (curves_y s) = key_changes None pts /\
  length (label_list s) = key_changes None pts.
Proof.
  rewrite seg_run_spec. intros Hs. injection Hs as <-. cbn.
  rewrite !length_stitch, length_omap_heads by apply runs_of_ok.
  rewrite length_runs_of. done.
Qed.
End KeyEquivalence.
End Segmenter.

Arguments seg_init {K X Y}.
Arguments seg_wf {K X Y} s.

#[export] Hint Resolve seg_init_wf runs_of_ok : cc.

(** ** The loop compares only the keys it reads

    [seg_fold] applies the comparison to a record's key and the key of the
    running phase, which is the key of an earlier record; two comparisons
    that agree on the keys of the records give the same curves.  This lets a
    comparison that is an equivalence only on the keys a file holds stand in
    for one that is an equivalence everywhere. *)

Section Ext.
Context {K X Y : Type}.
Variables (keq keq' : K -> K -> bool) (x0 : X) (y0 : Y).

Definition keq_agree (pts : list (K * X * Y)) : Prop :=
  forall p q, p ∈ pts -> q ∈ pts -> keq (pt_key p) (pt_key q) = keq' (pt_key p) (pt_key q).

Lemma seg_step_current (kq : K -> K -> bool) (a : X) (b : Y) k x y s s' :
  seg_step kq a b k x y s = Ok s' ->
  current_identifier s' = current_identifier s \/ current_identifier s' = Some k.
Proof.
  unfold seg_step. intros Hs.
  destruct (key_changed kq k (current_identifier s)); [destruct (current_identifier s)|];
    repeat (apply rbind_Ok in Hs as (? & _ & Hs)); injection Hs as <-; cbn; auto.
Qed.

Lemma seg_fold_ext s pts :
  (forall p k, p ∈ pts -> (current_identifier s = Some k \/ exists q, q ∈ pts /\ k = pt_key q) ->
     keq (pt_key p) k = keq' (pt_key p) k) ->
  seg_fold keq x0 y0 s pts = seg_fold keq' x0 y0 s pts.
Proof.
  revert s; induction pts as [|[[k x] y] t IH]; intros s Hag; [done|]. cbn [seg_fold].
  assert (seg_step keq x0 y0 k x y s = seg_step keq' x0 y0 k x y s) as ->.
  { unfold seg_step, key_changed. destruct (current_identifier s) as [c|] eqn:Ec; [|done].
    pose proof (Hag (k, x, y) c) as H. unfold pt_key in H; cbn in H. rewrite H; [done|set_solver|by left]. }
  destruct (seg_step keq' x0 y0 k x y s) as [s'|e] eqn:Es; cbn [rbind]; [|done].
  apply IH. intros p' k' Hp' Hk'. apply Hag; [set_solver|].
  destruct Hk' as [Hc|(q & Hq & ->)]; [|right; exists q; split; [set_solver|done]].
  destruct (seg_step_current _ _ _ _ _ _ _ _ Es) as [Hs|Hs]; rewrite Hs in Hc; [by left|].
  injection Hc as <-. right. exists (k, x, y). split; [set_solver|done].
Qed.

Lemma seg_run_ext pts : keq_agree pts -> seg_run keq x0 y0 pts = seg_run keq' x0 y0 pts.
Proof.
  intros Hag. apply seg_fold_ext. intros p k Hp [Hc|(q & Hq & ->)]; [discriminate|]. by apply Hag.
Qed.

Lemma key_changes_ext prev (pts : list (K * X * Y)) :
  (forall p k, p ∈ pts -> (prev = Some k \/ exists q, q ∈ pts /\ k = pt_key q) ->
     keq (pt_key p) k = keq' (pt_key p) k) ->
  key_changes keq prev pts = key_changes keq' prev pts.
Proof.
  revert prev; induction pts as [|p t IH]; intros prev Hag; [done|]. cbn [key_changes].
  rewrite IH.
  - unfold key_changed. destruct prev as [c|]; [|done]. rewrite (Hag p c); set_solver.
  - intros p' k Hp' [[= <-]|(q & Hq & ->)]; apply Hag; [set_solver| |set_solver|];
      right; [exists p|exists q]; split; [set_solver|done|set_solver|done].
Qed.
End Ext.

(** ** Witnesses *)

Lemma seg_step_preserves_wf_witness :
  exists s', seg_step String.eqb 0 0 "a"%string 1 1 seg_init = Ok s' /\ seg_wf s'.
Proof.
  apply (seg_step_preserves_wf String.eqb 0 0 seg_init "a"%string 1 1).
  vm_compute. repeat split; constructor.
Defined.

Lemma seg_run_curve_count_witness :
  let pts := [("a"%string, 1, 1); ("a"%string, 2, 2); ("b"%string, 3, 3); ("a"%string, 4, 4)] in
  let s := mk_seg [[0; 1; 2]; [2; 3]; [3; 4]] [[0; 1; 2]; [2; 3]; [3; 4]]
             ["a"%string; "b"%string; "a"%string] (Some "a"%string) in
  length (curves_x s) = key_changes String.eqb None pts /\
  length (curves_y s) = key_changes String.eqb None pts /\
  length (label_list s) = key_changes String.eqb None pts.
Proof.
  intros pts s.
  apply (seg_run_curve_count String.eqb 0 0 String.eqb_refl String.eqb_sym).
  - intros a b c Hab Hbc. apply String.eqb_eq in Hab, Hbc. subst. apply String.eqb_refl.
  - vm_compute. reflexivity.
Defined.
