(* ===== verification/PyFloat.v ===== *)
(** * PyFloat: Python's float arithmetic, as IEEE-754 binary64

    Python floats are binary64 doubles.  The code computes
    [(cracked / total) * 100] (line 69): [int / int] is CPython's
    [long_true_divide], correctly rounded from the exact quotient with
    [OverflowError] when the result does not fit, and [float * int] converts
    the int ([float(int)], correctly rounded, [OverflowError] when too
    large) and multiplies.  The model uses the Standard Library's
    [SpecFloat], whose operations are pure Gallina (no primitive floats and
    no axioms), instantiated at precision 53 and [emax] 1024. *)

From Stdlib Require Import ZArith SpecFloat Lia Bool String Ascii DecimalString.
From stdpp Require Import base tactics.
From S2P Require Import Prelude.

Local Open Scope string_scope.
Local Open Scope Z_scope.

Definition prec : Z := 53.
Definition emax : Z := 1024.

(** A finite result, or [OverflowError] where CPython checks for overflow. *)
Definition finite_or_overflow (f : spec_float) : result spec_float :=
  match f with
  | S754_infinity _ => Exc OverflowError
  | _ => Ok f
  end.

(** [float(z)] for an int [z] ([PyLong_AsDouble]). *)
Definition float_of_int (z : Z) : result spec_float :=
  finite_or_overflow (binary_normalize prec emax z 0 false).

(** [a / b] on two ints ([long_true_divide]): the sign of a zero quotient
    is [negate = (a < 0) ^ (b < 0)]. *)
Definition div_round (neg : bool) (a b : Z) : spec_float :=
  let '(mz, ez, lz) := SFdiv_core_binary prec emax a 0 b 0 in
  binary_round_aux prec emax neg mz ez lz.

Definition int_truediv (a b : Z) : result spec_float :=
  if b =? 0 then Exc ZeroDivisionError
  else
    let neg := xorb (a <? 0) (b <? 0) in
    if Z.abs a =? 0 then Ok (S754_zero neg)
    else finite_or_overflow (div_round neg (Z.abs a) (Z.abs b)).

(** [x * y], [x + y] on floats: IEEE, overflow gives an infinity. *)
Definition float_mul (x y : spec_float) : spec_float := SFmul prec emax x y.
Definition float_add (x y : spec_float) : spec_float := SFadd prec emax x y.

(** [x / y] on floats: [ZeroDivisionError] on a zero divisor. *)
Definition float_div (x y : spec_float) : result spec_float :=
  match y with
  | S754_zero _ => Exc ZeroDivisionError
  | _ => Ok (SFdiv prec emax x y)
  end.

(** [x > 0] and [x == y] on floats ([False] when a NaN is involved). *)
Definition float_gt0 (x : spec_float) : bool := SFltb (S754_zero false) x.
Definition float_eqb (x y : spec_float) : bool := SFeqb x y.

(** [x == z] for a float and an int: CPython compares exactly. *)
Definition float_eq_int (x : spec_float) (z : Z) : bool :=
  match x with
  | S754_zero _ => z =? 0
  | S754_finite s m e =>
      let v := if s then Z.neg m else Z.pos m in
      if 0 <=? e then z =? v * 2 ^ e else z * 2 ^ (- e) =? v
  | _ => false
  end.

(** The float literal [z.0] for an integral [z]. *)
Definition float_lit (z : Z) : spec_float := binary_normalize prec emax z 0 false.

(** ** [repr] of a float ([float_repr_style = 'short'])

    [repr(x)] is [PyOS_double_to_string(x, 'r', 0, Py_DTSF_ADD_DOT_0)]:
    [_Py_dg_dtoa] in mode 0 gives the shortest digit string that reads back
    as [x] (the nearest such string when there are two, the even one on a
    tie), and [format_float_short] lays it out. *)

(** The decimal digits of a positive integer. *)
Definition zdigits (n : Z) : string := NilEmpty.string_of_uint (Pos.to_uint (Z.to_pos n)).

Definition ndigits (n : Z) : Z := Z.of_nat (String.length (zdigits n)).

(** [10^k <= num / den]. *)
Definition pow10_le (k num den : Z) : bool :=
  if 0 <=? k then 10 ^ k * den <=? num else den <=? num * 10 ^ (- k).

(** The [E] with [10^E <= num / den < 10^(E+1)], for positive [num], [den]. *)
Definition dec_exponent (num den : Z) : Z :=
  let e := ndigits num - ndigits den in
  if pow10_le e num den then e else e - 1.

(** The correctly rounded value of [(-1)^neg * m * 10^e10] for [m >= 0]
    ([float(str)], [PyOS_string_to_double]).  A value of at least [10^309]
    is an infinity and one below [10^-324] a zero, without computing the
    power of ten. *)
Definition decimal_to_float (neg : bool) (m e10 : Z) : spec_float :=
  if m =? 0 then S754_zero neg
  else
    let d := ndigits m in
    if 310 <=? d + e10 then S754_infinity neg
    else if d + e10 <=? -324 then S754_zero neg
    else if 0 <=? e10 then binary_normalize prec emax ((if neg then - m else m) * 10 ^ e10) 0 false
    else div_round neg m (10 ^ (- e10)).

Definition same_finite (x y : spec_float) : bool :=
  match x, y with
  | S754_finite s m e, S754_finite s' m' e' => Bool.eqb s s' && Pos.eqb m m' && Z.eqb e e'
  | _, _ => false
  end.

(** The shortest [(n, sc)] with [n * 10^sc] reading back as [m * 2^e]:
    for [p = 1, 2, ...] significant digits, the two [p]-digit neighbours. *)
Definition shortest_decimal (m : positive) (e : Z) : Z * Z :=
  let x := S754_finite false m e in
  let num := Zpos m * 2 ^ Z.max e 0 in
  let den := 2 ^ Z.max (- e) 0 in
  let E := dec_exponent num den in
  let fix go (fuel p : nat) : Z * Z :=
    let sc := E - Z.of_nat p + 1 in
    let unit := if 0 <=? sc then den * 10 ^ sc else den in
    let '(q, r) := if 0 <=? sc then Z.div_eucl num unit else Z.div_eucl (num * 10 ^ (- sc)) den in
    let lo_ok := same_finite (decimal_to_float false q sc) x in
    let hi_ok := same_finite (decimal_to_float false (q + 1) sc) x in
    match fuel with
    | O => (q, sc)
    | S f =>
        if lo_ok && hi_ok then
          if r * 2 <? unit then (q, sc)
          else if unit <? r * 2 then (q + 1, sc)
          else if Z.even q then (q, sc) else (q + 1, sc)
        else if lo_ok then (q, sc)
        else if hi_ok then (q + 1, sc)
        else go f (S p)
    end in
  go 17%nat 1%nat.

Fixpoint strip_zeros_rev (l : list ascii) : list ascii :=
  match l with
  | "0"%char :: t => strip_zeros_rev t
  | _ => l
  end.

(** [n] without its trailing zeros. *)
Definition strip_trailing_zeros (s : string) : string :=
  string_of_list_ascii (rev (strip_zeros_rev (rev (list_ascii_of_string s)))).

Fixpoint zeros_nat (n : nat) : string :=
  match n with
  | O => EmptyString
  | S n' => String "0" (zeros_nat n')
  end.

Definition zeros (k : Z) : string := zeros_nat (Z.to_nat k).

(** [sprintf("%+.02d", exp)]. *)
Definition exp_string (k : Z) : string :=
  (if k <? 0 then "-" else "+") ++
  (if Z.abs k <? 10 then "0" else EmptyString) ++ (if k =? 0 then "0" else zdigits (Z.abs k)).

Definition drop_trailing_dot (s : string) : string :=
  match rev (list_ascii_of_string s) with
  | "."%char :: t => string_of_list_ascii (rev t)
  | _ => s
  end.

(** [format_float_short] with format code ['r'] and [Py_DTSF_ADD_DOT_0]. *)
Definition format_float_short (neg : bool) (digits : string) (decpt0 : Z) : string :=
  let len := Z.of_nat (String.length digits) in
  let use_exp := (decpt0 <=? -4) || (16 <? decpt0) in
  let exp := decpt0 - 1 in
  let decpt := if use_exp then 1 else decpt0 in
  let vstart := if decpt <=? 0 then decpt - 1 else 0 in
  let vend := if use_exp then Z.max len decpt else Z.max len (decpt + 1) in
  let left := if decpt <=? 0 then zeros (decpt - vstart) ++ "." ++ zeros (- decpt)
              else zeros (- vstart) in
  let mid := if (0 <? decpt) && (decpt <=? len)
             then substring 0 (Z.to_nat decpt) digits ++ "." ++
                  substring (Z.to_nat decpt) (Z.to_nat (len - decpt)) digits
             else digits in
  let right := if len <? decpt then zeros (decpt - len) ++ "." ++ zeros (vend - decpt)
               else zeros (vend - len) in
  (if neg then "-" else EmptyString) ++ drop_trailing_dot (left ++ mid ++ right) ++
  (if use_exp then "e" ++ exp_string exp else EmptyString).

Definition float_repr (x : spec_float) : string :=
  match x with
  | S754_zero s => format_float_short s "0" 1
  | S754_infinity s => if s then "-inf" else "inf"
  | S754_nan => "nan"
  | S754_finite s m e =>
      let '(n, sc) := shortest_decimal m e in
      let ds := strip_trailing_zeros (zdigits n) in
      format_float_short s ds (ndigits n + sc)
  end.

(** ** Facts *)

Lemma int_truediv_zero_num b : b <> 0 -> int_truediv 0 b = Ok (S754_zero (b <? 0)).
Proof. intros Hb. unfold int_truediv. by destruct (Z.eqb_spec b 0). Qed.

(** [float(z)] for [z <> 0] is not a zero: the shift that rounds the
    mantissa to 53 bits keeps it positive. *)

Lemma shr_1_m r : 0 <= shr_m r -> shr_m (shr_1 r) = shr_m r / 2.
Proof. rewrite <-Z.div2_div. destruct r as [[|[p|p|]|p] rr ss]; cbn; intros H; try done; lia. Qed.

Lemma iter_shr_1_m k : forall r, 0 <= shr_m r -> shr_m (iter_pos shr_1 k r) = shr_m r / 2 ^ Z.pos k.
Proof.
  induction k as [k IH|k IH|]; intros r Hr; cbn [iter_pos].
  - assert (H1 : 0 <= shr_m (shr_1 r)) by (rewrite shr_1_m by done; by apply Z.div_pos).
    rewrite IH by (rewrite IH by done; apply Z.div_pos; lia). rewrite IH, shr_1_m by done.
    rewrite !Z.div_div by lia. f_equal. rewrite (Pos2Z.inj_xI k), Z.pow_add_r, Z.pow_1_r by lia.
    replace (2 * Z.pos k) with (Z.pos k + Z.pos k) by lia. rewrite Z.pow_add_r; lia.
  - rewrite IH by (rewrite IH by done; apply Z.div_pos; lia). rewrite IH by done.
    rewrite Z.div_div by lia. f_equal. rewrite (Pos2Z.inj_xO k).
    replace (2 * Z.pos k) with (Z.pos k + Z.pos k) by lia. rewrite Z.pow_add_r; lia.
  - by rewrite shr_1_m.
Qed.

Lemma digits2_pos_size p : digits2_pos p = Pos.size p.
Proof. induction p; cbn; congruence. Qed.

Lemma Zdigits2_log2 m : 0 < m -> Zdigits2 m = Z.log2 m + 1.
Proof.
  destruct m as [|p|p]; intros Hm; [lia| |lia]. cbn [Zdigits2]. rewrite digits2_pos_size.
  destruct p; cbn; lia.
Qed.

Lemma Zdigits2_mono m m' : 0 < m -> m <= m' -> Zdigits2 m <= Zdigits2 m'.
Proof. intros Hm Hle. rewrite !Zdigits2_log2 by lia. pose proof (Z.log2_le_mono _ _ Hle). lia. Qed.

(** A right shift to the format keeps a positive mantissa positive when the
    number is above the subnormal range, and keeps its magnitude. *)
Lemma shr_fexp_pos m e l :
  0 < m -> emin prec emax < Zdigits2 m + e ->
  0 < shr_m (shr_fexp prec emax m e l).1 /\
  Zdigits2 (shr_m (shr_fexp prec emax m e l).1) + (shr_fexp prec emax m e l).2 = Zdigits2 m + e.
Proof.
  intros Hm He. unfold shr_fexp, shr, fexp.
  assert (Hr : shr_m (shr_record_of_loc m l) = m) by (destruct l as [|[]]; done).
  destruct (Z.max _ _ - e) as [|n|n] eqn:En; cbn [fst snd]; rewrite ?Hr; [lia| |lia].
  rewrite iter_shr_1_m by lia. rewrite Hr.
  rewrite Zdigits2_log2 in He, En by lia.
  assert (Hn : Z.pos n <= Z.log2 m) by (unfold emin, prec, emax in *; lia).
  assert (Hp : 0 < m / 2 ^ Z.pos n).
  { apply Z.div_str_pos. split; [lia|]. apply Z.log2_le_pow2; lia. }
  split; [done|]. rewrite !Zdigits2_log2 by done. rewrite <-Z.shiftr_div_pow2, Z.log2_shiftr by lia. lia.
Qed.

Lemma round_nearest_even_ge m l : 0 <= m -> m <= round_nearest_even m l.
Proof. destruct l as [|[]]; cbn; try lia. destruct (Z.even m); lia. Qed.

(** Rounding a positive mantissa above the subnormal range never gives a zero. *)
Lemma binary_round_aux_nonzero s m e s' :
  0 < m -> emin prec emax < Zdigits2 m + e -> binary_round_aux prec emax s m e loc_Exact <> S754_zero s'.
Proof.
  intros Hm He. unfold binary_round_aux.
  pose proof (shr_fexp_pos m e loc_Exact Hm He) as [H1 H2].
  destruct (shr_fexp prec emax m e loc_Exact) as [r e'] eqn:E1. cbn [fst snd] in H1, H2.
  set (m2 := round_nearest_even (shr_m r) (loc_of_shr_record r)).
  assert (Hm2 : shr_m r <= m2) by (apply round_nearest_even_ge; lia).
  pose proof (Zdigits2_mono _ _ H1 Hm2).
  pose proof (shr_fexp_pos m2 e' loc_Exact ltac:(lia) ltac:(lia)) as [H3 _].
  destruct (shr_fexp prec emax m2 e' loc_Exact) as [r' e''] eqn:E2. cbn [fst] in H3.
  destruct (shr_m r') as [|p|p]; [lia| |lia]. by case_match.
Qed.

Lemma pos_iter_xO p d : Z.pos (Pos.iter xO p d) = Z.pos p * 2 ^ Z.pos d.
Proof.
  induction d as [|d IH] using Pos.peano_ind; [cbn; lia|].
  rewrite Pos.iter_succ, Pos2Z.inj_xO, IH, Pos2Z.inj_succ, Z.pow_succ_r by lia. lia.
Qed.

Lemma binary_normalize_nonzero z s : z <> 0 -> binary_normalize prec emax z 0 false <> S754_zero s.
Proof.
  intros Hz. assert (Hpos : forall p, emin prec emax < Zdigits2 (Z.pos p)).
  { intros p. rewrite Zdigits2_log2 by lia. pose proof (Z.log2_nonneg (Z.pos p)). unfold emin, prec, emax. lia. }
  destruct z as [|p|p]; [done| |]; unfold binary_normalize, binary_round, shl_align;
    destruct (fexp _ _ _ - _) as [|d|d] eqn:Ed; apply binary_round_aux_nonzero;
    rewrite ?pos_iter_xO; try (specialize (Hpos p); lia).
  all: specialize (Hpos p); rewrite Zdigits2_log2 in Hpos |- * by lia; rewrite Z.log2_mul_pow2 by lia; lia.
Qed.

(** [float(z)] is never a zero for [z <> 0]. *)
Lemma float_of_int_nonzero z f s : z <> 0 -> float_of_int z = Ok f -> f <> S754_zero s.
Proof.
  intros Hz Hf ->. pose proof (binary_normalize_nonzero z s Hz).
  unfold float_of_int, finite_or_overflow in Hf. case_match; congruence.
Qed.
