(* ===== verification/PyString.v ===== *)
(** * PyString: the Python string methods the program calls

    Strings are Rocq [string]s, read as sequences of code points below 256
    (the Latin-1 block of Unicode); text outside that block is not modelled.
    [str.strip()] (line 44), [str.startswith] (line 45), [str.replace]
    (line 73), [str.split('/')] with [[-1]] (line 268) and the substring
    test [in] (line 271). *)

From Stdlib Require Import String Ascii Lia Bool.
From stdpp Require Import base list tactics.
From S2P Require Import Prelude.

Local Open Scope string_scope.

(** [Py_UNICODE_ISSPACE] on code points below 256: tab to carriage return,
    the separators 0x1c-0x1f, space, NEL (0x85) and no-break space (0xa0). *)
Definition is_py_space (c : ascii) : bool :=
  let n := nat_of_ascii c in (
  ((9 <=? n) && (n <=? 13)) || ((28 <=? n) && (n <=? 32)) || (n =? 133) || (n =? 160))%nat.

Fixpoint lstrip (s : string) : string :=
  match s with
  | EmptyString => EmptyString
  | String c s' => if is_py_space c then lstrip s' else s
  end.

Fixpoint rstrip (s : string) : string :=
  match s with
  | EmptyString => EmptyString
  | String c s' =>
      let r := rstrip s' in
      if is_py_space c && String.eqb r EmptyString then EmptyString else String c r
  end.

(** [s.strip()]. *)
Definition py_strip (s : string) : string := rstrip (lstrip s).

(** [s.startswith(p)]. *)
Definition py_startswith (s p : string) : bool := String.prefix p s.

(** [sub in s]. *)
Fixpoint py_contains (sub s : string) : bool :=
  String.prefix sub s ||
  match s with
  | EmptyString => false
  | String _ s' => py_contains sub s'
  end.

Fixpoint sdrop (n : nat) (s : string) : string :=
  match n, s with
  | O, _ => s
  | S n', String _ s' => sdrop n' s'
  | S _, EmptyString => EmptyString
  end.

(** [s.replace(old, new)] for a non-empty [old]: scan from the left and
    replace each non-overlapping occurrence.  Each round consumes at least
    one character, so [length s] rounds suffice. *)
Fixpoint replace_fuel (fuel : nat) (old new s : string) : string :=
  match fuel with
  | O => s
  | S f =>
      match s with
      | EmptyString => EmptyString
      | String c s' =>
          if String.prefix old s
          then new ++ replace_fuel f old new (sdrop (String.length old) s)
          else String c (replace_fuel f old new s')
      end
  end.

Definition py_replace (s old new : string) : string :=
  replace_fuel (String.length s) old new s.

(** [s.split(sep)] for a one-character separator. *)
Fixpoint py_split (sep : ascii) (s : string) : list string :=
  match s with
  | EmptyString => [EmptyString]
  | String c s' =>
      let rest := py_split sep s' in
      if Ascii.eqb c sep then EmptyString :: rest
      else
        match rest with
        | r :: rs => String c r :: rs
        | [] => [String c EmptyString]
        end
  end.

(** [s.split('/')[-1]]. *)
Definition last_segment (s : string) : result string := py_last (py_split "/" s).

(** ** Facts *)

Lemma string_app_assoc (s1 s2 s3 : string) : (s1 ++ s2) ++ s3 = s1 ++ (s2 ++ s3).
Proof. induction s1 as [|c s1 IH]; cbn; [done|by rewrite IH]. Qed.

Lemma string_app_nil_r (s : string) : s ++ EmptyString = s.
Proof. induction s as [|c s IH]; cbn; [done|by rewrite IH]. Qed.

Lemma length_sdrop n s : String.length (sdrop n s) = String.length s - n.
Proof. revert s; induction n as [|n IH]; intros [|c s]; cbn; auto; lia. Qed.

(** [str.replace] with a non-empty pattern finishes
    within [len(s)] rounds: any fuel of at least [len(s)] gives the same
    string as [py_replace]. *)
Theorem replace_fuel_enough old new f s :
  old <> EmptyString -> String.length s <= f ->
  replace_fuel f old new s = py_replace s old new.
Proof.
  intros Hold. unfold py_replace.
  assert (forall f1 f2 s, String.length s <= f1 -> String.length s <= f2 ->
            replace_fuel f1 old new s = replace_fuel f2 old new s) as H; [|eauto].
  induction f1 as [|f1 IH]; intros [|f2] [|c s'] H1 H2;
    cbn [replace_fuel String.length] in *; try lia; try done.
  destruct (String.prefix old (String c s')); f_equal; apply IH; try lia.
  all: rewrite length_sdrop; destruct old; [done|cbn [String.length] in *; lia].
Qed.

(** A string without the pattern is left unchanged. *)
Lemma py_replace_absent s old new :
  py_contains old s = false -> py_replace s old new = s.
Proof.
  unfold py_replace. generalize (String.length s) as f. intros f.
  revert s; induction f as [|f IH]; intros [|c s] H; cbn in *; try done.
  apply orb_false_iff in H as [-> H]. by rewrite IH.
Qed.

Lemma py_split_nonempty sep s : py_split sep s <> [].
Proof. destruct s as [|c s]; cbn; [done|]. destruct (Ascii.eqb c sep), (py_split sep s); done. Qed.

(** [s.split('/')[-1]] never raises: [split] returns at least one segment. *)
Lemma last_segment_ok s : exists seg, last_segment s = Ok seg.
Proof.
  unfold last_segment, py_last. destruct (list.last (py_split "/" s)) eqn:E; [eauto|].
  apply last_None in E. by apply py_split_nonempty in E.
Qed.

Lemma py_split_app_sep sep a b :
  py_split sep (a ++ String sep b) = (py_split sep a ++ py_split sep b)%list.
Proof.
  induction a as [|c a IH]; cbn; [by rewrite Ascii.eqb_refl|].
  rewrite IH. destruct (Ascii.eqb c sep); [done|].
  destruct (py_split sep a) eqn:E; [by apply py_split_nonempty in E|done].
Qed.

Lemma py_split_no_sep sep b :
  py_contains (String sep EmptyString) b = false -> py_split sep b = [b].
Proof.
  induction b as [|c b IH]; cbn; [done|]. intros H.
  apply orb_false_iff in H as [H1 H2]. rewrite IH by done.
  destruct (Ascii.eqb_spec c sep) as [->|]; [cbn in H1; destruct (ascii_dec sep sep), b; cbn in H1; congruence|done].
Qed.

(** The last [/]-separated segment of [a/b] is [b] when [b] has no [/]. *)
Lemma last_segment_app a b :
  py_contains "/" b = false -> last_segment (a ++ "/" ++ b) = Ok b.
Proof.
  intros Hb. unfold last_segment. cbn [append].
  rewrite py_split_app_sep, (py_split_no_sep _ b) by done. apply py_last_snoc.
Qed.

(** ** Witnesses *)

Lemma replace_fuel_enough_witness :
  replace_fuel 100 "autocat_new_cracked_potfile" "potfile" "x/autocat_new_cracked_potfile" =
  py_replace "x/autocat_new_cracked_potfile" "autocat_new_cracked_potfile" "potfile".
Proof. apply replace_fuel_enough; [discriminate|vm_compute; lia]. Defined.
