(* ===== verification/PyValue.v ===== *)
(** * PyValue: the Python objects [json.loads] returns, and the operations
    the record extraction applies to them

    [json.loads] builds [None], [bool], [int], [float], [str], [list] and
    [dict] objects.  A JSON object is kept as the list of its key/value pairs
    in document order; as a Python [dict] it is [dict(pairs)]: a key's value
    is its last one, and keys iterate in the order of their first
    occurrence.  The operations are those of lines 52-77 and 268 of
    src/password_cracking_curve.py: [d.get(k, default)], [v[i]], [a + b],
    [v > 0], [a / b], [q * 100], [==] on key tuples and [str()] in the
    f-string of the key. *)

From Stdlib Require Import ZArith SpecFloat String Ascii Lia Bool DecimalString.
From stdpp Require Import base list tactics.
From S2P Require Import Prelude PyFloat PyString.

Local Open Scope string_scope.

Inductive json : Type :=
| JNull
| JBool (b : bool)
| JInt (z : Z)
| JFloat (f : spec_float)
| JStr (s : string)
| JList (l : list json)
| JDict (kvs : list (string * json)).

(** ** Dictionaries *)

(** The value of [k] in [dict(kvs)]: its last occurrence. *)
Fixpoint dict_lookup {A} (k : string) (kvs : list (string * A)) : option A :=
  match kvs with
  | [] => None
  | (k', v) :: t =>
      match dict_lookup k t with
      | Some w => Some w
      | None => if String.eqb k' k then Some v else None
      end
  end.

Definition key_in {A} (k : string) (kvs : list (string * A)) : bool :=
  existsb (fun kv => String.eqb kv.1 k) kvs.

(** [d[k] = v] on an insertion-ordered dict. *)
Fixpoint dict_insert {A} (k : string) (v : A) (d : list (string * A)) : list (string * A) :=
  match d with
  | [] => [(k, v)]
  | (k', v') :: t => if String.eqb k' k then (k', v) :: t else (k', v') :: dict_insert k v t
  end.

(** The items of [dict(kvs)], in iteration order. *)
Definition dict_items {A} (kvs : list (string * A)) : list (string * A) :=
  foldl (fun d kv => dict_insert kv.1 kv.2 d) [] kvs.

(** [d.get(key, dflt)]: only a dict has [get]. *)
Definition py_get (d : json) (key : string) (dflt : json) : result json :=
  match d with
  | JDict kvs => Ok (default dflt (dict_lookup key kvs))
  | _ => Exc AttributeError
  end.

(** [v[i]] for a non-negative int literal [i]: a list or a str is indexed,
    a dict looks the int key up among its str keys, the other objects are
    not subscriptable. *)
Definition py_index (v : json) (i : nat) : result json :=
  match v with
  | JList l => match l !! i with Some x => Ok x | None => Exc IndexError end
  | JStr s => match String.get i s with Some c => Ok (JStr (String c EmptyString)) | None => Exc IndexError end
  | JDict _ => Exc KeyError
  | _ => Exc TypeError
  end.

(** ** Numbers *)

(** [bool] is a subclass of [int]: [True] is [1]. *)
Definition num_view (v : json) : option (Z + spec_float) :=
  match v with
  | JBool b => Some (inl (if b then 1 else 0)%Z)
  | JInt z => Some (inl z)
  | JFloat f => Some (inr f)
  | _ => None
  end.

(** A number object: [bool], [int] or [float]. *)
Definition is_number (v : json) : bool := if num_view v then true else false.

(** [a + b]: numbers (an int operand is converted to float, with
    [OverflowError], when the other is a float), and concatenation of two
    strs or two lists. *)
Definition py_add (a b : json) : result json :=
  match a, b with
  | JStr s, JStr t => Ok (JStr (s ++ t))
  | JList l, JList l' => Ok (JList (l ++ l'))
  | _, _ =>
      match num_view a, num_view b with
      | Some (inl x), Some (inl y) => Ok (JInt (x + y))
      | Some (inl x), Some (inr g) => let? fx := float_of_int x in Ok (JFloat (float_add fx g))
      | Some (inr f), Some (inl y) => let? fy := float_of_int y in Ok (JFloat (float_add f fy))
      | Some (inr f), Some (inr g) => Ok (JFloat (float_add f g))
      | _, _ => Exc TypeError
      end
  end.

(** [v > 0]: a number against the int [0]; any other object raises. *)
Definition py_gt0 (v : json) : result bool :=
  match num_view v with
  | Some (inl x) => Ok (0 <? x)%Z
  | Some (inr f) => Ok (float_gt0 f)
  | None => Exc TypeError
  end.

(** [a / b]: true division of two numbers. *)
Definition py_truediv (a b : json) : result spec_float :=
  match num_view a, num_view b with
  | Some (inl x), Some (inl y) => int_truediv x y
  | Some (inl x), Some (inr g) => let? fx := float_of_int x in float_div fx g
  | Some (inr f), Some (inl y) => let? fy := float_of_int y in float_div f fy
  | Some (inr f), Some (inr g) => float_div f g
  | _, _ => Exc TypeError
  end.

(** [q * n] for a float [q] and an int literal [n]. *)
Definition float_mul_int (q : spec_float) (n : Z) : result spec_float :=
  let? fn := float_of_int n in Ok (float_mul q fn).

(** ** Equality *)

Definition num_eqb (x y : Z + spec_float) : bool :=
  match x, y with
  | inl a, inl b => Z.eqb a b
  | inl a, inr g => float_eq_int g a
  | inr f, inl b => float_eq_int f b
  | inr f, inr g =>
      (* [json.loads] returns one shared NaN object, and [==] inside tuples,
         lists and dicts holds for identical objects *)
      match f, g with
      | S754_nan, S754_nan => true
      | _, _ => float_eqb f g
      end
  end.

(** [a == b] between two objects decoded by [json.loads], as the tuple,
    list and dict comparisons evaluate it ([PyObject_RichCompareBool]). *)
Fixpoint py_eq (a b : json) {struct a} : bool :=
  match a, b with
  | JNull, JNull => true
  | JStr s, JStr t => String.eqb s t
  | JList l1, JList l2 =>
      (fix go (l1 l2 : list json) : bool :=
         match l1, l2 with
         | [], [] => true
         | x :: t1, y :: t2 => py_eq x y && go t1 t2
         | _, _ => false
         end) l1 l2
  | JDict d1, JDict d2 =>
      (length (dict_items d1) =? length (dict_items d2))%nat &&
      (fix go (l : list (string * json)) : bool :=
         match l with
         | [] => true
         | (k, v) :: t =>
             (key_in k t ||
              match dict_lookup k d2 with Some w => py_eq v w | None => false end) && go t
         end) d1
  | _, _ =>
      match num_view a, num_view b with
      | Some x, Some y => num_eqb x y
      | _, _ => false
      end
  end.

(** ** [str()] and [repr()] *)

Definition hex_digit (n : nat) : ascii := ascii_of_nat (if n <? 10 then 48 + n else 87 + n)%nat.

(** [Py_UNICODE_ISPRINTABLE] on code points below 256. *)
Definition is_printable (n : nat) : bool := (
  ((32 <=? n) && (n <? 127)) || ((161 <=? n) && negb (n =? 173)))%nat.

Definition repr_char (q : ascii) (c : ascii) : string :=
  let n := nat_of_ascii c in
  if Ascii.eqb c q || Ascii.eqb c "\" then String "\" (String c EmptyString)
  else if Ascii.eqb c "009" then "\t"
  else if Ascii.eqb c "010" then "\n"
  else if Ascii.eqb c "013" then "\r"
  else if is_printable n then String c EmptyString
  else String "\" (String "x" (String (hex_digit (n / 16)) (String (hex_digit (n mod 16)) EmptyString))).

(** [repr(s)]: single quotes unless [s] has a single and no double quote. *)
Definition repr_str (s : string) : string :=
  let dq := "034"%char in
  let q := if py_contains "'" s && negb (py_contains (String dq EmptyString) s) then dq else "'"%char in
  String q (String.concat EmptyString (map (repr_char q) (list_ascii_of_string s)) ++ String q EmptyString).

(** [str(z)] for an int. *)
Definition int_str (z : Z) : string := NilEmpty.string_of_int (Z.to_int z).

Fixpoint py_repr (v : json) : string :=
  match v with
  | JNull => "None"
  | JBool b => if b then "True" else "False"
  | JInt z => int_str z
  | JFloat f => float_repr f
  | JStr s => repr_str s
  | JList l => "[" ++ String.concat ", " (map py_repr l) ++ "]"
  | JDict kvs =>
      "{" ++ String.concat ", "
        (map (fun kv => repr_str kv.1 ++ ": " ++ kv.2)
           (dict_items (map (fun kv => (kv.1, py_repr kv.2)) kvs))) ++ "}"
  end.

(** [str(v)], which [f"{v}"] formats. *)
Definition py_str (v : json) : string :=
  match v with
  | JStr s => s
  | _ => py_repr v
  end.

(** ** Scalars

    [None], [bool], [int] and [str] objects: those [==] compares by value
    alone.  Hashcat writes [guess_mod] as a str or [null]; on these values
    [==] is an equivalence ([bool] and [int] compare as numbers, [True == 1]),
    which [py_eq] is not everywhere (a dict compared with a list, a float
    against an int beyond 2^53, nested containers). *)

Definition scalar_view (v : json) : option (option (Z + string)) :=
  match v with
  | JNull => Some None
  | JBool b => Some (Some (inl (if b then 1 else 0)%Z))
  | JInt z => Some (Some (inl z))
  | JStr s => Some (Some (inr s))
  | _ => None
  end.

(** Equality of views; every non-scalar object falls in one class. *)
Definition scalar_eqb (a b : option (option (Z + string))) : bool :=
  match a, b with
  | None, None => true
  | Some None, Some None => true
  | Some (Some (inl x)), Some (Some (inl y)) => Z.eqb x y
  | Some (Some (inr s)), Some (Some (inr t)) => String.eqb s t
  | _, _ => false
  end.

Lemma py_eq_scalar a b :
  is_Some (scalar_view a) -> is_Some (scalar_view b) ->
  py_eq a b = scalar_eqb (scalar_view a) (scalar_view b).
Proof. by destruct a, b; intros [? ?] [? ?]. Qed.

Lemma scalar_eqb_refl a : scalar_eqb a a = true.
Proof. destruct a as [[[x|s]|]|]; cbn; [apply Z.eqb_refl|apply String.eqb_refl|done..]. Qed.

Lemma scalar_eqb_sym a b : scalar_eqb a b = scalar_eqb b a.
Proof.
  destruct a as [[[x|s]|]|], b as [[[y|t]|]|]; cbn; try done; [apply Z.eqb_sym|apply String.eqb_sym].
Qed.

Lemma scalar_eqb_trans a b c : scalar_eqb a b = true -> scalar_eqb b c = true -> scalar_eqb a c = true.
Proof.
  destruct a as [[[x|s]|]|], b as [[[y|t]|]|], c as [[[z|u]|]|]; cbn; try done.
  - rewrite !Z.eqb_eq. congruence.
  - rewrite !String.eqb_eq. congruence.
Qed.

(** [a + b] of two numbers is a number, and [a + b] with a number [a]
    succeeds only on a number [b]. *)
Lemma py_add_number a b c : is_number a = true -> py_add a b = Ok c -> is_number c = true.
Proof.
  unfold is_number. destruct a; try discriminate; intros _;
    destruct b; cbn; try discriminate; intros Hc; rsteps; by injection Hc as <-.
Qed.

(** ** Where [ZeroDivisionError] comes from

    Of the operations the parser runs, only a true division raises
    [ZeroDivisionError], and only on a zero divisor: a divisor [b] with
    [b > 0] never makes it raise, [float(b)] included. *)

Lemma float_of_int_no_zde z : float_of_int z <> Exc ZeroDivisionError.
Proof. unfold float_of_int, finite_or_overflow. by case_match. Qed.

Lemma py_get_no_zde d k v : py_get d k v <> Exc ZeroDivisionError.
Proof. by destruct d. Qed.

Lemma py_index_no_zde v i : py_index v i <> Exc ZeroDivisionError.
Proof. destruct v; cbn; repeat case_match; done. Qed.

Lemma py_add_no_zde a b : py_add a b <> Exc ZeroDivisionError.
Proof.
  unfold py_add. repeat case_match; try (intros ?; discriminate).
  all: apply rbind_not_Exc; [apply float_of_int_no_zde|intros ? ? ?; discriminate].
Qed.

Lemma float_mul_int_no_zde q n : float_mul_int q n <> Exc ZeroDivisionError.
Proof. apply rbind_not_Exc; [apply float_of_int_no_zde|intros ? ? [=]]. Qed.

Lemma py_gt0_no_zde v : py_gt0 v <> Exc ZeroDivisionError.
Proof. unfold py_gt0. repeat case_match; intros ?; discriminate. Qed.

Lemma float_div_gt0 f g : float_gt0 g = true -> float_div f g <> Exc ZeroDivisionError.
Proof. destruct g as [[]|[]| |]; done. Qed.

Lemma py_truediv_gt0 a b : py_gt0 b = Ok true -> py_truediv a b <> Exc ZeroDivisionError.
Proof.
  unfold py_gt0, py_truediv. intros Hb.
  destruct (num_view b) as [[y|g]|]; [injection Hb as Hy%Z.ltb_lt|injection Hb as Hg|discriminate];
    destruct (num_view a) as [[x|f]|]; try done.
  - unfold int_truediv. destruct (Z.eqb_spec y 0); [lia|]. case_match; [done|].
    unfold finite_or_overflow. by case_match.
  - apply rbind_not_Exc; [apply float_of_int_no_zde|]. intros fy Hfy. unfold float_div.
    destruct fy as [s| | |]; try done. exfalso. eapply (float_of_int_nonzero y _ s); [lia|exact Hfy|done].
  - apply rbind_not_Exc; [apply float_of_int_no_zde|]. intros fx _. by apply float_div_gt0.
  - by apply float_div_gt0.
Qed.

#[export] Hint Resolve float_of_int_no_zde py_get_no_zde py_index_no_zde py_add_no_zde
  float_mul_int_no_zde py_gt0_no_zde : cc.
