(* ===== verification/Reader.v ===== *)
(** * Reader: the status-record reader of [parse_status_file]

    Lines 34-49 and 99-100 of src/password_cracking_curve.py: a missing file
    gives no records; the file is read in text mode (universal newlines:
    ["\r\n"] and a lone ["\r"] end a line like ["\n"]), each line is
    stripped, a line that does not start with ["{"] is skipped, and a line
    that [json.loads] rejects ([json.JSONDecodeError]) is skipped.  The
    decoder is an interface, [JsonDecoder]; its implementation is the file
    [JsonDecode]. *)

From Stdlib Require Import String Ascii Lia Bool.
From stdpp Require Import base list tactics.
From S2P Require Import Prelude PyString PyValue.

Local Open Scope string_scope.

(** [json.loads]: [None] when it raises [JSONDecodeError]. *)
Class JsonDecoder := json_loads : string -> option json.

(** The file system: the decoded text of each existing file. *)
Definition file_system := string -> option string.

Definition nl : ascii := "010"%char.
Definition cr : ascii := "013"%char.

(** The lines of a text file opened in text mode, each with its ["\n"]. *)
Fixpoint lines_acc (s : list ascii) (cur : list ascii) : list string :=
  match s with
  | [] => match cur with [] => [] | _ => [string_of_list_ascii (rev cur)] end
  | c :: t =>
      if Ascii.eqb c nl then string_of_list_ascii (rev (nl :: cur)) :: lines_acc t []
      else if Ascii.eqb c cr then
        match t with
        | c' :: t' =>
            if Ascii.eqb c' nl then string_of_list_ascii (rev (nl :: cur)) :: lines_acc t' []
            else string_of_list_ascii (rev (nl :: cur)) :: lines_acc t []
        | [] => string_of_list_ascii (rev (nl :: cur)) :: lines_acc t []
        end
      else lines_acc t (c :: cur)
  end.

Definition py_lines (text : string) : list string := lines_acc (list_ascii_of_string text) [].

Section Reader.
Context `{JsonDecoder}.

(** One line: [line = line.strip()], the ["{"] test, [json.loads]. *)
Definition line_record (line : string) : option json :=
  let l := py_strip line in
  if py_startswith l "{" then json_loads l else None.

(** The records of the lines, in file order. *)
Definition status_records (lines : list string) : list json := omap line_record lines.

(** The records of a file: none when [path.exists()] is false. *)
Definition read_records (fs : file_system) (filename : string) : list json :=
  match fs filename with
  | None => []
  | Some text => status_records (py_lines text)
  end.
End Reader.

(** Text made of whole lines: each line followed by ["\n"]. *)
Fixpoint join_lines (ls : list string) : string :=
  match ls with
  | [] => EmptyString
  | l :: t => l ++ String nl (join_lines t)
  end.

(** A line with no line end of its own: no ["\n"] and no ["\r"]. *)
Definition no_eol (s : string) : bool :=
  forallb (fun c => negb (Ascii.eqb c nl || Ascii.eqb c cr)) (list_ascii_of_string s).

(** ** Lines of a text *)

Lemma list_ascii_of_string_app s1 s2 :
  list_ascii_of_string (s1 ++ s2) = (list_ascii_of_string s1 ++ list_ascii_of_string s2)%list.
Proof. induction s1 as [|c s1 IH]; cbn; [done|by rewrite IH]. Qed.

Lemma string_of_list_ascii_app l1 l2 :
  string_of_list_ascii (l1 ++ l2)%list = string_of_list_ascii l1 ++ string_of_list_ascii l2.
Proof. induction l1 as [|c l1 IH]; cbn; [done|by rewrite IH]. Qed.

(** The characters of a line up to its ["\n"] make one line. *)
Lemma lines_acc_line cs rest cur :
  forallb (fun c => negb (Ascii.eqb c nl || Ascii.eqb c cr)) cs = true ->
  lines_acc (cs ++ nl :: rest)%list cur = string_of_list_ascii (rev cur ++ cs ++ [nl])%list :: lines_acc rest [].
Proof.
  revert cur; induction cs as [|c cs IH]; intros cur Hcs; cbn [app lines_acc].
  - by rewrite Ascii.eqb_refl.
  - cbn [forallb] in Hcs. apply andb_true_iff in Hcs as [Hc Hcs].
    apply negb_true_iff, orb_false_iff in Hc as [-> ->].
    rewrite IH by done. cbn [rev]. by rewrite <- app_assoc.
Qed.

(** Reading whole lines, then the rest of the text. *)
Lemma py_lines_join_app ls t :
  Forall (fun l => no_eol l = true) ls ->
  py_lines (join_lines ls ++ t) = (map (fun l => (l ++ String nl EmptyString)%string) ls ++ py_lines t)%list.
Proof.
  unfold py_lines. induction 1 as [|l ls Hl _ IH]; [done|]. cbn [join_lines map app].
  rewrite string_app_assoc, list_ascii_of_string_app. cbn [list_ascii_of_string append].
  rewrite lines_acc_line by done. cbn [rev app]. rewrite IH.
  rewrite string_of_list_ascii_app, string_of_list_ascii_of_string. done.
Qed.

Lemma py_lines_join ls :
  Forall (fun l => no_eol l = true) ls ->
  py_lines (join_lines ls) = map (fun l => (l ++ String nl EmptyString)%string) ls.
Proof.
  intros Hls. rewrite <- (string_app_nil_r (join_lines ls)), py_lines_join_app by done.
  apply app_nil_r.
Qed.

