(* ===== verification/JsonDecode.v ===== *)
(** * JsonDecode: [json.loads] on one stripped line

    The decoder of CPython's [json] module with its default options, as the
    C scanner ([Modules/_json.c]) runs it: [scan_once_unicode] dispatches on
    the first character, [_parse_object_unicode] and [_parse_array_unicode]
    read the members with whitespace [ \t\n\r] around the delimiters,
    [scanstring_unicode] in strict mode refuses control characters, and
    [_match_number_unicode] reads [-?(0|[1-9][0-9]* )(.[0-9]+)?([eE][-+]?[0-9]+)?]
    as an int, or as a float ([float(str)]) when it has a fraction or an
    exponent.  [decode] then refuses anything but whitespace after the
    value.  This file is the library [json], not code of the repository: it
    is modelled from the behaviour of CPython 3.  Escapes [\uXXXX] above
    0xff denote characters outside the strings of this model and are
    refused; Python's limits on nesting depth ([RecursionError]) and on the
    digits of an int ([ValueError]) are not modelled. *)

From Stdlib Require Import ZArith SpecFloat String Ascii Lia Bool.
From stdpp Require Import base list tactics.
From S2P Require Import Prelude PyFloat PyString PyValue Reader.

Local Open Scope char_scope.

Definition is_json_ws (c : ascii) : bool :=
  Ascii.eqb c " " || Ascii.eqb c "009" || Ascii.eqb c "010" || Ascii.eqb c "013".

Fixpoint skip_ws (s : list ascii) : list ascii :=
  match s with
  | c :: t => if is_json_ws c then skip_ws t else s
  | [] => []
  end.

Definition is_digit (c : ascii) : bool :=
  (48 <=? nat_of_ascii c)%nat && (nat_of_ascii c <=? 57)%nat.

(** The longest prefix of digits, and the rest. *)
Fixpoint span_digits (s : list ascii) : list ascii * list ascii :=
  match s with
  | c :: t => if is_digit c then let '(ds, r) := span_digits t in (c :: ds, r) else ([], s)
  | [] => ([], [])
  end.

Definition digits_value (ds : list ascii) : Z :=
  foldl (fun acc c => acc * 10 + Z.of_nat (nat_of_ascii c - 48))%Z 0%Z ds.

(** [_match_number_unicode] after its sign, in three parts.  The integer
    part: ["0"], or a digit from 1 to 9 and the digits after it. *)
Definition int_digits (s : list ascii) : option (list ascii * list ascii) :=
  match s with
  | "0" :: t => Some (["0"], t)
  | c :: t => if is_digit c then let '(ds, r) := span_digits t in Some (c :: ds, r) else None
  | [] => None
  end.

(** The fraction: digits after a ['.'] followed by a digit. *)
Definition frac_digits (r1 : list ascii) : list ascii * list ascii :=
  match r1 with
  | "." :: c :: t => if is_digit c then let '(ds, r) := span_digits t in (c :: ds, r) else ([], r1)
  | _ => ([], r1)
  end.

(** The sign of an exponent. *)
Definition exp_sign (t : list ascii) : bool * list ascii :=
  match t with
  | "-" :: t' => (true, t')
  | "+" :: t' => (false, t')
  | _ => (false, t)
  end.

(** The exponent: ['e'] or ['E'], a sign, digits; without digits the
    scanner backtracks to the ['e']. *)
Definition exp_digits (r2 : list ascii) : option Z * list ascii :=
  match r2 with
  | e :: t =>
      if Ascii.eqb e "e" || Ascii.eqb e "E" then
        let '(eneg, t') := exp_sign t in
        match span_digits t' with
        | ([], _) => (None, r2)
        | (xds, r) => (Some (if eneg then - digits_value xds else digits_value xds)%Z, r)
        end
      else (None, r2)
  | [] => (None, r2)
  end.

(** An int when there is neither fraction nor exponent, a float
    ([float(str)]) otherwise. *)
Definition match_number (neg : bool) (s : list ascii) : option (json * list ascii) :=
  match int_digits s with
  | None => None
  | Some (ids, r1) =>
      let '(fds, r2) := frac_digits r1 in
      let '(exp, r3) := exp_digits r2 in
      match fds, exp with
      | [], None =>
          let m := digits_value ids in Some (JInt (if neg then - m else m)%Z, r3)
      | _, _ =>
          let m := digits_value (ids ++ fds) in
          let e10 := (default 0 exp - Z.of_nat (length fds))%Z in
          Some (JFloat (decimal_to_float neg m e10), r3)
      end
  end.

Definition hex_value (c : ascii) : option Z :=
  let n := nat_of_ascii c in
  if is_digit c then Some (Z.of_nat (n - 48))
  else if (97 <=? n)%nat && (n <=? 102)%nat then Some (Z.of_nat (n - 87))
  else if (65 <=? n)%nat && (n <=? 70)%nat then Some (Z.of_nat (n - 55))
  else None.

Definition simple_escape (c : ascii) : option ascii :=
  if Ascii.eqb c "034" then Some "034"
  else if Ascii.eqb c "\" then Some "\"
  else if Ascii.eqb c "/" then Some "/"
  else if Ascii.eqb c "b" then Some "008"
  else if Ascii.eqb c "f" then Some "012"
  else if Ascii.eqb c "n" then Some "010"
  else if Ascii.eqb c "r" then Some "013"
  else if Ascii.eqb c "t" then Some "009"
  else None.

(** [scanstring_unicode] (strict) after the opening quote; [acc] holds the
    characters read so far, reversed. *)
Fixpoint scan_string (s : list ascii) (acc : list ascii) : option (string * list ascii) :=
  match s with
  | [] => None
  | c :: t =>
      if Ascii.eqb c "034" then Some (string_of_list_ascii (rev acc), t)
      else if Ascii.eqb c "\" then
        match t with
        | "u" :: h1 :: h2 :: h3 :: h4 :: t' =>
            match hex_value h1, hex_value h2, hex_value h3, hex_value h4 with
            | Some a, Some b, Some c', Some d =>
                let n := (((a * 16 + b) * 16 + c') * 16 + d)%Z in
                if (n <? 256)%Z then scan_string t' (ascii_of_nat (Z.to_nat n) :: acc) else None
            | _, _, _, _ => None
            end
        | e :: t' => match simple_escape e with Some ch => scan_string t' (ch :: acc) | None => None end
        | [] => None
        end
      else if (nat_of_ascii c <? 32)%nat then None
      else scan_string t (c :: acc)
  end.

Fixpoint match_literal (lit : list ascii) (s : list ascii) : option (list ascii) :=
  match lit, s with
  | [], _ => Some s
  | l :: lt, c :: t => if Ascii.eqb l c then match_literal lt t else None
  | _ :: _, [] => None
  end.

Definition lit (s : string) : list ascii := list_ascii_of_string s.

Definition float_nan : spec_float := S754_nan.

(** [scan_once_unicode], [_parse_object_unicode] and [_parse_array_unicode]:
    a [switch] on the next character; [fuel] bounds the number of nested
    and successive values. *)
Fixpoint scan_once (fuel : nat) (s : list ascii) : option (json * list ascii) :=
  match fuel with
  | O => None
  | S f =>
      match s with
      | [] => None
      | c :: t =>
          if Ascii.eqb c "034" then
            match scan_string t [] with Some (str, r) => Some (JStr str, r) | None => None end
          else if Ascii.eqb c "{" then
            match skip_ws t with
            | c' :: r => if Ascii.eqb c' "}" then Some (JDict [], r) else parse_members f (c' :: r) []
            | [] => parse_members f [] []
            end
          else if Ascii.eqb c "[" then
            match skip_ws t with
            | c' :: r => if Ascii.eqb c' "]" then Some (JList [], r) else parse_elements f (c' :: r) []
            | [] => parse_elements f [] []
            end
          else if Ascii.eqb c "n" then option_map (fun r => (JNull, r)) (match_literal (lit "null") s)
          else if Ascii.eqb c "t" then option_map (fun r => (JBool true, r)) (match_literal (lit "true") s)
          else if Ascii.eqb c "f" then option_map (fun r => (JBool false, r)) (match_literal (lit "false") s)
          else if Ascii.eqb c "N" then option_map (fun r => (JFloat float_nan, r)) (match_literal (lit "NaN") s)
          else if Ascii.eqb c "I" then
            option_map (fun r => (JFloat (S754_infinity false), r)) (match_literal (lit "Infinity") s)
          else if Ascii.eqb c "-" then
            match match_literal (lit "Infinity") t with
            | Some r => Some (JFloat (S754_infinity true), r)
            | None => match_number true t
            end
          else match_number false s
      end
  end
with parse_members (fuel : nat) (s : list ascii) (acc : list (string * json))
    : option (json * list ascii) :=
  match fuel with
  | O => None
  | S f =>
      match s with
      | c :: t =>
          if Ascii.eqb c "034" then
            match scan_string t [] with
            | None => None
            | Some (k, t1) =>
                match skip_ws t1 with
                | c1 :: t2 =>
                    if Ascii.eqb c1 ":" then
                      match scan_once f (skip_ws t2) with
                      | None => None
                      | Some (v, t3) =>
                          match skip_ws t3 with
                          | c3 :: t4 =>
                              if Ascii.eqb c3 "}" then Some (JDict (rev ((k, v) :: acc)), t4)
                              else if Ascii.eqb c3 "," then parse_members f (skip_ws t4) ((k, v) :: acc)
                              else None
                          | [] => None
                          end
                      end
                    else None
                | [] => None
                end
            end
          else None
      | [] => None
      end
  end
with parse_elements (fuel : nat) (s : list ascii) (acc : list json)
    : option (json * list ascii) :=
  match fuel with
  | O => None
  | S f =>
      match scan_once f s with
      | None => None
      | Some (v, t) =>
          match skip_ws t with
          | c :: t' =>
              if Ascii.eqb c "]" then Some (JList (rev (v :: acc)), t')
              else if Ascii.eqb c "," then parse_elements f (skip_ws t') (v :: acc)
              else None
          | [] => None
          end
      end
  end.

(** [json.loads(line)]: [JSONDecoder.decode] with [raw_decode].  Each
    nested call consumes a character for every two units of fuel it uses,
    so [2 * length s + 1] is enough ([json_loads_fuel_enough]). *)
Definition json_loads_impl (line : string) : option json :=
  let s := skip_ws (list_ascii_of_string line) in
  match scan_once (S (2 * length s)) s with
  | Some (v, rest) => match skip_ws rest with [] => Some v | _ => None end
  | None => None
  end.

#[export] Instance py_json_loads : JsonDecoder := json_loads_impl.

(** ** The fuel of the scanner is enough *)

Lemma skip_ws_length s : length (skip_ws s) <= length s.
Proof. induction s as [|c s IH]; cbn; [done|]. destruct (is_json_ws c); cbn; lia. Qed.

Lemma span_digits_length s ds r : span_digits s = (ds, r) -> length ds + length r = length s.
Proof.
  revert ds r; induction s as [|c s IH]; intros ds r; cbn; [by intros [= <- <-]|].
  destruct (is_digit c); [|by intros [= <- <-]].
  destruct (span_digits s) as [ds' r'] eqn:E. intros [= <- <-]. cbn. rewrite <- (IH _ _ eq_refl). lia.
Qed.

Lemma scan_string_length s acc str r : scan_string s acc = Some (str, r) -> length r < length s.
Proof.
  revert acc; induction s as [s IH] using (induction_ltof1 _ (@length _)); intros acc Hs.
  destruct s as [|c t]; [discriminate|]. cbn in Hs. unfold ltof in IH.
  repeat (case_match; simplify_eq/=); try lia;
    match goal with H : scan_string ?t _ = Some _ |- _ => apply IH in H; cbn in *; lia end.
Qed.

Lemma match_literal_length lit s r : match_literal lit s = Some r -> length r + length lit = length s.
Proof.
  revert s; induction lit as [|l lit IH]; intros s; cbn; [by intros [= <-]; lia|].
  destruct s as [|c t]; [discriminate|]. destruct (Ascii.eqb l c); [|discriminate].
  intros H. apply IH in H. cbn. lia.
Qed.

Lemma int_digits_length s ds r : int_digits s = Some (ds, r) -> length r < length s.
Proof.
  unfold int_digits. intros H. repeat (case_match; simplify_eq/=);
    repeat match goal with H : span_digits _ = _ |- _ => apply span_digits_length in H end; cbn; lia.
Qed.

Lemma frac_digits_length r1 ds r : frac_digits r1 = (ds, r) -> length r <= length r1.
Proof.
  unfold frac_digits. intros H. repeat (case_match; simplify_eq/=);
    repeat match goal with H : span_digits _ = _ |- _ => apply span_digits_length in H end; cbn; lia.
Qed.

Lemma exp_sign_length t b t' : exp_sign t = (b, t') -> length t' <= length t.
Proof. unfold exp_sign. intros H. repeat (case_match; simplify_eq/=); cbn; lia. Qed.

Lemma exp_digits_length r2 e r : exp_digits r2 = (e, r) -> length r <= length r2.
Proof.
  unfold exp_digits. intros H. destruct r2 as [|c t]; [by simplify_eq|].
  destruct (_ || _); [|by simplify_eq].
  destruct (exp_sign t) as [b t'] eqn:Es. apply exp_sign_length in Es.
  destruct (span_digits t') as [[|d ds] r'] eqn:Ed; simplify_eq; [done|].
  apply span_digits_length in Ed. cbn in *. lia.
Qed.

Lemma match_number_length neg s v r : match_number neg s = Some (v, r) -> length r < length s.
Proof.
  unfold match_number. intros Hm.
  destruct (int_digits s) as [[ids r1]|] eqn:E1; [|discriminate]. apply int_digits_length in E1.
  destruct (frac_digits r1) as [fds r2] eqn:E2. apply frac_digits_length in E2.
  destruct (exp_digits r2) as [ex r3] eqn:E3. apply exp_digits_length in E3.
  destruct fds, ex; simplify_eq; lia.
Qed.

(** Turn the equations a case analysis of the scanner leaves into facts
    on lengths. *)
Ltac json_len :=
  repeat match goal with
  | H : skip_ws ?a = ?b |- _ =>
      let L := fresh "L" in pose proof (skip_ws_length a) as L; rewrite H in L; clear H
  | H : scan_string _ _ = Some (_, _) |- _ => apply scan_string_length in H
  | H : match_number _ _ = Some (_, _) |- _ => apply match_number_length in H
  | H : match_literal _ _ = Some _ |- _ => apply match_literal_length in H
  | H : context [skip_ws ?a] |- _ =>
      let L := fresh "L" in let w := fresh "w" in
      pose proof (skip_ws_length a) as L; set (w := skip_ws a) in *; clearbody w
  | |- context [skip_ws ?a] =>
      let L := fresh "L" in let w := fresh "w" in
      pose proof (skip_ws_length a) as L; set (w := skip_ws a) in *; clearbody w
  end; cbn [length lit list_ascii_of_string] in *.

(** Every value the scanner reads consumes input. *)
Lemma scan_length n :
  (forall s v r, scan_once n s = Some (v, r) -> length r < length s) /\
  (forall s acc v r, parse_members n s acc = Some (v, r) -> length r < length s) /\
  (forall s acc v r, parse_elements n s acc = Some (v, r) -> length r < length s).
Proof.
  induction n as [|n (IH1 & IH2 & IH3)]; [split_and!; done|].
  split_and!; [intros s v r Hs|intros s acc v r Hs|intros s acc v r Hs];
    cbn [scan_once parse_members parse_elements] in Hs;
    repeat (case_match; cbn [option_map] in *; simplify_eq);
    repeat match goal with
    | H : option_map _ ?o = Some _ |- _ => destruct o eqn:?; cbn [option_map] in H; simplify_eq
    | H : scan_once _ _ = Some _ |- _ => apply IH1 in H
    | H : parse_members _ _ _ = Some _ |- _ => apply IH2 in H
    | H : parse_elements _ _ _ = Some _ |- _ => apply IH3 in H
    end; json_len; lia.
Qed.

(** The length facts of the scanner's results, for [lia]. *)
Ltac scan_len :=
  repeat match goal with
  | H : scan_once ?k _ = Some (_, _) |- _ => apply (proj1 (scan_length k)) in H
  | H : parse_members ?k _ _ = Some (_, _) |- _ => apply (proj1 (proj2 (scan_length k))) in H
  | H : parse_elements ?k _ _ = Some (_, _) |- _ => apply (proj2 (proj2 (scan_length k))) in H
  end; json_len; lia.

(** Fuel beyond twice the input does not change what the scanner reads. *)
Lemma scan_fuel n :
  (forall s m, 2 * length s < n -> n <= m -> scan_once m s = scan_once n s) /\
  (forall s acc m, 2 * length s + 1 < n -> n <= m -> parse_members m s acc = parse_members n s acc) /\
  (forall s acc m, 2 * length s + 1 < n -> n <= m -> parse_elements m s acc = parse_elements n s acc).
Proof.
  induction n as [|n (IH1 & IH2 & IH3)]; [split_and!; intros; lia|].
  split_and!; [intros s m Hs Hm|intros s acc m Hs Hm|intros s acc m Hs Hm];
    (destruct m as [|m]; [lia|]); cbn [scan_once parse_members parse_elements];
    repeat first
      [ match goal with
        | |- context [scan_once m ?x] => rewrite (IH1 x m) by (scan_len || lia)
        | |- context [parse_members m ?x ?a] => rewrite (IH2 x a m) by (scan_len || lia)
        | |- context [parse_elements m ?x ?a] => rewrite (IH3 x a m) by (scan_len || lia)
        end
      | case_match; subst ];
    done.
Qed.

(** The fuel of [json_loads_impl] is enough: with
    any fuel of at least [2 * length s + 1], the scanner reads the same
    value and leaves the same rest, so the model decodes a line as the
    unbounded scanner does and never drops it for lack of fuel. *)
Lemma json_loads_fuel_enough line m :
  S (2 * length (skip_ws (list_ascii_of_string line))) <= m ->
  json_loads_impl line =
    match scan_once m (skip_ws (list_ascii_of_string line)) with
    | Some (v, rest) => match skip_ws rest with [] => Some v | _ => None end
    | None => None
    end.
Proof.
  intros Hm. unfold json_loads_impl. cbv zeta.
  set (s := skip_ws (list_ascii_of_string line)) in *.
  rewrite (proj1 (scan_fuel (S (2 * length s))) s m); [done|lia|done].
Qed.

