(* ===== verification/Parser.v ===== *)
(** * Parser: [HashcatStatusParser.parse_status_file]

    Lines 16-102 of src/password_cracking_curve.py.  The loop keeps the
    running counters [guesses] and [elapsed_seconds] and the curve state of
    [Segmenter]; each decoded record goes through the value extraction of
    lines 52-77 ([extract]) and the phase-transition step of lines 79-94
    ([seg_step]), then [elapsed_seconds] grows by [status_timer].  Any
    exception other than [JSONDecodeError] leaves the loop and the call. *)

From Stdlib Require Import ZArith SpecFloat String Ascii Lia Bool.
From stdpp Require Import base list tactics.
From S2P Require Import Prelude Segmenter PyFloat PyString PyValue Reader.

Local Open Scope string_scope.

(** The attributes of a [HashcatStatusParser] besides [filename]. *)
Record parser_cfg := mk_cfg {
  x_axis_type : string;
  y_axis_type : string;
  status_timer : Z
}.

(** The phase key [(f"{time_start}/{guess_base}", guess_mod)]. *)
Definition key : Type := string * json.

(** [key != current_identifier] compares the two tuples item by item. *)
Definition key_eqb (a b : key) : bool := String.eqb a.1 b.1 && py_eq a.2 b.2.

(** A key whose [guess_mod] is [None], a bool, an int or a str. *)
Definition scalar_key (k : key) : Prop := is_Some (scalar_view k.2).

(** [key_eqb] on scalar keys, extended to an equivalence on all keys. *)
Definition key_class_eqb (a b : key) : bool :=
  String.eqb a.1 b.1 && scalar_eqb (scalar_view a.2) (scalar_view b.2).

(** [s.replace(old, new)]: only a str has [replace]. *)
Definition str_replace (v : json) (old new : string) : result string :=
  match v with
  | JStr s => Ok (py_replace s old new)
  | _ => Exc AttributeError
  end.

(** Line 52: [data.get("progress", [0])[0]]. *)
Definition progress_of (data : json) : result json :=
  let? pr := py_get data "progress" (JList [JInt 0]) in
  py_index pr 0.

(** Lines 55-57: [cracked] and [total]. *)
Definition recovered_of (data : json) : result (json * json) :=
  let? recovered := py_get data "recovered_hashes" (JList [JInt 0; JInt 0]) in
  let? cracked := py_index recovered 0 in
  let? r1 := py_index recovered 1 in
  let? pos := py_gt0 r1 in
  let? r1' := py_index recovered 1 in
  Ok (cracked, if pos then r1' else JInt 1).

(** Lines 72-77: the phase key. *)
Definition phase_key (data : json) : result key :=
  let? g := py_get data "guess" (JDict []) in
  let? gb := py_get g "guess_base" (JStr "unknown") in
  let? guess_base := str_replace gb "autocat_new_cracked_potfile" "potfile" in
  let? g' := py_get data "guess" (JDict []) in
  let? guess_mod := py_get g' "guess_mod" JNull in
  let? time_start := py_get data "time_start" (JStr "unknown") in
  Ok (py_str time_start ++ "/" ++ guess_base, guess_mod).

(** Lines 52-77: the new [guesses] and the record's key and point. *)
Definition extract (cfg : parser_cfg) (guesses : json) (elapsed : Z) (data : json)
    : result (json * (key * json * json)) :=
  let? progress := progress_of data in
  let? guesses' := py_add guesses progress in
  let? '(cracked, total) := recovered_of data in
  let x_value := if String.eqb (x_axis_type cfg) "time" then JInt elapsed else guesses' in
  let? y_value :=
    if String.eqb (y_axis_type cfg) "count" then Ok cracked
    else let? q := py_truediv cracked total in
         let? r := float_mul_int q 100 in
         Ok (JFloat r) in
  let? k := phase_key data in
  Ok (guesses', (k, x_value, y_value)).

(** [a <= b] between two ints; [false] on anything else. *)
Definition int_leb (a b : json) : bool :=
  match a, b with
  | JInt m, JInt n => (m <=? n)%Z
  | _, _ => false
  end.

(** The local state of the loop. *)
Record loop_state := mk_loop {
  lseg : seg_state (K:=key) (X:=json) (Y:=json);
  guesses : json;
  elapsed_seconds : Z
}.

Definition loop_init : loop_state := mk_loop seg_init (JInt 0) 0.

Section Parse.
Context `{JsonDecoder}.
Variable cfg : parser_cfg.

(** Lines 51-97 for one decoded record. *)
Definition process_record (st : loop_state) (data : json) : result loop_state :=
  let? '(g, (k, x, y)) := extract cfg (guesses st) (elapsed_seconds st) data in
  let? s := seg_step key_eqb (JInt 0) (JInt 0) k x y (lseg st) in
  Ok (mk_loop s g (elapsed_seconds st + status_timer cfg)).

(** Lines 44-100 for one line. *)
Definition parse_line (st : loop_state) (line : string) : result loop_state :=
  let l := py_strip line in
  if negb (py_startswith l "{") then Ok st
  else
    match json_loads l with
    | None => Ok st
    | Some data => process_record st data
    end.

Fixpoint parse_lines (st : loop_state) (lines : list string) : result loop_state :=
  match lines with
  | [] => Ok st
  | l :: t => let? st' := parse_line st l in parse_lines st' t
  end.

(** [parse_status_file]: [(curves_x, curves_y, label_list)]. *)
Definition parse_status_file (fs : file_system) (filename : string)
    : result (list (list json) * list (list json) * list key) :=
  match fs filename with
  | None => Ok ([], [], [])
  | Some text =>
      let? st := parse_lines loop_init (py_lines text) in
      Ok (curves_x (lseg st), curves_y (lseg st), label_list (lseg st))
  end.

(** ** The same computation in the spec's two stages *)

(** The points of the records, with the final counters. *)
Fixpoint extract_all (g : json) (el : Z) (recs : list json)
    : result (list (key * json * json) * json * Z) :=
  match recs with
  | [] => Ok ([], g, el)
  | d :: t =>
      let? '(g', p) := extract cfg g el d in
      let? '(ps, g'', el') := extract_all g' (el + status_timer cfg) t in
      Ok (p :: ps, g'', el')
  end.

(** Reader, extraction, then the abstract segmentation into runs. *)
Definition curves_spec (fs : file_system) (filename : string)
    : result (list (list json) * list (list json) * list key) :=
  let? '(pts, _, _) := extract_all (JInt 0) 0 (read_records fs filename) in
  let s := spec_state (JInt 0) (JInt 0) (runs_of key_eqb pts) in
  Ok (curves_x s, curves_y s, label_list s).
End Parse.

Section ParseFacts.
Context `{JsonDecoder}.
Variable cfg : parser_cfg.

Lemma status_records_cons l t :
  status_records (l :: t) =
  match line_record l with Some d => d :: status_records t | None => status_records t end.
Proof. done. Qed.

(** From a well-formed curve state, the loop is extraction of all the
    records followed by the segmenter's fold over their points. *)
Lemma parse_lines_spec st lines : seg_wf (lseg st) ->
  parse_lines cfg st lines =
    let? '(pts, g, el) := extract_all cfg (guesses st) (elapsed_seconds st) (status_records lines) in
    let? s := seg_fold key_eqb (JInt 0) (JInt 0) (lseg st) pts in
    Ok (mk_loop s g el).
Proof.
  revert st; induction lines as [|l t IH]; intros [s g el] Hwf; [done|].
  cbn [parse_lines]. rewrite status_records_cons. unfold parse_line, line_record.
  destruct (py_startswith (py_strip l) "{"); cbn [negb]; [|by apply IH].
  destruct (json_loads (py_strip l)) as [d|]; [|by apply IH].
  cbn [extract_all lseg guesses elapsed_seconds]. unfold process_record.
  cbn [lseg guesses elapsed_seconds].
  destruct (extract cfg g el d) as [[g' [[k x] y]]|e]; [|done]. cbn [rbind].
  destruct (seg_step_wf key_eqb (JInt 0) (JInt 0) s k x y Hwf) as (s' & Hs' & Hwf').
  rewrite Hs'. cbn [rbind]. rewrite IH by done. cbn [lseg guesses elapsed_seconds].
  destruct (extract_all cfg g' (el + status_timer cfg) (status_records t)) as [[[ps g''] el']|e];
    cbn [rbind seg_fold]; [|done].
  by rewrite Hs'.
Qed.

(** The loop is the extraction of all records, then the phase steps. *)
Lemma parse_status_file_run fs f :
  parse_status_file cfg fs f =
    let? '(pts, _, _) := extract_all cfg (JInt 0) 0 (read_records fs f) in
    let? s := seg_run key_eqb (JInt 0) (JInt 0) pts in
    Ok (curves_x s, curves_y s, label_list s).
Proof.
  unfold parse_status_file, read_records. destruct (fs f) as [text|]; [|done].
  rewrite (parse_lines_spec loop_init) by auto with cc. cbn [lseg guesses elapsed_seconds loop_init].
  destruct (extract_all cfg (JInt 0) 0 (status_records (py_lines text))) as [[[pts g] el]|e];
    cbn [rbind]; [|done].
  unfold seg_run. by destruct (seg_fold key_eqb (JInt 0) (JInt 0) seg_init pts).
Qed.

(** The code computes the spec's pipeline: read the records, extract
    their points, cut them into maximal runs and stitch the runs. *)
Lemma parse_status_file_spec fs f : parse_status_file cfg fs f = curves_spec cfg fs f.
Proof.
  rewrite parse_status_file_run. unfold curves_spec.
  destruct (extract_all _ _ _ _) as [[[pts g] el]|e]; cbn [rbind]; [|done].
  by rewrite seg_run_spec.
Qed.

Lemma key_eqb_class a b : scalar_key a -> scalar_key b -> key_eqb a b = key_class_eqb a b.
Proof. intros Ha Hb. unfold key_eqb, key_class_eqb. by rewrite py_eq_scalar. Qed.

Lemma key_class_refl k : key_class_eqb k k = true.
Proof. unfold key_class_eqb. by rewrite String.eqb_refl, scalar_eqb_refl. Qed.

Lemma key_class_sym a b : key_class_eqb a b = key_class_eqb b a.
Proof. unfold key_class_eqb. by rewrite String.eqb_sym, scalar_eqb_sym. Qed.

Lemma key_class_trans a b c :
  key_class_eqb a b = true -> key_class_eqb b c = true -> key_class_eqb a c = true.
Proof.
  unfold key_class_eqb. rewrite !andb_true_iff, !String.eqb_eq.
  intros [-> Hab] [-> Hbc]. split; [done|]. by eapply scalar_eqb_trans.
Qed.

(** On points whose keys are scalar keys, [key_eqb] is [key_class_eqb]. *)
Lemma scalar_keys_agree (pts : list (key * json * json)) :
  Forall (fun p => scalar_key (pt_key p)) pts -> keq_agree key_eqb key_class_eqb pts.
Proof.
  intros Hs p q Hp Hq. rewrite Forall_forall in Hs. apply key_eqb_class; apply Hs; by apply list_elem_of_In.
Qed.

Lemma parse_lines_app st l1 l2 :
  parse_lines cfg st (l1 ++ l2) = let? st1 := parse_lines cfg st l1 in parse_lines cfg st1 l2.
Proof.
  revert st; induction l1 as [|l t IH]; intros st; [done|]. cbn [app parse_lines].
  destruct (parse_line cfg st l); cbn [rbind]; [apply IH|done].
Qed.

(** A line only adds to the curves and labels. *)
Lemma parse_line_extends st l st' :
  parse_line cfg st l = Ok st' ->
  extends (curves_x (lseg st)) (curves_x (lseg st')) /\ extends (curves_y (lseg st)) (curves_y (lseg st')) /\
  label_list (lseg st) `prefix_of` label_list (lseg st').
Proof.
  unfold parse_line, process_record. intros Hl.
  destruct (negb _); [injection Hl as <-; split_and!; auto with cc|].
  destruct (json_loads _); [|injection Hl as <-; split_and!; auto with cc].
  rsteps. injection Hl as <-. cbn [lseg]. by eapply seg_step_extends.
Qed.

Lemma parse_lines_extends st lines st' :
  parse_lines cfg st lines = Ok st' ->
  extends (curves_x (lseg st)) (curves_x (lseg st')) /\ extends (curves_y (lseg st)) (curves_y (lseg st')) /\
  label_list (lseg st) `prefix_of` label_list (lseg st').
Proof.
  revert st; induction lines as [|l t IH]; intros st Hp; cbn [parse_lines] in Hp.
  - injection Hp as <-. split_and!; auto with cc.
  - destruct (parse_line cfg st l) as [st1|] eqn:E; cbn [rbind] in Hp; [|discriminate].
    destruct (parse_line_extends _ _ _ E) as (Hx & Hy & Hl). destruct (IH _ Hp) as (Hx' & Hy' & Hl').
    split_and!; [by eapply extends_trans..|by trans (label_list (lseg st1))].
Qed.

(** The loop keeps the curve state well formed. *)
Lemma parse_lines_wf st lines st' :
  seg_wf (lseg st) -> parse_lines cfg st lines = Ok st' -> seg_wf (lseg st').
Proof.
  revert st; induction lines as [|l t IH]; intros st Hwf Hp; cbn in Hp; [by injection Hp as <-|].
  destruct (parse_line cfg st l) as [st1|e] eqn:E; [|discriminate Hp]. cbn in Hp.
  apply (IH st1); [|done]. unfold parse_line, process_record in E.
  destruct (negb _); [by injection E as <-|]. destruct (json_loads _); [|by injection E as <-].
  destruct (extract _ _ _ _) as [[g' [[k x] y]]|]; [|discriminate E]. cbn in E.
  destruct (seg_step_wf key_eqb (JInt 0) (JInt 0) (lseg st) k x y Hwf) as (s' & Hs' & Hwf').
  rewrite Hs' in E. by injection E as <-.
Qed.

(** One record less. *)
Lemma extract_all_cons g el d t pts g' el' :
  extract_all cfg g el (d :: t) = Ok (pts, g', el') ->
  exists g1 p ps, extract cfg g el d = Ok (g1, p) /\
    extract_all cfg g1 (el + status_timer cfg) t = Ok (ps, g', el') /\ pts = p :: ps.
Proof. cbn [extract_all]. intros Hx. rsteps. injection Hx as <- <- <-. eauto 6. Qed.

(** An int [progress] adds to an int [guesses]. *)
Lemma extract_guesses_int z0 z el d g1 p :
  progress_of d = Ok (JInt z) -> extract cfg (JInt z0) el d = Ok (g1, p) -> g1 = JInt (z0 + z).
Proof. unfold extract. intros Hd Hx. rewrite Hd in Hx. cbn [rbind py_add num_view] in Hx. rsteps. by injection Hx as <- _. Qed.

(** The values [extract] produces: a number for [guesses] and for x, and
    a number for y unless y is the raw [cracked] field (count mode). *)
Lemma extract_number g el d g' k x y :
  extract cfg g el d = Ok (g', (k, x, y)) -> is_number g = true ->
  is_number g' = true /\ is_number x = true /\ (y_axis_type cfg <> "count" -> is_number y = true).
Proof.
  unfold extract. intros Hx Hg. rsteps. injection Hx as <- <- <- <-.
  match goal with H : py_add _ _ = Ok _ |- _ => pose proof (py_add_number _ _ _ Hg H) as Hn end.
  split_and!; [done|by destruct (_ =? "time")|].
  intros Hc. apply String.eqb_neq in Hc.
  match goal with H : (if _ =? "count" then _ else _) = Ok _ |- _ => rewrite Hc in H; rsteps; by injection H as <- end.
Qed.

(** Over all records: numbers on the x axis, and on the y axis out of
    count mode. *)
Lemma extract_all_number g el recs pts g' el' :
  is_number g = true -> extract_all cfg g el recs = Ok (pts, g', el') ->
  Forall (fun p => is_number (pt_x p) = true) pts /\
  (y_axis_type cfg <> "count" -> Forall (fun p => is_number (pt_y p) = true) pts).
Proof.
  revert g el pts; induction recs as [|d t IH]; intros g el pts Hg Hx.
  - invc Hx. split; [constructor|intros; constructor].
  - destruct (extract_all_cons _ _ _ _ _ _ _ Hx) as (g1 & [[k x] y] & ps & Ex & E & ->).
    destruct (extract_number _ _ _ _ _ _ _ Ex Hg) as (Hg1 & Hnx & Hny).
    destruct (IH _ _ _ Hg1 E) as [Hxs Hys]. split; [by constructor|].
    intros Hc. constructor; [by apply Hny|by apply Hys].
Qed.

(** The x value of a record: the elapsed time, or the new [guesses]. *)
Lemma extract_x g el d g' k x y :
  extract cfg g el d = Ok (g', (k, x, y)) ->
  x = if String.eqb (x_axis_type cfg) "time" then JInt el else g'.
Proof. unfold extract. intros Hx. rsteps. by injection Hx as <- <- <- <-. Qed.

(** The elapsed counter after the loop: [status_timer] per record. *)
Lemma extract_all_elapsed g el recs pts g' el' :
  extract_all cfg g el recs = Ok (pts, g', el') ->
  (el' = el + status_timer cfg * Z.of_nat (length recs))%Z /\ length pts = length recs.
Proof.
  revert g el pts; induction recs as [|d t IH]; intros g el pts Hx.
  - injection Hx as <- <- <-. cbn. lia.
  - destruct (extract_all_cons _ _ _ _ _ _ _ Hx) as (g1 & p & ps & _ & E & ->).
    destruct (IH _ _ _ E) as [-> Hl]. cbn. lia.
Qed.

(** The running sum: [guesses += progress] on int progress values. *)
Lemma extract_all_guesses z0 el recs zs pts g' el' :
  Forall2 (fun d z => progress_of d = Ok (JInt z)) recs zs ->
  extract_all cfg (JInt z0) el recs = Ok (pts, g', el') ->
  g' = JInt (foldr Z.add z0 zs).
Proof.
  intros Hzs. revert z0 el pts g' el'.
  induction Hzs as [|d z recs zs Hd Hzs IH]; intros z0 el pts g' el' Hx.
  - by inversion Hx.
  - destruct (extract_all_cons _ _ _ _ _ _ _ Hx) as (g1 & p & ps & Ex & E & ->).
    rewrite (extract_guesses_int _ _ _ _ _ _ Hd Ex) in E.
    rewrite (IH _ _ _ _ _ E). f_equal. apply foldr_Zadd_acc.
Qed.

(** In time mode the x values are [el, el + t, el + 2t, ...]: ordered when
    [t >= 0]. *)
Lemma extract_all_time_chain a el g recs pts g' el' :
  x_axis_type cfg = "time" -> (0 <= status_timer cfg)%Z -> (a <= el)%Z ->
  extract_all cfg g el recs = Ok (pts, g', el') -> chainb int_leb (JInt a :: map pt_x pts) = true.
Proof.
  intros Ht Hpos. revert a el g pts; induction recs as [|d t IH]; intros a el g pts Ha Hx.
  - by invc Hx.
  - destruct (extract_all_cons _ _ _ _ _ _ _ Hx) as (g1 & [[k x] y] & ps & Ex & E & ->).
    apply extract_x in Ex. rewrite Ht in Ex. subst x. cbn [map].
    autorewrite with cc_rw. apply andb_true_iff. split; [by apply Z.leb_le|].
    apply (IH el (el + status_timer cfg)%Z g1); [lia|exact E].
Qed.

(** In guesses mode the x values are the running sums of the progress
    values: ordered when these are ints [>= 0]. *)
Lemma extract_all_guesses_chain a z0 el recs zs pts g' el' :
  x_axis_type cfg <> "time" -> Forall2 (fun d z => progress_of d = Ok (JInt z)) recs zs ->
  Forall (Z.le 0) zs -> (a <= z0)%Z ->
  extract_all cfg (JInt z0) el recs = Ok (pts, g', el') -> chainb int_leb (JInt a :: map pt_x pts) = true.
Proof.
  intros Ht Hzs. apply String.eqb_neq in Ht.
  revert a z0 el pts; induction Hzs as [|d z recs zs Hd Hzs IH]; intros a z0 el pts Hnn Ha Hx.
  - by invc Hx.
  - destruct (extract_all_cons _ _ _ _ _ _ _ Hx) as (g1 & [[k x] y] & ps & Ex & E & ->).
    pose proof (extract_guesses_int _ _ _ _ _ _ Hd Ex) as ->.
    apply extract_x in Ex. rewrite Ht in Ex. subst x. cbn [map].
    apply Forall_cons_1 in Hnn as [Hz Hnn].
    autorewrite with cc_rw. apply andb_true_iff. split; [apply Z.leb_le; lia|].
    exact (IH (z0 + z) (z0 + z) (el + status_timer cfg) ps Hnn (Z.le_refl _) E)%Z.
Qed.

Lemma parse_ok_runs fs f cx cy ls :
  parse_status_file cfg fs f = Ok (cx, cy, ls) ->
  exists pts g el, extract_all cfg (JInt 0) 0 (read_records fs f) = Ok (pts, g, el) /\
    cx = stitch pt_x (JInt 0) (runs_of key_eqb pts) /\
    cy = stitch pt_y (JInt 0) (runs_of key_eqb pts) /\
    ls = omap run_head_key (runs_of key_eqb pts).
Proof.
  rewrite parse_status_file_spec. unfold curves_spec.
  destruct (extract_all _ _ _ _) as [[[pts g] el]|]; cbn; [|discriminate].
  intros Hp. injection Hp as <- <- <-. by exists pts, g, el.
Qed.

Lemma parse_ok_wf fs f cx cy ls :
  parse_status_file cfg fs f = Ok (cx, cy, ls) -> seg_wf (mk_seg cx cy ls (list.last ls)).
Proof.
  unfold parse_status_file. destruct (fs f) as [text|]; cbn.
  - destruct (parse_lines cfg loop_init (py_lines text)) as [st|] eqn:E; cbn; [|discriminate].
    intros Hp. injection Hp as <- <- <-.
    pose proof (parse_lines_wf loop_init _ _ seg_init_wf E) as (H1 & H2 & H3 & H4).
    split_and!; done.
  - intros Hp. injection Hp as <- <- <-. auto with cc.
Qed.

Lemma status_records_nil junk :
  Forall (fun l => line_record l = None) junk -> status_records junk = [].
Proof. induction 1 as [|l t Hl _ IH]; [done|]. by rewrite status_records_cons, Hl. Qed.

Lemma parse_lines_init_ok lines st :
  parse_lines cfg loop_init lines = Ok st ->
  exists pts, extract_all cfg (JInt 0) 0 (status_records lines) = Ok (pts, guesses st, elapsed_seconds st).
Proof.
  rewrite (parse_lines_spec loop_init) by auto with cc. cbn [guesses elapsed_seconds loop_init].
  destruct (extract_all _ _ _ _) as [[[pts g] el]|]; cbn [rbind]; [|discriminate].
  destruct (seg_fold _ _ _ _ _); cbn; [|discriminate]. intros Hst. injection Hst as <-. by exists pts.
Qed.

Lemma status_records_app l1 l2 :
  status_records (l1 ++ l2)%list = (status_records l1 ++ status_records l2)%list.
Proof. apply omap_app. Qed.
(** The records after a prefix that extracts: the prefix's counters carry
    over. *)
Lemma extract_all_app g el l1 l2 :
  extract_all cfg g el (l1 ++ l2)%list =
    let? '(ps1, g1, el1) := extract_all cfg g el l1 in
    let? '(ps2, g2, el2) := extract_all cfg g1 el1 l2 in Ok ((ps1 ++ ps2)%list, g2, el2).
Proof.
  revert g el. induction l1 as [|d t IH]; intros g el; cbn [app extract_all].
  - cbn. by destruct (extract_all cfg g el l2) as [[[? ?] ?]|].
  - destruct (extract cfg g el d) as [[g' p]|]; cbn; [|done]. rewrite IH.
    destruct (extract_all cfg g' _ t) as [[[ps1 g1] el1]|]; cbn; [|done].
    by destruct (extract_all cfg g1 el1 l2) as [[[ps2 g2] el2]|].
Qed.

(** Lines 55-56 on a [recovered_hashes] list of fewer than two items:
    [recovered[0]] or [recovered[1]] raises [IndexError]. *)
Lemma recovered_short d rl :
  py_get d "recovered_hashes" (JList [JInt 0; JInt 0]) = Ok (JList rl) -> length rl < 2 ->
  recovered_of d = Exc IndexError.
Proof.
  intros Hg Hl. unfold recovered_of. rewrite Hg. cbn.
  destruct rl as [|v [|w rl]]; cbn in *; [done|done|lia].
Qed.

(** ** No [ZeroDivisionError]

    The divisor of line 69 is [total], which line 57 makes [> 0]. *)

Lemma recovered_of_gt0 d c t : recovered_of d = Ok (c, t) -> py_gt0 t = Ok true.
Proof.
  unfold recovered_of. destruct (py_get _ _ _) as [rc|]; cbn; [|discriminate].
  destruct (py_index rc 0) as [cr|]; cbn; [|discriminate].
  destruct (py_index rc 1) as [r1|] eqn:E1; cbn; [|discriminate].
  destruct (py_gt0 r1) as [[]|] eqn:Eg; cbn; [|..|discriminate]; rewrite ?E1; cbn;
    intros [= _ <-]; done.
Qed.

Lemma str_replace_no_zde v o n : str_replace v o n <> Exc ZeroDivisionError.
Proof. destruct v; intros ?; discriminate. Qed.
#[local] Hint Resolve str_replace_no_zde : cc.

(** Runs a chain of binds none of whose stages raises [ZeroDivisionError]. *)
Local Ltac no_zde :=
  repeat (apply rbind_not_Exc; [auto with cc|intros ? _]); first [intros ?; discriminate|auto with cc].

Lemma extract_no_zde g el d : extract cfg g el d <> Exc ZeroDivisionError.
Proof.
  unfold extract.
  apply rbind_not_Exc; [unfold progress_of; no_zde|intros ? _].
  apply rbind_not_Exc; [auto with cc|intros ? _].
  apply rbind_not_Exc; [unfold recovered_of; no_zde|intros [c t] Hr; cbn beta iota].
  apply rbind_not_Exc.
  - destruct (_ =? "count"); [intros ?; discriminate|].
    apply rbind_not_Exc; [by eapply py_truediv_gt0, recovered_of_gt0|intros ? _]. no_zde.
  - intros y _. unfold phase_key. no_zde.
Qed.

Lemma extract_all_no_zde g el recs : extract_all cfg g el recs <> Exc ZeroDivisionError.
Proof.
  revert g el. induction recs as [|d t IH]; intros g el; cbn [extract_all]; [intros ?; discriminate|].
  apply rbind_not_Exc; [apply extract_no_zde|intros [g' p] _].
  apply rbind_not_Exc; [apply IH|intros [[ps g''] el'] _; discriminate].
Qed.
End ParseFacts.

Section ParseClaims.
Context `{JsonDecoder}.
Variable cfg : parser_cfg.

(** C1 (refinement).  [parse_status_file] computes the spec's pipeline:
    it reads the records of the file ([read_records]: stripped lines
    starting with ["{"] that decode), extracts the key and point of each
    ([extract_all]), cuts the points into runs ([runs_of]) and stitches
    each run's curve to the previous one ([spec_state]); an exception of
    the extraction is the exception of the call. *)
Theorem parse_status_file_refines fs f :
  parse_status_file cfg fs f = curves_spec cfg fs f.
Proof. apply parse_status_file_spec. Qed.

(** C2 (functional).  The curves of a successful parse are the stitched
    curves of a segmentation of the record points into maximal runs: the
    runs concatenate to the points, every key of a run compares equal
    ([==]) to the run's first key, the first keys of two consecutive runs
    compare unequal, and the labels are the runs' first keys. *)
Theorem parse_curves_maximal_runs fs f cx cy ls :
  parse_status_file cfg fs f = Ok (cx, cy, ls) ->
  exists pts rs g el, extract_all cfg (JInt 0) 0 (read_records fs f) = Ok (pts, g, el) /\
    segmentation key_eqb pts rs /\
    cx = stitch pt_x (JInt 0) rs /\ cy = stitch pt_y (JInt 0) rs /\ ls = omap run_head_key rs.
Proof.
  intros Hp. destruct (parse_ok_runs cfg _ _ _ _ _ Hp) as (pts & g & el & Hx & -> & -> & ->).
  exists pts, (runs_of key_eqb pts), g, el. split_and!; [done|apply runs_of_segmentation|done..].
Qed.

(** C3 (invariant).  Stitching continuity: in a successful parse, the first
    point of every curve after the first is the last point of the curve
    before it, in both the x and the y lists. *)
Theorem parse_status_file_continuity fs f cx cy ls :
  parse_status_file cfg fs f = Ok (cx, cy, ls) ->
  (forall i c c', cx !! i = Some c -> cx !! S i = Some c' -> head c' = list.last c) /\
  (forall i d d', cy !! i = Some d -> cy !! S i = Some d' -> head d' = list.last d).
Proof.
  intros Hp. destruct (parse_ok_runs cfg _ _ _ _ _ Hp) as (pts & g & el & _ & -> & -> & _).
  split; intros i c c'; apply stitch_continuity.
Qed.

(** C4 (invariant).  The three lists of a successful parse are parallel:
    as many x curves, y curves and labels, and every curve has as many x
    as y values and at least two points (its start and one record). *)
Theorem parse_status_file_shape fs f cx cy ls :
  parse_status_file cfg fs f = Ok (cx, cy, ls) ->
  length cx = length ls /\ length cy = length ls /\
  Forall2 (fun a b => length a = length b /\ 2 <= length a) cx cy.
Proof. intros Hp. by destruct (parse_ok_wf cfg _ _ _ _ _ Hp) as (H1 & H2 & H3 & _). Qed.

(** C8 (functional).  Malformed-line tolerance: lines that are not
    records (after [strip] they do not start with ["{"], or [json.loads]
    rejects them) change nothing, wherever they are inserted. *)
Theorem parse_lines_skip_nonrecords l1 junk l2 :
  Forall (fun l => line_record l = None) junk ->
  parse_lines cfg loop_init (l1 ++ junk ++ l2) = parse_lines cfg loop_init (l1 ++ l2).
Proof.
  intros Hj. rewrite !(parse_lines_spec cfg loop_init) by auto with cc.
  by rewrite !status_records_app, (status_records_nil junk Hj).
Qed.

(** C9 (functional).  When every record's [progress[0]] is an int, the
    [guesses] counter after the loop is the sum of these ints. *)
Theorem parse_guesses_sum lines st zs :
  parse_lines cfg loop_init lines = Ok st ->
  Forall2 (fun d z => progress_of d = Ok (JInt z)) (status_records lines) zs ->
  guesses st = JInt (foldr Z.add 0%Z zs).
Proof.
  intros Hp Hzs. destruct (parse_lines_init_ok cfg _ _ Hp) as (pts & Hx).
  exact (extract_all_guesses cfg 0 0 _ _ _ _ _ Hzs Hx).
Qed.

(** After the loop, [elapsed_seconds] is
    [status_timer] times the number of decoded records, whatever the
    records hold. *)
Theorem parse_elapsed lines st :
  parse_lines cfg loop_init lines = Ok st ->
  elapsed_seconds st = (status_timer cfg * Z.of_nat (length (status_records lines)))%Z.
Proof.
  intros Hp. destruct (parse_lines_init_ok cfg _ _ Hp) as (pts & Hx).
  destruct (extract_all_elapsed cfg _ _ _ _ _ _ Hx) as [-> _]. lia.
Qed.

(** C11 (error).  A record whose [recovered_hashes] is a list of fewer
    than two items, reached after records that the loop processed and
    with its [progress] added to [guesses] without error, makes
    [recovered[0]] or [recovered[1]] (lines 55-56) raise [IndexError]: the
    whole call raises, whatever the records after it, and no curve is
    returned; the record is not skipped as an undecodable line is. *)
Theorem short_recovered_aborts fs f pre d rest pts g el g' rl :
  read_records fs f = (pre ++ d :: rest)%list ->
  extract_all cfg (JInt 0) 0 pre = Ok (pts, g, el) ->
  (let? p := progress_of d in py_add g p) = Ok g' ->
  py_get d "recovered_hashes" (JList [JInt 0; JInt 0]) = Ok (JList rl) -> length rl < 2 ->
  parse_status_file cfg fs f = Exc IndexError.
Proof.
  intros Hr Hpre Hg Hrec Hlen. rewrite parse_status_file_spec. unfold curves_spec.
  rewrite Hr, extract_all_app, Hpre. cbn [rbind extract_all]. unfold extract.
  apply rbind_Ok in Hg as (p & Hp & Ha). rewrite Hp. cbn [rbind]. rewrite Ha. cbn [rbind].
  by rewrite (recovered_short _ _ Hrec Hlen).
Qed.

(** C10 (safety).  No status file makes [parse_status_file] raise
    [ZeroDivisionError]: the divisor of [(cracked / total) * 100] (line
    69) is [recovered[1]] only when [recovered[1] > 0] and [1] otherwise
    (line 57), whatever [recovered_hashes] holds ([0], a negative number,
    [False], [0.0], NaN), and [float(total)] of an int [total > 0] is not
    zero. *)
Theorem parse_no_zero_division fs f : parse_status_file cfg fs f <> Exc ZeroDivisionError.
Proof.
  rewrite parse_status_file_spec. unfold curves_spec.
  apply rbind_not_Exc; [apply extract_all_no_zde|intros [[pts g] el] _; discriminate].
Qed.

(** C16 (functional).  A missing file, an empty file, or a file with no
    record gives no curves and no labels. *)
Theorem parse_no_records fs f :
  read_records fs f = [] -> parse_status_file cfg fs f = Ok ([], [], []).
Proof. intros Hr. rewrite parse_status_file_spec. unfold curves_spec. by rewrite Hr. Qed.
(** C28 (functional).  For a file whose records all carry a [guess_mod]
    that is [null], a bool, an int or a str (hashcat writes a str or
    [null]), the number of curves, and of labels, is the number of records
    whose key differs from the previous record's key: the curve count of
    [Segmenter] holds for the program's own key comparison. *)
Theorem parse_curve_count fs f cx cy ls pts g el :
  parse_status_file cfg fs f = Ok (cx, cy, ls) ->
  extract_all cfg (JInt 0) 0 (read_records fs f) = Ok (pts, g, el) ->
  Forall (fun p => scalar_key (pt_key p)) pts ->
  length cx = key_changes key_eqb None pts /\ length cy = key_changes key_eqb None pts /\
  length ls = key_changes key_eqb None pts.
Proof.
  intros Hp He Hs. rewrite parse_status_file_run, He in Hp. cbn [rbind] in Hp.
  pose proof (scalar_keys_agree pts Hs) as Hag.
  rewrite (seg_run_ext _ _ _ _ _ Hag) in Hp.
  destruct (seg_run key_class_eqb _ _ pts) as [s|] eqn:Er; cbn [rbind] in Hp; [|discriminate].
  injection Hp as <- <- <-.
  rewrite (key_changes_ext key_eqb key_class_eqb).
  - apply (seg_run_curve_count key_class_eqb (JInt 0) (JInt 0) key_class_refl key_class_sym
             key_class_trans _ _ Er).
  - intros p k Hp [[=]|(q & Hq & ->)]. by apply Hag.
Qed.
(** C29 (invariant).  With the time axis and [status_timer >= 0], every
    curve's x values are in order: the anchor [0], then the elapsed
    counter [0, t, 2t, ...] of the records, each curve a stretch of it. *)
Theorem parse_time_axis_ordered fs f cx cy ls :
  x_axis_type cfg = "time" -> (0 <= status_timer cfg)%Z ->
  parse_status_file cfg fs f = Ok (cx, cy, ls) ->
  Forall (fun c => chainb int_leb c = true) cx.
Proof.
  intros Ht Hpos Hp. destruct (parse_ok_runs cfg _ _ _ _ _ Hp) as (pts & g & el & Hx & -> & _).
  apply stitch_chain. destruct (runs_of_segmentation key_eqb pts) as (-> & _).
  exact (extract_all_time_chain cfg 0 0 (JInt 0) _ _ g el Ht Hpos (Z.le_refl 0) Hx)%Z.
Qed.

(** C30 (invariant).  With the guesses axis and int progress values
    [>= 0], every curve's x values are in order: the anchor [0], then the
    running sums of [progress[0]]. *)
Theorem parse_guesses_axis_ordered fs f cx cy ls zs :
  x_axis_type cfg <> "time" ->
  Forall2 (fun d z => progress_of d = Ok (JInt z)) (read_records fs f) zs -> Forall (Z.le 0) zs ->
  parse_status_file cfg fs f = Ok (cx, cy, ls) ->
  Forall (fun c => chainb int_leb c = true) cx.
Proof.
  intros Ht Hzs Hnn Hp. destruct (parse_ok_runs cfg _ _ _ _ _ Hp) as (pts & g & el & Hx & -> & _).
  apply stitch_chain. destruct (runs_of_segmentation key_eqb pts) as (-> & _).
  exact (extract_all_guesses_chain cfg 0 0 0 _ zs _ g el Ht Hzs Hnn (Z.le_refl 0) Hx)%Z.
Qed.
(** C36 (type).  The curves of a successful parse hold numbers ([int],
    [float] or [bool]) on the x axis, and on the y axis unless the y axis
    is the raw count: [guesses] starts at the int [0] and [+] of a number
    and a non-number raises, the elapsed counter is an int, and a
    percentage is a float. *)
Theorem parse_values_numeric fs f cx cy ls :
  parse_status_file cfg fs f = Ok (cx, cy, ls) ->
  Forall (Forall (fun v => is_number v = true)) cx /\
  (y_axis_type cfg <> "count" -> Forall (Forall (fun v => is_number v = true)) cy).
Proof.
  intros Hp. destruct (parse_ok_runs cfg _ _ _ _ _ Hp) as (pts & g & el & Hx & -> & -> & _).
  destruct (runs_of_segmentation key_eqb pts) as (Hc & _).
  destruct (extract_all_number cfg (JInt 0) 0 _ _ _ _ eq_refl Hx) as [Hxs Hys].
  split; [|intros Hy]; apply stitch_Forall; rewrite ?Hc; auto.
Qed.
(** C21 (invariant).  A status file that grows keeps its curves: when
    text is appended after whole lines, every curve of the parse before is
    a prefix of the curve at its index after, and the labels before are a
    prefix of the labels after.  Records only add points, to the last
    curve or as new curves, so a live view never redraws its history. *)
Theorem parse_append_extends fs fs' f l1 t cx cy ls cx' cy' ls' :
  fs f = Some (join_lines l1) -> fs' f = Some (join_lines l1 ++ t) ->
  Forall (fun l => no_eol l = true) l1 ->
  parse_status_file cfg fs f = Ok (cx, cy, ls) -> parse_status_file cfg fs' f = Ok (cx', cy', ls') ->
  extends cx cx' /\ extends cy cy' /\ ls `prefix_of` ls'.
Proof.
  unfold parse_status_file. intros -> -> Hl1 Hp Hp'.
  rewrite py_lines_join in Hp by done. rewrite py_lines_join_app, parse_lines_app in Hp' by done.
  destruct (parse_lines cfg loop_init _) as [st|]; cbn [rbind] in Hp, Hp'; [|discriminate].
  injection Hp as <- <- <-. rsteps. injection Hp' as <- <- <-.
  by eapply parse_lines_extends.
Qed.
End ParseClaims.
