(* ===== verification/Downsample.v ===== *)
(** * Downsample: the thinning of long curves in [_create_figure]

    Lines 252-264 of src/password_cracking_curve.py: a curve of more than
    1000 points keeps every 60th point ([curves_x[k][::60]]) and, when the
    stride misses it, its last point ([curves_x[k][-1]]).  The decision is
    taken on the x list and applied to both lists. *)

From Stdlib Require Import Lia Bool.
From stdpp Require Import base list tactics.
From S2P Require Import Prelude.

(** [l[::k]]: the elements at indices 0, k, 2k, ...; [n] counts the
    elements still to skip before the next one is kept. *)
Fixpoint stride_from {A} (k n : nat) (l : list A) : list A :=
  match l with
  | [] => []
  | x :: t =>
      match n with
      | O => x :: stride_from k (k - 1) t
      | S n' => stride_from k n' t
      end
  end.

Definition slice_step {A} (k : nat) (l : list A) : list A := stride_from k 0 l.

Definition sample_rate : nat := 60.

Section Downsample.
Context {X Y : Type}.

(** Lines 253-264 for the curve pair [(curves_x[k], curves_y[k])]. *)
Definition downsample (cx : list X) (cy : list Y) : result (list X * list Y) :=
  if 1000 <? length cx then
    let sx := slice_step sample_rate cx in
    let sy := slice_step sample_rate cy in
    if negb ((length cx - 1) mod sample_rate =? 0) then
      let? lx := py_last cx in
      let? ly := py_last cy in
      Ok (sx ++ [lx], sy ++ [ly])
    else Ok (sx, sy)
  else Ok (cx, cy).
End Downsample.

(** ** [l[::k]] *)

Section Slice.
Context {A : Type}.

Lemma stride_from_lookup k n (l : list A) i :
  0 < k -> n < k ->
  stride_from k n l !! i = l !! (n + i * k).
Proof.
  intros Hk. revert n i; induction l as [|x l IH]; intros n i Hn; [done|].
  destruct n as [|n]; cbn [stride_from].
  - destruct i as [|i]; [done|].
    change ((x :: stride_from k (k - 1) l) !! S i) with (stride_from k (k - 1) l !! i).
    rewrite IH by lia. replace (0 + S i * k) with (S (k - 1 + i * k)) by lia. done.
  - rewrite IH by lia. done.
Qed.

(** [l[::k]] holds the elements of [l] at indices [0, k, 2k, ...]. *)
Lemma slice_step_lookup k (l : list A) i :
  0 < k -> slice_step k l !! i = l !! (i * k).
Proof. intros Hk. unfold slice_step. rewrite stride_from_lookup by lia. f_equal. Qed.

Lemma length_stride_from k n (l : list A) :
  0 < k -> n < k ->
  length (stride_from k n l) = (length l + (k - 1 - n)) / k.
Proof.
  intros Hk. revert n; induction l as [|x l IH]; intros n Hn.
  - cbn. symmetry. apply Nat.div_small. lia.
  - destruct n as [|n]; cbn [stride_from length].
    + rewrite IH by lia. replace (S (length l) + (k - 1 - 0)) with (length l + (k - 1 - (k - 1)) + 1 * k) by lia.
      rewrite Nat.div_add by lia. lia.
    + rewrite IH by lia. f_equal. lia.
Qed.

(** [len(l[::k]) == ceil(len(l) / k)]. *)
Lemma length_slice_step k (l : list A) :
  0 < k -> length (slice_step k l) = (length l + (k - 1)) / k.
Proof. intros Hk. unfold slice_step. rewrite length_stride_from by lia. f_equal. lia. Qed.
End Slice.

(** ** Endpoints *)

Section Endpoints.
Context {X Y : Type}.

Lemma slice_step_head {A} (l : list A) : head (slice_step sample_rate l) = head l.
Proof. rewrite !head_lookup, slice_step_lookup by (unfold sample_rate; lia). done. Qed.

(** When [(len(l) - 1) % 60 == 0] the stride ends on the last element. *)
Lemma slice_step_last_aligned {A} (l : list A) :
  (length l - 1) mod sample_rate = 0 -> l <> [] ->
  list.last (slice_step sample_rate l) = list.last l.
Proof.
  unfold sample_rate. intros Hm Hne. rewrite !last_lookup, slice_step_lookup, length_slice_step by lia.
  destruct l as [|a l]; [done|]. cbn [length] in *. f_equal.
  rewrite Nat.sub_1_r in Hm. cbn [Nat.pred] in Hm.
  pose proof (Nat.div_mod_eq (length l) 60) as Hd. rewrite Hm in Hd.
  replace (S (length l) + (60 - 1)) with (length l / 60 * 60 + 1 * 60) by lia.
  rewrite Nat.div_add_l by lia. replace (1 * 60 / 60) with 1 by reflexivity.
  rewrite Nat.add_1_r. cbn [Nat.pred]. lia.
Qed.

Lemma downsample_ends (cx : list X) (cy : list Y) :
  length cy = length cx -> cx <> [] ->
  exists sx sy, downsample cx cy = Ok (sx, sy) /\
    head sx = head cx /\ head sy = head cy /\
    list.last sx = list.last cx /\ list.last sy = list.last cy.
Proof.
  intros Hl Hne. assert (cy <> []) as Hne' by (intros ->; destruct cx; done).
  unfold downsample. destruct (1000 <? length cx); [|by eexists _, _].
  destruct ((length cx - 1) mod sample_rate =? 0) eqn:Hm; cbn [negb].
  - apply Nat.eqb_eq in Hm. eexists _, _. split; [done|].
    rewrite !slice_step_head, !slice_step_last_aligned by (rewrite ?Hl; done). done.
  - destruct (list.last cx) as [lx|] eqn:Ex; [|by apply last_None in Ex].
    destruct (list.last cy) as [ly|] eqn:Ey; [|by apply last_None in Ey].
    unfold py_last. rewrite Ex, Ey. cbn [rbind]. eexists _, _. split; [done|].
    rewrite !head_app, !slice_step_head, !last_snoc.
    destruct cx, cy; done.
Qed.

(** C7 (functional).  Downsampling never raises on a curve pair of equal
    non-zero length, and keeps the first and the last point of both
    lists: the endpoints of a thinned curve are exact. *)
Theorem downsample_endpoints (cx : list X) (cy : list Y) :
  length cy = length cx -> cx <> [] ->
  exists sx sy, downsample cx cy = Ok (sx, sy) /\
    head sx = head cx /\ head sy = head cy /\
    list.last sx = list.last cx /\ list.last sy = list.last cy.
Proof. apply downsample_ends. Qed.
End Endpoints.

(** C17 (functional).  Downsampling keeps the x and y values paired: the
    thinned lists have equal lengths, and the [i]-th kept point
    [(sx[i], sy[i])] is a point [(cx[j], cy[j])] of the curve, both lists
    being cut at the same indices (the stride, and the last point when the
    stride misses it). *)
Theorem downsample_keeps_pairs {X Y} (cx : list X) (cy : list Y) sx sy :
  length cy = length cx -> downsample cx cy = Ok (sx, sy) ->
  length sy = length sx /\
  (forall i x, sx !! i = Some x -> exists j, cx !! j = Some x /\ sy !! i = cy !! j).
Proof.
  intros Hl. assert (Hk : 0 < sample_rate) by (unfold sample_rate; lia).
  assert (Hlen : length (slice_step sample_rate cy) = length (slice_step sample_rate cx))
    by (rewrite !length_slice_step, Hl by done; done).
  assert (Hs : forall i x, slice_step sample_rate cx !! i = Some x ->
                 exists j, cx !! j = Some x /\ slice_step sample_rate cy !! i = cy !! j).
  { intros i x Hi. exists (i * sample_rate). by rewrite <-!slice_step_lookup. }
  unfold downsample. destruct (1000 <? length cx).
  2: { intros [= <- <-]. split; [done|]. intros i x Hi. by exists i. }
  destruct (negb _); [|intros [= <- <-]; by split].
  unfold py_last. destruct (list.last cx) as [lx|] eqn:Ex; cbn; [|discriminate].
  destruct (list.last cy) as [ly|] eqn:Ey; cbn; [|discriminate]. intros [= <- <-].
  rewrite !length_app, Hlen. split; [done|]. intros i x Hi.
  destruct (decide (i < length (slice_step sample_rate cx))) as [Hlt|Hge].
  - rewrite lookup_app_l in Hi by done. rewrite lookup_app_l by lia. by apply Hs.
  - rewrite lookup_app_r in Hi by lia. rewrite lookup_app_r by lia. rewrite Hlen.
    apply list_lookup_singleton_Some in Hi as [Hi0 <-]. rewrite Hi0.
    rewrite last_lookup in Ex. rewrite last_lookup, Hl in Ey. by exists (pred (length cx)).
Qed.

(** C35 (bounds).  A curve of at most 1000 points is drawn as it is; a
    longer one is cut to at most [ceil(n / 60) + 1] points. *)
Theorem downsample_size {X Y} (cx : list X) (cy : list Y) sx sy :
  downsample cx cy = Ok (sx, sy) ->
  (length cx <= 1000 -> sx = cx /\ sy = cy) /\
  (1000 < length cx -> length sx <= (length cx + (sample_rate - 1)) / sample_rate + 1).
Proof.
  unfold downsample. destruct (1000 <? length cx) eqn:Hn; [apply Nat.ltb_lt in Hn|apply Nat.ltb_ge in Hn].
  - intros Hd. split; [lia|]. intros _.
    destruct (negb _); [|injection Hd as <- _; rewrite length_slice_step by (unfold sample_rate; lia); lia].
    rsteps. injection Hd as <- _. rewrite length_app, length_slice_step by (unfold sample_rate; lia). cbn. lia.
  - intros Hd. injection Hd as <- <-. split; [done|lia].
Qed.

(** ** Witnesses *)

Lemma downsample_endpoints_witness :
  exists sx sy, downsample (seq 0 1001) (seq 0 1001) = Ok (sx, sy) /\
    head sx = head (seq 0 1001) /\ head sy = head (seq 0 1001) /\
    list.last sx = list.last (seq 0 1001) /\ list.last sy = list.last (seq 0 1001).
Proof. apply downsample_endpoints; [reflexivity|discriminate]. Defined.

Lemma downsample_keeps_pairs_witness :
  length (seq 0 1001) = length (seq 0 1001) /\
  length (slice_step 60 (seq 0 1001) ++ [1000]) = length (slice_step 60 (seq 0 1001) ++ [1000]) /\
  (forall i x, (slice_step 60 (seq 0 1001) ++ [1000]) !! i = Some x ->
    exists j, seq 0 1001 !! j = Some x /\ (slice_step 60 (seq 0 1001) ++ [1000]) !! i = seq 0 1001 !! j).
Proof. split; [reflexivity|]. apply (downsample_keeps_pairs (seq 0 1001) (seq 0 1001)); vm_compute; reflexivity. Defined.
