(* ===== verification/Figure.v ===== *)
(** * Figure: the traces of [_create_figure]

    Lines 234-295 of src/password_cracking_curve.py: for each parser, in the
    order of the [parsers] dict, parse the file, then for each curve [k]
    downsample it, build its legend label from the key (lines 267-268),
    colour potfile phases black unless disabled (lines 271-274) and add a
    trace grouped under the file's stem.  The axis titles follow the axis
    types.  A figure is the arguments the code gives plotly: those of
    [fig.update_layout] and of each [go.Scatter]; plotly's rendering of
    them is not modelled. *)

From Stdlib Require Import ZArith String Ascii Lia Bool.
From stdpp Require Import base list tactics.
From S2P Require Import Prelude Segmenter PyString PyValue Reader Parser Downsample.

Local Open Scope string_scope.

(** The arguments of [go.Scatter] (lines 276-284). *)
Record trace := mk_trace {
  tr_x : list json;
  tr_y : list json;
  tr_mode : string;
  tr_name : string;
  tr_color : option string;
  tr_group : string;
  tr_group_title : option string
}.

(** [fig.update_layout(...)] (lines 286-293) and the traces. *)
Record figure := mk_figure {
  fig_x_title : string;
  fig_y_title : string;
  fig_template : string;
  fig_legend_title : string;
  fig_hovermode : string;
  fig_margin : Z * Z;
  fig_traces : list trace
}.

(** Line 268: [f"{base} {mod}"] of the last [/]-segments, or the base's
    alone when [guess_mod] is [None]; [guess_mod.split] needs a str. *)
Definition attack_label (k : key) : result string :=
  match k.2 with
  | JNull => last_segment k.1
  | gm =>
      let? b := last_segment k.1 in
      let? m := match gm with JStr s => last_segment s | _ => Exc AttributeError end in
      Ok (b ++ " " ++ m)
  end.

(** Lines 271-274. *)
Definition trace_color (guess_base : string) (no_potfile_highlight : bool) : option string :=
  if py_contains "potfile" guess_base && negb no_potfile_highlight then Some "black" else None.

(** [Path(p).name]: the last component of the path once [pathlib] has
    dropped its empty and ["."] components ([a//b/], [a/./b]); [""] for a
    path with none. *)
Definition path_name (p : string) : string :=
  default EmptyString
    (list.last (filter (fun c => negb (String.eqb c EmptyString || String.eqb c ".")) (py_split "/" p))).

(** [Path(p).stem]: the name without its last suffix; a dot that starts
    the name or ends it does not start a suffix. *)
Definition path_stem (p : string) : string :=
  let name := path_name p in
  let parts := py_split "." name in
  match parts with
  | [] | [_] => name
  | first :: _ =>
      let suffix := default EmptyString (list.last parts) in
      if String.eqb (String.concat "." (removelast parts)) EmptyString
         || String.eqb suffix EmptyString
      then name
      else String.concat "." (removelast parts)
  end.

(** Lines 252-284 for the curve [k] of a file. *)
Definition curve_trace (file_name : string) (no_potfile_highlight : bool)
    (curves_x curves_y : list (list json)) (labels : list key) (k : nat) : result trace :=
  let? cx := py_nth curves_x k in
  let? cy := py_nth curves_y k in
  let? '(sx, sy) := downsample cx cy in
  let? lab := py_nth labels k in
  let? name := attack_label lab in
  Ok (mk_trace sx sy "lines" name (trace_color lab.1 no_potfile_highlight) file_name
               (if (k =? 0)%nat then Some file_name else None)).

(** Lines 247-284 for one file. *)
Definition file_traces (cfg : parser_cfg) `{JsonDecoder} (fs : file_system)
    (no_potfile_highlight : bool) (file_path : string) : result (list trace) :=
  let? '(cx, cy, ls) := parse_status_file cfg fs file_path in
  map_result (curve_trace (path_stem file_path) no_potfile_highlight cx cy ls) (seq 0 (length cx)).

(** Lines 239-240: the axis titles. *)
Definition x_axis_title (x_axis_type : string) : string :=
  if String.eqb x_axis_type "time" then "Time (seconds)" else "Number of hashes tested".

Definition y_axis_title (y_axis_type : string) : string :=
  if String.eqb y_axis_type "count" then "Cracked passwords (count)" else "Cracked passwords (%)".

(** Lines 246-284: the traces of every file, in the order of [parsers]. *)
Definition figure_traces `{JsonDecoder} (fs : file_system) (no_potfile_highlight : bool)
    (parsers : list (string * parser_cfg)) : result (list trace) :=
  let? tss := map_result (fun fp => file_traces fp.2 fs no_potfile_highlight fp.1) parsers in
  Ok (concat tss).

(** Lines 236 and 286-293: the figure with its layout. *)
Definition make_figure (x_title y_title : string) (traces : list trace) : figure :=
  mk_figure x_title y_title "plotly_white" "Files and Attack Phases" "x unified" (30, 60)%Z traces.

(** [_create_figure]: the titles, then the files in the order of [parsers]. *)
Definition create_figure `{JsonDecoder} (fs : file_system) (x_axis_type y_axis_type : string)
    (no_potfile_highlight : bool) (parsers : list (string * parser_cfg)) : result figure :=
  let x_title := x_axis_title x_axis_type in
  let y_title := y_axis_title y_axis_type in
  let? ts := figure_traces fs no_potfile_highlight parsers in
  Ok (make_figure x_title y_title ts).

(** ** Labels, colours, and the traces of one file *)

Lemma curve_trace_inv fn nph cx cy ls k t :
  curve_trace fn nph cx cy ls k = Ok t ->
  exists c d lab, cx !! k = Some c /\ cy !! k = Some d /\ ls !! k = Some lab /\
    downsample c d = Ok (tr_x t, tr_y t) /\ attack_label lab = Ok (tr_name t) /\
    tr_color t = trace_color lab.1 nph /\ tr_group t = fn /\
    tr_group_title t = (if (k =? 0)%nat then Some fn else None).
Proof.
  unfold curve_trace. intros Ht. rsteps. injection Ht as <-.
  repeat match goal with H : py_nth _ _ = Ok _ |- _ => apply py_nth_Ok in H end.
  eexists _, _, _. split_and!; eassumption || done.
Qed.

(** The traces of a file are the curves [0 .. len(curves_x) - 1], in order. *)
Lemma file_traces_inv cfg `{JsonDecoder} fs nph f ts cx cy ls :
  parse_status_file cfg fs f = Ok (cx, cy, ls) -> file_traces cfg fs nph f = Ok ts ->
  length ts = length cx /\
  forall i t, ts !! i = Some t -> curve_trace (path_stem f) nph cx cy ls i = Ok t.
Proof.
  intros Hp Hm. unfold file_traces in Hm. rewrite Hp in Hm. cbn [rbind] in Hm. split.
  - by rewrite (map_result_length _ _ _ Hm), length_seq.
  - intros i t Ht. destruct (map_result_lookup _ _ _ _ _ Hm Ht) as (k & Hk & Hct).
    by apply lookup_seq in Hk as [-> _].
Qed.

Lemma trace_color_cases gb nph : trace_color gb nph = None \/ trace_color gb nph = Some "black".
Proof. unfold trace_color. destruct (_ && _); auto. Qed.

(** The legend label of a curve is the last
    [/]-segment of its [guess_base], followed by a space and the last
    [/]-segment of its [guess_mod] when there is one. *)
Theorem attack_label_segments ts b gm m :
  py_contains "/" b = false -> py_contains "/" m = false ->
  attack_label (ts ++ "/" ++ b, JNull) = Ok b /\
  attack_label (ts ++ "/" ++ b, JStr (gm ++ "/" ++ m)) = Ok (b ++ " " ++ m).
Proof. intros Hb Hm. unfold attack_label. cbn [fst snd]. by rewrite !last_segment_app. Qed.

(** C25 (functional).  Every trace of a figure is black or has no colour:
    the per-file palette [colors] of line 243 is computed ([file_color]) and
    never given to a trace. *)
Theorem create_figure_colors `{JsonDecoder} fs xt yt nph ps fig :
  create_figure fs xt yt nph ps = Ok fig ->
  Forall (fun t => tr_color t = None \/ tr_color t = Some "black") (fig_traces fig).
Proof.
  unfold create_figure, figure_traces. destruct (map_result _ ps) as [tss|] eqn:E; cbn; [|discriminate].
  intros Hf. injection Hf as <-. cbn. apply Forall_concat.
  refine (map_result_Forall _ _ _ _ _ E). clear. intros [fp cfg] ts. cbn [fst snd].
  unfold file_traces. destruct (parse_status_file _ _ _) as [[[cx cy] ls]|]; cbn; [|discriminate].
  apply map_result_Forall. intros k t Ht.
  destruct (curve_trace_inv _ _ _ _ _ _ _ Ht) as (c & d & lab & _ & _ & _ & _ & _ & -> & _). apply trace_color_cases.
Qed.

(** C27 (invariant).  The traces drawn for one file connect: the first
    point of each trace is the last point of the trace before it, after
    downsampling, in both coordinates. *)
Theorem file_traces_connect cfg `{JsonDecoder} fs nph f ts :
  file_traces cfg fs nph f = Ok ts ->
  forall i t t', ts !! i = Some t -> ts !! S i = Some t' ->
  head (tr_x t') = list.last (tr_x t) /\ head (tr_y t') = list.last (tr_y t).
Proof.
  intros Hm i t t' Ht Ht'.
  destruct (parse_status_file cfg fs f) as [[[cx cy] ls]|] eqn:Hp;
    [|unfold file_traces in Hm; rewrite Hp in Hm; discriminate].
  destruct (file_traces_inv _ _ _ _ _ _ _ _ Hp Hm) as [_ Hts].
  destruct (curve_trace_inv _ _ _ _ _ _ _ (Hts _ _ Ht)) as (c & d & _ & Hc & Hd & _ & Hds & _).
  destruct (curve_trace_inv _ _ _ _ _ _ _ (Hts _ _ Ht')) as (c' & d' & _ & Hc' & Hd' & _ & Hds' & _).
  destruct (parse_ok_wf cfg _ _ _ _ _ Hp) as (_ & _ & Hf & _).
  pose proof (Forall2_lookup_lr _ _ _ _ _ _ Hf Hc Hd) as [Hl H2].
  pose proof (Forall2_lookup_lr _ _ _ _ _ _ Hf Hc' Hd') as [Hl' H2'].
  destruct (downsample_ends c d) as (sx & sy & Hs & _ & _ & Hlx & Hly);
    [done|by intros ->; cbn in H2; lia|].
  destruct (downsample_ends c' d') as (sx' & sy' & Hs' & Hhx & Hhy & _ & _);
    [done|by intros ->; cbn in H2'; lia|].
  rewrite Hds in Hs. rewrite Hds' in Hs'. injection Hs as -> ->. injection Hs' as -> ->.
  destruct (parse_ok_runs cfg _ _ _ _ _ Hp) as (pts & g & el & _ & Hx & Hy & _). subst cx cy.
  rewrite Hhx, Hhy, Hlx, Hly. split; [eapply stitch_continuity; eauto|eapply stitch_continuity; eauto].
Qed.

(** C34 (functional).  The traces of a file are its curves in order, one
    per curve: the [i]-th is named by the [i]-th label, grouped in the
    legend under the file's stem, and only the first carries the group's
    title. *)
Theorem file_traces_legend cfg `{JsonDecoder} fs nph f ts cx cy ls :
  parse_status_file cfg fs f = Ok (cx, cy, ls) -> file_traces cfg fs nph f = Ok ts ->
  length ts = length cx /\
  forall i t, ts !! i = Some t ->
    exists lab, ls !! i = Some lab /\ attack_label lab = Ok (tr_name t) /\
      tr_group t = path_stem f /\ tr_group_title t = (if (i =? 0)%nat then Some (path_stem f) else None).
Proof.
  intros Hp Hm. destruct (file_traces_inv _ _ _ _ _ _ _ _ Hp Hm) as [Hl Hts]. split; [done|].
  intros i t Ht. destruct (curve_trace_inv _ _ _ _ _ _ _ (Hts _ _ Ht)) as (_ & _ & lab & _ & _ & ? & _ & ? & _ & ? & ?).
  by exists lab.
Qed.
