(* ===== verification/App.v ===== *)
(** * App: [PasswordCrackingApp] and its Dash callback

    Lines 105-129 and 205-232 of src/password_cracking_curve.py.  The app
    holds the settings and one [HashcatStatusParser] per file, in a dict
    keyed by path.  The callback [update_graph_and_settings] runs on every
    interval tick and on every click of the Update button; a click first
    copies the control values into the settings ([refresh * 1000] for the
    interval) and rebuilds the parsers; then every call rebuilds the figure
    from the files.  The callback is a step function on the app state that
    also returns the callback's outputs or its exception; the attributes
    assigned before an exception stay assigned, as in Python. *)

From Stdlib Require Import ZArith SpecFloat String Lia Bool.
From stdpp Require Import base list tactics.
From S2P Require Import Prelude PyFloat PyString PyValue Reader JsonDecode Parser Figure.

Local Open Scope string_scope.

Record app_state := mk_app {
  hashcat_files : list string;
  update_interval : json;
  app_x_axis_type : string;
  app_y_axis_type : string;
  app_status_timer : Z;
  no_potfile_highlight : bool;
  parsers : list (string * parser_cfg)
}.

(** The parser every file gets from the current settings. *)
Definition app_cfg (st : app_state) : parser_cfg :=
  mk_cfg (app_x_axis_type st) (app_y_axis_type st) (app_status_timer st).

(** [update_parsers]: [{file: HashcatStatusParser(...) for file in files}];
    a path given twice is one key of the dict. *)
Definition update_parsers (st : app_state) : app_state :=
  mk_app (hashcat_files st) (update_interval st) (app_x_axis_type st) (app_y_axis_type st)
         (app_status_timer st) (no_potfile_highlight st)
         (dict_items (map (fun f => (f, app_cfg st)) (hashcat_files st))).

(** [__init__] (lines 108-119) without the Dash objects. *)
Definition app_init (files : list string) : app_state :=
  update_parsers (mk_app files (JInt 10000) "guesses" "percentage" 1 false []).

(** [v * n] for the value of a number input and an int literal: numbers
    multiply, a str or a list is repeated [n] times, anything else ([None],
    a dict) raises [TypeError]. *)
Definition py_mul_int (v : json) (n : Z) : result json :=
  match num_view v with
  | Some (inl x) => Ok (JInt (x * n))
  | Some (inr f) => let? fn := float_of_int n in Ok (JFloat (float_mul f fn))
  | None =>
      match v with
      | JStr s => Ok (JStr (String.concat "" (repeat s (Z.to_nat n))))
      | JList l => Ok (JList (concat (repeat l (Z.to_nat n))))
      | _ => Exc TypeError
      end
  end.

(** What fired the callback: the Update button, or anything else (the
    interval, or the initial call). *)
Inductive trigger := UpdateClick | OtherTrigger.

(** The [State] values read by the callback. *)
Record controls := mk_controls {
  refresh_input : json;
  x_axis_radio : string;
  y_axis_radio : string;
  potfile_highlight_check : list string
}.

(** Lines 222-227. *)
Definition apply_settings (st : app_state) (c : controls) : result app_state :=
  let? interval := py_mul_int (refresh_input c) 1000 in
  Ok (update_parsers
        (mk_app (hashcat_files st) interval (x_axis_radio c) (y_axis_radio c)
                (app_status_timer st)
                (negb (existsb (String.eqb "highlight") (potfile_highlight_check c)))
                (parsers st))).

(** [update_graph_and_settings]: the new state, and the outputs
    [(self.update_interval, figure)] or the exception. *)
Definition callback `{JsonDecoder} (fs : file_system) (st : app_state) (t : trigger) (c : controls)
    : app_state * result (json * figure) :=
  let st' :=
    match t with
    | UpdateClick => apply_settings st c
    | OtherTrigger => Ok st
    end in
  match st' with
  | Exc e => (st, Exc e)
  | Ok s =>
      (s, let? fig := create_figure fs (app_x_axis_type s) (app_y_axis_type s)
                                    (no_potfile_highlight s) (parsers s) in
          Ok (update_interval s, fig))
  end.

(** The states the app goes through from its start. *)
Inductive app_reachable `{JsonDecoder} (fs : file_system) : app_state -> Prop :=
| app_reach_init files : app_reachable fs (app_init files)
| app_reach_step st t c : app_reachable fs st -> app_reachable fs (callback fs st t c).1.

(** A file system without files, and control values, for the witnesses. *)
Definition no_files : file_system := fun _ => None.

Definition click_controls : controls := mk_controls (JInt 5) "time" "count" [].

(** ** The callback as a state machine *)

Section AppFacts.
Context `{JsonDecoder}.
Variable fs : file_system.

(** The parsers of [update_parsers st] follow the settings of [st]. *)
Definition parsers_consistent (st : app_state) : Prop :=
  parsers st = dict_items (map (fun f => (f, app_cfg st)) (hashcat_files st)).

Lemma update_parsers_consistent st : parsers_consistent (update_parsers st).
Proof. done. Qed.

(** C22 (functional).  A click with an int refresh value [r] sets the
    interval to [r * 1000] and the axis types to the radio values, turns
    the potfile highlight off unless ["highlight"] is checked, keeps the
    files and the status timer, and rebuilds the parsers from the new
    settings. *)
Theorem callback_click_settings st c r :
  num_view (refresh_input c) = Some (inl r) ->
  let st' := (callback fs st UpdateClick c).1 in
  update_interval st' = JInt (r * 1000) /\ app_x_axis_type st' = x_axis_radio c /\
  app_y_axis_type st' = y_axis_radio c /\
  no_potfile_highlight st' = negb (existsb (String.eqb "highlight") (potfile_highlight_check c)) /\
  hashcat_files st' = hashcat_files st /\ app_status_timer st' = app_status_timer st /\
  parsers_consistent st'.
Proof. intros Hr. unfold callback, apply_settings, py_mul_int. by rewrite Hr. Qed.

(** C23 (error).  A click while the refresh input is empty ([None])
    raises [TypeError] in [refresh * 1000], before any attribute is
    assigned: the state is unchanged and no figure is returned. *)
Theorem callback_click_empty_refresh st c :
  refresh_input c = JNull -> callback fs st UpdateClick c = (st, Exc TypeError).
Proof. intros Hr. unfold callback, apply_settings, py_mul_int. by rewrite Hr. Qed.

(** C24 (invariant).  In every state the app reaches, the parsers are the
    dict of the files with the current settings (rule induction on the
    callback steps). *)
Theorem app_reachable_parsers_consistent st :
  app_reachable fs st -> parsers_consistent st.
Proof.
  induction 1 as [files|st t c _ IH]; [apply update_parsers_consistent|].
  unfold callback. destruct t; cbn; [|done].
  unfold apply_settings. destruct (py_mul_int _ _); cbn; [apply update_parsers_consistent|done].
Qed.
(** C33 (invariant).  In every state the app reaches, the status timer
    is 1: [__init__] sets it, and no control of the callback changes it, so
    the time axis always counts one second per record, whatever
    [--status-timer] produced the file. *)
Theorem app_reachable_status_timer st : app_reachable fs st -> app_status_timer st = 1%Z.
Proof.
  induction 1 as [files|st t c _ IH]; [done|].
  unfold callback. destruct t; cbn; [|done].
  unfold apply_settings. destruct (py_mul_int _ _); cbn; done.
Qed.
End AppFacts.

(** ** Witnesses *)

Lemma callback_click_settings_witness :
  let st' := (callback no_files (app_init ["a.json"]) UpdateClick click_controls).1 in
  update_interval st' = JInt (5 * 1000) /\ app_x_axis_type st' = x_axis_radio click_controls /\
  app_y_axis_type st' = y_axis_radio click_controls /\
  no_potfile_highlight st' = negb (existsb (String.eqb "highlight") (potfile_highlight_check click_controls)) /\
  hashcat_files st' = hashcat_files (app_init ["a.json"]) /\
  app_status_timer st' = app_status_timer (app_init ["a.json"]) /\
  parsers_consistent st'.
Proof. apply (callback_click_settings no_files). reflexivity. Defined.

Lemma callback_click_empty_refresh_witness :
  callback no_files (app_init ["a.json"]) UpdateClick (mk_controls JNull "time" "count" []) =
  (app_init ["a.json"], Exc TypeError).
Proof. apply (callback_click_empty_refresh no_files). reflexivity. Defined.

Lemma app_reachable_parsers_consistent_witness :
  parsers_consistent (callback no_files (app_init ["a.json"; "a.json"]) UpdateClick click_controls).1.
Proof.
  apply (app_reachable_parsers_consistent no_files).
  apply app_reach_step. apply app_reach_init.
Defined.

Lemma app_reachable_status_timer_witness :
  app_status_timer (callback no_files (app_init ["a.json"]) UpdateClick click_controls).1 = 1%Z.
Proof.
  apply (app_reachable_status_timer no_files).
  apply app_reach_step. apply app_reach_init.
Defined.
