(* ===== verification/Layout.v ===== *)
(** * Layout: the data of [PasswordCrackingApp._setup_layout]

    Lines 131-203 of src/password_cracking_curve.py build the Dash page: a
    heading, a refresh input, two radio groups for the axes, a checklist for
    the potfile highlight, the Update button, the list of data sources, the
    graph and the interval timer.  Its HTML and CSS are rendering; what the
    program reads back is the initial value of each control, which the
    callback receives as its [State] until the user changes it, and the
    timer's interval.  [setup_layout] keeps that data, with the options
    the radio groups offer and the data-sources line ([Path(f).name] of each
    file, joined by [", "]). *)

From Stdlib Require Import ZArith String Lia Bool.
From stdpp Require Import base list tactics.
From S2P Require Import Prelude PyValue Reader Parser Figure App.

Local Open Scope string_scope.

(** An entry [{'label': ..., 'value': ...}] of a radio group or checklist. *)
Record radio_option := mk_option {
  opt_label : string;
  opt_value : string
}.

Record layout := mk_layout {
  heading : string;
  refresh_default : json;
  refresh_min : Z;
  refresh_max : Z;
  x_axis_options : list radio_option;
  x_axis_default : string;
  y_axis_options : list radio_option;
  y_axis_default : string;
  highlight_options : list radio_option;
  highlight_default : list string;
  update_clicks : Z;
  data_sources : string;
  interval_ms : json;
  intervals : Z
}.

(** Line 133: [", ".join([Path(f).name for f in self.hashcat_files])]. *)
Definition file_list (st : app_state) : string :=
  String.concat ", " (map path_name (hashcat_files st)).

(** Lines 131-203. *)
Definition setup_layout (st : app_state) : layout :=
  mk_layout "Password Cracking Progress Visualization"
    (JInt 10) 1 300
    [mk_option "Number of hashes" "guesses"; mk_option "Time (seconds)" "time"] "guesses"
    [mk_option "Percentage" "percentage"; mk_option "Count" "count"] "percentage"
    [mk_option "Highlight potfile attacks in black" "highlight"] ["highlight"]
    0
    ("Data sources: " ++ file_list st)
    (update_interval st) 0.

(** The [State] values of the callback before the user touches a control. *)
Definition initial_controls (l : layout) : controls :=
  mk_controls (refresh_default l) (x_axis_default l) (y_axis_default l) (highlight_default l).

(** [__init__] (lines 108-124): the settings, the parsers, then the page. *)
Definition app_start (files : list string) : app_state * layout :=
  let st := app_init files in (st, setup_layout st).

(** C26 (invariant).  The page's controls start in agreement with the
    settings: a click on Update before any control is changed sets the
    interval to [10 * 1000], the axes to ["guesses"] and ["percentage"]
    and the highlight on, which are the settings [__init__] chose (lines
    108-119), so the state is unchanged; and the timer of the page runs at
    the app's interval.  A default of [_setup_layout] (lines 131-203) that
    differs from [__init__]'s would make the first click change the
    settings. *)
Theorem layout_defaults_in_sync `{JsonDecoder} fs files :
  let '(st, lay) := app_start files in
  (callback fs st UpdateClick (initial_controls lay)).1 = st /\ interval_ms lay = update_interval st.
Proof. done. Qed.
