(* ===== verification/Main.v ===== *)
(** * Main: the entry point [main]

    Lines 302-350 of src/password_cracking_curve.py.  [argparse] ([Cli])
    turns the command line into the arguments
    [files] (one or more), [--debug], [--host] and [--port]; [main] then
    stops with exit status 1 and a message on stderr at the first file
    that does not exist, and otherwise builds the app, prints four lines
    and serves it.  The outcome records what the process does: the exit,
    or the app it serves with its page, its output and its address. *)

From Stdlib Require Import ZArith String Lia Bool.
From stdpp Require Import base list tactics.
From S2P Require Import Prelude PyValue Reader JsonDecode Parser Figure App Layout.

Local Open Scope string_scope.

(** [args] as [parser.parse_args()] returns it. *)
Record cli_args := mk_args {
  arg_files : list string;
  arg_debug : bool;
  arg_host : string;
  arg_port : Z
}.

Inductive main_outcome :=
| ExitError (code : Z) (stderr : string)
| Serving (st : app_state) (lay : layout) (stdout : list string) (host : string) (port : Z) (debug : bool).

(** [Path(file_path).exists()]. *)
Definition path_exists (fs : file_system) (p : string) : bool :=
  match fs p with Some _ => true | None => false end.

(** Lines 337-340: the first file that does not exist. *)
Fixpoint first_missing (fs : file_system) (files : list string) : option string :=
  match files with
  | [] => None
  | f :: t => if path_exists fs f then first_missing fs t else Some f
  end.

(** Lines 336-350, after [parse_args]. *)
Definition main (fs : file_system) (a : cli_args) : main_outcome :=
  match first_missing fs (arg_files a) with
  | Some f => ExitError 1 ("Error: File '" ++ f ++ "' not found!")
  | None =>
      let '(st, lay) := app_start (arg_files a) in
      Serving st lay
        ["Starting Password Cracking Visualization...";
         "Dashboard available at: http://" ++ arg_host a ++ ":" ++ int_str (arg_port a);
         "All settings can be controlled through the web interface.";
         "Press Ctrl+C to stop"]
        (arg_host a) (arg_port a) (arg_debug a)
  end.

(** A file system holding [a.json] only, and a command line naming it. *)
Definition fs_a : file_system := fun p => if String.eqb p "a.json" then Some EmptyString else None.
Definition args_a : cli_args := mk_args ["a.json"] false "127.0.0.1" 8050.
Definition stdout_a : list string :=
  match main fs_a args_a with Serving _ _ out _ _ _ => out | ExitError _ _ => [] end.

(** ** Facts *)

Lemma first_missing_None fs files :
  first_missing fs files = None <-> Forall (fun f => path_exists fs f = true) files.
Proof.
  induction files as [|f t IH]; cbn; [split; [constructor|done]|].
  rewrite Forall_cons_iff. destruct (path_exists fs f); [rewrite IH; naive_solver|naive_solver].
Qed.

Lemma first_missing_app fs l1 f l2 :
  Forall (fun g => path_exists fs g = true) l1 -> path_exists fs f = false ->
  first_missing fs (l1 ++ f :: l2)%list = Some f.
Proof. induction 1 as [|g t Hg _ IH]; cbn; [by intros ->|by rewrite Hg]. Qed.

Lemma main_serving fs a st lay out h p d :
  main fs a = Serving st lay out h p d ->
  first_missing fs (arg_files a) = None /\ app_start (arg_files a) = (st, lay) /\
  h = arg_host a /\ p = arg_port a.
Proof.
  unfold main. destruct (first_missing fs (arg_files a)); [discriminate|].
  intros Hs. by injection Hs as <- <- <- <- <- <-.
Qed.

(** C32 (error).  When a file given on the command line does not exist,
    [main] exits with status 1 and names the first such file, after the
    files before it were found; no app is built. *)
Theorem main_missing_file fs a l1 f l2 :
  arg_files a = (l1 ++ f :: l2)%list ->
  Forall (fun g => path_exists fs g = true) l1 -> path_exists fs f = false ->
  main fs a = ExitError 1 ("Error: File '" ++ f ++ "' not found!").
Proof. intros Ha Hl1 Hf. unfold main. by rewrite Ha, first_missing_app. Qed.

(** When [main] serves, every file exists, the app is
    the one [__init__] builds for these files, so every state the app then
    reaches through its callback is reachable in the sense of [App] (its
    parsers follow its settings, its status timer is 1), and the page's
    timer runs at the app's interval. *)
Theorem main_serves_reachable `{JsonDecoder} fs a st lay out h p d :
  main fs a = Serving st lay out h p d ->
  Forall (fun f => path_exists fs f = true) (arg_files a) /\ hashcat_files st = arg_files a /\
  app_reachable fs st /\ interval_ms lay = update_interval st /\ h = arg_host a /\ p = arg_port a.
Proof.
  intros (Em & Hst & -> & ->)%main_serving. apply first_missing_None in Em.
  injection Hst as <- <-. split_and!; [done|done|constructor|done|done|done].
Qed.

(** ** Witnesses *)

Lemma main_missing_file_witness :
  main fs_a (mk_args ["a.json"; "b.json"; "c.json"] false "127.0.0.1" 8050) =
  ExitError 1 ("Error: File '" ++ "b.json" ++ "' not found!").
Proof. apply (main_missing_file _ _ ["a.json"] "b.json" ["c.json"]); [done|repeat constructor|done]. Defined.

Lemma main_serves_reachable_witness :
  Forall (fun f => path_exists fs_a f = true) (arg_files args_a) /\
  hashcat_files (app_start ["a.json"]).1 = arg_files args_a /\
  app_reachable fs_a (app_start ["a.json"]).1 /\
  interval_ms (app_start ["a.json"]).2 = update_interval (app_start ["a.json"]).1 /\
  "127.0.0.1" = arg_host args_a /\ 8050%Z = arg_port args_a.
Proof. apply (main_serves_reachable fs_a args_a _ _ stdout_a "127.0.0.1" 8050 false). vm_compute. reflexivity. Defined.
