(* ===== verification/Cli.v ===== *)
(** * Cli: the command line of [main], [parser.parse_args()]

    Lines 302-334 of src/password_cracking_curve.py declare the arguments
    ([files] with [nargs='+'], [--debug] as [store_true], [--host] and
    [--port] with [type=int], and the [-h]/[--help] that [ArgumentParser]
    adds) and call [parse_args()].  This file is [parse_args] for exactly
    these declarations, following CPython 3.11's argparse: each command-line
    string is first classified as an option, a positional or an ambiguous
    abbreviation ([_parse_optional], [_get_option_tuples]); everything after
    [--] is positional; then the loop of [_parse_known_args] consumes the
    positionals before each option and the option with its argument
    ([consume_positionals], [consume_optional]); [int()] converts the port.
    [parse_args] ends with the arguments, or exits: with status 0 after the
    help, and with status 2 and a message on an error.  The usage text that
    precedes the message on stderr, and the help text, are not modelled. *)

From Stdlib Require Import ZArith String Ascii Lia Bool DecimalString DecimalPos DecimalZ.
From stdpp Require Import base list tactics.
From S2P Require Import Prelude PyString PyValue Reader Main.

Local Open Scope string_scope.

(** The optional actions of the parser. *)
Inductive optional := OHelp | ODebug | OHost | OPort.

(** [_option_string_actions], in the order [add_argument] registers them. *)
Definition option_strings : list (string * optional) :=
  [("-h", OHelp); ("--help", OHelp); ("--debug", ODebug); ("--host", OHost); ("--port", OPort)].

Definition lookup_option (s : string) : option optional :=
  snd <$> List.find (fun so => String.eqb so.1 s) option_strings.

(** [_get_action_name]: the option strings joined by ["/"]. *)
Definition action_name (o : optional) : string :=
  match o with OHelp => "-h/--help" | ODebug => "--debug" | OHost => "--host" | OPort => "--port" end.

(** [nargs]: [None] (one argument) for the stores, 0 for the others. *)
Definition takes_arg (o : optional) : bool :=
  match o with OHost | OPort => true | OHelp | ODebug => false end.

(** [s.split(c, 1)] when [c] occurs in [s]. *)
Fixpoint split_char (c : ascii) (s : string) : option (string * string) :=
  match s with
  | EmptyString => None
  | String d t =>
      if Ascii.eqb d c then Some (EmptyString, t)
      else option_map (fun '(a, b) => (String d a, b)) (split_char c t)
  end.

Definition is_digit (c : ascii) : bool :=
  (48 <=? nat_of_ascii c)%nat && (nat_of_ascii c <=? 57)%nat.

Definition all_digits (s : string) : bool :=
  negb (String.eqb s EmptyString) && forallb is_digit (list_ascii_of_string s).

(** A final newline before the end, which [$] also accepts. *)
Definition drop_final_newline (s : string) : string :=
  match split_char "010" s with
  | Some (a, EmptyString) => a
  | _ => s
  end.

(** [_negative_number_matcher]: [^-\d+$|^-\d*\.\d+$]. *)
Definition looks_negative (s : string) : bool :=
  match s with
  | String c r =>
      Ascii.eqb c "-" &&
      (let r := drop_final_newline r in
       all_digits r ||
       match split_char "." r with
       | Some (a, b) => forallb is_digit (list_ascii_of_string a) && all_digits b
       | None => false
       end)
  | EmptyString => false
  end.

Definition has_char (c : ascii) (s : string) : bool := existsb (Ascii.eqb c) (list_ascii_of_string s).

(** [_get_option_tuples] for a string starting with [-] of length 2 or
    more: with [--], the options the part before [=] abbreviates; with
    one [-], the option of its first two characters with the rest as its
    argument, and the options it abbreviates. *)
Definition option_tuples (s : string) : list (optional * string * option string) :=
  match s with
  | String _ (String c1 _) =>
      if Ascii.eqb c1 "-" then
        let '(pre, explicit) :=
          match split_char "=" s with Some (p, e) => (p, Some e) | None => (s, None) end in
        omap (fun so => if String.prefix pre so.1 then Some (so.2, so.1, explicit) else None) option_strings
      else
        let short := String "-" (String c1 EmptyString) in
        omap (fun so => if String.eqb so.1 short then Some (so.2, so.1, Some (substring 2 (String.length s - 2) s))
                        else if String.prefix s so.1 then Some (so.2, so.1, None) else None)
             option_strings
  | _ => []
  end.

(** What a command-line string is. *)
Inductive classified :=
| CPos
| COpt (o : option optional) (ostr : string) (explicit : option string)
| CAmbiguous (matches : list string).

(** The [=] step of [_parse_optional]: [--host=x] names [--host]. *)
Definition option_with_eq (s : string) : option (optional * string * string) :=
  match split_char "=" s with
  | Some (pre, post) => (fun o => (o, pre, post)) <$> lookup_option pre
  | None => None
  end.

(** [_parse_optional]. *)
Definition parse_optional (s : string) : classified :=
  match s with
  | EmptyString => CPos
  | String c _ =>
      if negb (Ascii.eqb c "-") then CPos else
      match lookup_option s with
      | Some o => COpt (Some o) s None
      | None =>
          if (String.length s =? 1)%nat then CPos else
          match option_with_eq s with
          | Some (o, pre, post) => COpt (Some o) pre (Some post)
          | None =>
              match option_tuples s with
              | [(o, ostr, e)] => COpt (Some o) ostr e
              | (_ :: _ :: _) as ts => CAmbiguous (map (fun t => t.1.2) ts)
              | [] =>
                  if looks_negative s then CPos
                  else if has_char " " s then CPos
                  else COpt None s None
              end
          end
      end
  end.

(** [int(s)] for a str, in base 10: surrounding whitespace, a sign, and
    digits with single underscores between them; at most
    [sys.get_int_max_str_digits()] digits (4300 by default). *)
Definition int_max_str_digits : nat := 4300.

Fixpoint digits_value (s : string) (acc : Z) (n : nat) (after_digit : bool) : option (Z * nat) :=
  match s with
  | EmptyString => if after_digit then Some (acc, n) else None
  | String c t =>
      if is_digit c then digits_value t (10 * acc + (Z.of_nat (nat_of_ascii c) - 48)) (S n) true
      else if Ascii.eqb c "_" && after_digit then digits_value t acc n false
      else None
  end.

Definition py_int (s : string) : option Z :=
  let t := py_strip s in
  let '(sign, body) :=
    match t with
    | String c r => if Ascii.eqb c "-" then ((-1)%Z, r) else if Ascii.eqb c "+" then (1%Z, r) else (1%Z, t)
    | EmptyString => (1%Z, t)
    end in
  match digits_value body 0 0 false with
  | Some (v, n) => if (n <=? int_max_str_digits)%nat then Some (sign * v)%Z else None
  | None => None
  end.

(** The namespace [parse_args] fills, from the defaults of lines 325-332;
    [files] is [None] until the positional is consumed. *)
Record namespace := mk_ns {
  ns_files : option (list string);
  ns_debug : bool;
  ns_host : string;
  ns_port : Z
}.

Definition ns_defaults : namespace := mk_ns None false "127.0.0.1" 8050.

(** What [parse_args] does: return the arguments, or exit with a status
    and a message ([parser.error] exits with 2, the help with 0). *)
Inductive cli_result :=
| Parsed (a : cli_args)
| CliExit (code : Z) (message : string).

Definition cli_error (msg : string) : Z * string := (2%Z, "error: " ++ msg).

(** The pattern of [_parse_known_args]: ['A'], ['-'] for the first [--],
    ['O'] with the option it names. *)
Inductive mark :=
| MA
| MDash
| MO (o : option optional) (ostr : string) (explicit : option string).

(** The classification of the strings, which stops at the first ambiguous
    abbreviation ([parser.error] from [_parse_optional]). *)
Fixpoint classify (args : list string) : list (string * mark) + (Z * string) :=
  match args with
  | [] => inl []
  | a :: rest =>
      if String.eqb a "--" then inl ((a, MDash) :: map (fun r => (r, MA)) rest)
      else
        match parse_optional a with
        | CAmbiguous ms => inr (cli_error ("ambiguous option: " ++ a ++ " could match " ++ String.concat ", " ms))
        | c =>
            let m := match c with COpt o s e => MO o s e | _ => MA end in
            match classify rest with
            | inl its => inl ((a, m) :: its)
            | inr err => inr err
            end
        end
  end.

(** [take_action] for an option: the help prints and exits with 0, the
    others store into the namespace; [--port] converts with [int]. *)
Definition take_optional (ns : namespace) (o : optional) (args : list string) : namespace + (Z * string) :=
  match o, args with
  | OHelp, _ => inr (0%Z, "help")
  | ODebug, _ => inl (mk_ns (ns_files ns) true (ns_host ns) (ns_port ns))
  | OHost, v :: _ => inl (mk_ns (ns_files ns) (ns_debug ns) v (ns_port ns))
  | OPort, v :: _ =>
      match py_int v with
      | Some p => inl (mk_ns (ns_files ns) (ns_debug ns) (ns_host ns) p)
      | None => inr (cli_error ("argument --port: invalid int value: " ++ repr_str v))
      end
  | _, [] => inl ns
  end.

(** [-h] followed by more characters: [-h] is the only single-dash option
    string, so each further character must be [h] for the string to be a
    run of [-h]; otherwise the rest from the first other character is the
    ignored explicit argument. *)
Fixpoint short_help_chain (ex : string) : option string :=
  match ex with
  | EmptyString => None
  | String c r => if Ascii.eqb c "h" then short_help_chain r else Some ex
  end.

Definition second_is_dash (ostr : string) : bool :=
  match ostr with String _ (String c _) => Ascii.eqb c "-" | _ => false end.

Definition ignored (op : optional) (ex : string) : Z * string :=
  cli_error ("argument " ++ action_name op ++ ": ignored explicit argument " ++ repr_str ex).

(** [consume_optional] at an option [a], before the strings [rest]. *)
Definition consume_optional (ns : namespace) (extras : list string) (a : string) (o : option optional)
    (ostr : string) (e : option string) (rest : list (string * mark))
    : (namespace * list string * list (string * mark)) + (Z * string) :=
  let continue r (x : namespace + (Z * string)) :=
    match x with inl ns' => inl (ns', extras, r) | inr err => inr err end in
  match o with
  | None => inl (ns, (extras ++ [a])%list, rest)
  | Some op =>
      match e with
      | Some ex =>
          if takes_arg op then continue rest (take_optional ns op [ex])
          else if negb (second_is_dash ostr) && negb (String.eqb ex EmptyString) then
            match short_help_chain ex with
            | None => continue rest (take_optional ns op [])
            | Some bad => inr (ignored op bad)
            end
          else inr (ignored op ex)
      | None =>
          if takes_arg op then
            match rest with
            | (v, MA) :: rest' => continue rest' (take_optional ns op [v])
            | _ => inr (cli_error ("argument " ++ action_name op ++ ": expected one argument"))
            end
          else continue rest (take_optional ns op [])
      end
  end.

Definition is_opt_mark (it : string * mark) : bool := match it.2 with MO _ _ _ => true | _ => false end.
Definition is_arg_mark (it : string * mark) : bool := match it.2 with MA => true | _ => false end.

(** The strings before the next option, and the rest. *)
Fixpoint run_before_option (items : list (string * mark)) : list (string * mark) * list (string * mark) :=
  match items with
  | it :: rest =>
      if is_opt_mark it then ([], items)
      else let '(run, rest') := run_before_option rest in (it :: run, rest')
  | [] => ([], [])
  end.

(** [_get_values]: [arg_strings.remove('--')]. *)
Fixpoint remove_first_dashdash (l : list string) : list string :=
  match l with
  | [] => []
  | x :: t => if String.eqb x "--" then t else x :: remove_first_dashdash t
  end.

(** [consume_positionals] for [files] ([nargs='+'], pattern
    [-*A[A-]*]): while it is not consumed, a run of strings before the next
    option that holds an argument is consumed whole. *)
Definition consume_files (ns : namespace) (run : list (string * mark)) : option namespace :=
  match ns_files ns with
  | None =>
      if existsb is_arg_mark run
      then Some (mk_ns (Some (remove_first_dashdash (map fst run))) (ns_debug ns) (ns_host ns) (ns_port ns))
      else None
  | Some _ => None
  end.

(** The loop of [_parse_known_args], with the strings left to consume;
    [None] when the rounds run out, which [S (length items)] rounds never
    do ([parse_loop_total]): each round consumes at least one string. *)
Fixpoint parse_loop (fuel : nat) (ns : namespace) (extras : list string) (items : list (string * mark))
    : option ((namespace * list string) + (Z * string)) :=
  match fuel with
  | O => None
  | S fuel =>
      if existsb is_opt_mark items then
        match items with
        | (a, MO o ostr e) :: rest =>
            match consume_optional ns extras a o ostr e rest with
            | inl (ns', extras', rest') => parse_loop fuel ns' extras' rest'
            | inr err => Some (inr err)
            end
        | _ =>
            let '(run, rest) := run_before_option items in
            match consume_files ns run with
            | Some ns' => parse_loop fuel ns' extras rest
            | None => parse_loop fuel ns (extras ++ map fst run)%list rest
            end
        end
      else
        match consume_files ns items with
        | Some ns' => Some (inl (ns', extras))
        | None => Some (inl (ns, (extras ++ map fst items)%list))
        end
  end.

(** The end of [_parse_known_args] and [parse_args]: the required [files],
    then no string left over. *)
Definition finish (r : (namespace * list string) + (Z * string)) : cli_result :=
  match r with
  | inr (c, m) => CliExit c m
  | inl (ns, extras) =>
      match ns_files ns with
      | None => CliExit 2 "error: the following arguments are required: files"
      | Some files =>
          match extras with
          | [] => Parsed (mk_args files (ns_debug ns) (ns_host ns) (ns_port ns))
          | _ :: _ => CliExit 2 ("error: unrecognized arguments: " ++ String.concat " " extras)
          end
      end
  end.

(** [parser.parse_args()] (line 334) on the command-line strings after the
    program name. *)
Definition parse_args (argv : list string) : cli_result :=
  match classify argv with
  | inr (c, m) => CliExit c m
  | inl items => default (CliExit 2 "error: out of rounds") (finish <$> parse_loop (S (length items)) ns_defaults [] items)
  end.

(** [main] from the command line: [parse_args] may exit before [main]'s
    own checks (the help with status 0, its errors with 2). *)
Definition main_argv (fs : file_system) (argv : list string) : main_outcome :=
  match parse_args argv with
  | Parsed a => main fs a
  | CliExit c m => ExitError c m
  end.

(** A string that does not start with [-] (the empty string included) is
    a positional for [_parse_optional]. *)
Definition pos_safe (s : string) : bool :=
  match s with String c _ => negb (Ascii.eqb c "-") | EmptyString => true end.

(** The command line that gives back [a]: the files, then the options. *)
Definition argv_of (a : cli_args) : list string :=
  arg_files a ++ (if arg_debug a then ["--debug"] else []) ++
  ["--host"; arg_host a; "--port"; int_str (arg_port a)].

(** The value of decimal digits read most significant first after [acc],
    as [int] accumulates them. *)
Fixpoint uint_value (acc : Z) (d : Decimal.uint) : Z :=
  match d with
  | Decimal.Nil => acc
  | Decimal.D0 d => uint_value (10 * acc) d
  | Decimal.D1 d => uint_value (10 * acc + 1) d
  | Decimal.D2 d => uint_value (10 * acc + 2) d
  | Decimal.D3 d => uint_value (10 * acc + 3) d
  | Decimal.D4 d => uint_value (10 * acc + 4) d
  | Decimal.D5 d => uint_value (10 * acc + 5) d
  | Decimal.D6 d => uint_value (10 * acc + 6) d
  | Decimal.D7 d => uint_value (10 * acc + 7) d
  | Decimal.D8 d => uint_value (10 * acc + 8) d
  | Decimal.D9 d => uint_value (10 * acc + 9) d
  end.

(** ** The loop ends *)

(** Evaluates the digit test and value of a concrete character. *)
Local Ltac eval_digit :=
  match goal with
  | |- context [is_digit ?c] =>
      let b := eval vm_compute in (is_digit c) in change (is_digit c) with b;
      let v := eval vm_compute in (Z.of_nat (nat_of_ascii c) - 48)%Z in
      change (Z.of_nat (nat_of_ascii c) - 48)%Z with v
  end; cbv iota.

Section CliFacts.

Lemma run_before_option_spec items run rest :
  run_before_option items = (run, rest) ->
  items = (run ++ rest)%list /\
  (match items with it :: _ => is_opt_mark it = false -> run <> [] | [] => True end).
Proof.
  revert run rest. induction items as [|it items IH]; intros run rest; cbn; [by intros [= <- <-]|].
  destruct (is_opt_mark it) eqn:Ho; [intros [= <- <-]; done|].
  destruct (run_before_option items) as [r r'] eqn:E. intros [= <- <-].
  by destruct (IH _ _ eq_refl) as [-> _].
Qed.

Lemma consume_optional_rest ns ex a o ostr e rest ns' ex' rest' :
  consume_optional ns ex a o ostr e rest = inl (ns', ex', rest') -> length rest' <= length rest.
Proof.
  unfold consume_optional. intros H. repeat (case_match; simplify_eq/=; try lia).
Qed.

Lemma parse_loop_total n ns ex items :
  length items < n -> is_Some (parse_loop n ns ex items).
Proof.
  revert ns ex items. induction n as [|n IH]; intros ns ex items Hn; [lia|]. cbn.
  destruct (existsb is_opt_mark items) eqn:Eo; [|by case_match].
  destruct items as [|[a m] rest]; [done|]. cbn in Hn.
  destruct m as [| |o ostr e].
  all: try (destruct (run_before_option _) as [run rest'] eqn:Er;
            destruct (run_before_option_spec _ _ _ Er) as (Heq & Hne);
            specialize (Hne eq_refl); destruct run as [|r run]; [done|];
            cbn in Heq; injection Heq as <- ->; rewrite length_app in Hn; cbn in Hn;
            by case_match; apply IH; lia).
  destruct (consume_optional _ _ _ _ _ _ _) as [[[ns' ex'] rest']|err] eqn:Ec; [|done].
  apply consume_optional_rest in Ec. apply IH. lia.
Qed.

Lemma parse_loop_mono n m ns ex items r :
  parse_loop n ns ex items = Some r -> n <= m -> parse_loop m ns ex items = Some r.
Proof.
  revert m ns ex items. induction n as [|n IH]; intros m ns ex items Hr Hm; [done|].
  destruct m as [|m]; [lia|]. cbn in *.
  repeat case_match; simplify_eq/=; try done; apply IH; done || lia.
Qed.

(** ** [int] reads back [str] of a non-negative int *)

Lemma strip_nospace s :
  forallb (fun c => negb (is_py_space c)) (list_ascii_of_string s) = true -> py_strip s = s.
Proof.
  unfold py_strip. intros H.
  assert (Hl : lstrip s = s).
  { destruct s as [|c s]; [done|]. cbn in *. apply andb_prop in H as [Hc _]. by destruct (is_py_space c). }
  rewrite Hl. clear Hl. induction s as [|c s IH]; [done|]. cbn in *.
  apply andb_prop in H as [Hc H]. rewrite IH by done. by destruct (is_py_space c).
Qed.

Lemma uint_nospace d :
  forallb (fun c => negb (is_py_space c)) (list_ascii_of_string (NilEmpty.string_of_uint d)) = true.
Proof. induction d; cbn; auto. Qed.

Lemma length_string_of_uint d : String.length (NilEmpty.string_of_uint d) = Decimal.nb_digits d.
Proof. induction d; cbn; auto. Qed.

Lemma digits_value_uint d acc n :
  digits_value (NilEmpty.string_of_uint d) acc n true = Some (uint_value acc d, n + Decimal.nb_digits d)%nat.
Proof.
  revert acc n. induction d; intros acc n; cbn; rewrite ?IHd; [f_equal; f_equal; lia|..];
    eval_digit; f_equal; f_equal; (lia || (f_equal; lia)).
Qed.

Lemma uint_value_acc d p : uint_value (Zpos p) d = Zpos (Pos.of_uint_acc d p).
Proof. revert p. induction d; intros p; cbn; rewrite <-?IHd; f_equal; lia. Qed.

Lemma uint_value_of_uint d : uint_value 0 d = Z.of_uint d.
Proof.
  unfold Z.of_uint. induction d; cbn; [done|done|..]; rewrite <-uint_value_acc; f_equal.
Qed.

Lemma to_int_nonneg p :
  (0 <= p)%Z -> exists d, Z.to_int p = Decimal.Pos d /\ d <> Decimal.Nil /\ Z.of_uint d = p.
Proof.
  intros Hp. destruct p as [|q|q]; [|..|lia].
  - by exists (Decimal.D0 Decimal.Nil).
  - exists (Pos.to_uint q). split_and!; [done|apply Unsigned.to_uint_nonnil|].
    pose proof (DecimalZ.of_to (Zpos q)) as E. done.
Qed.

Lemma int_str_pos_safe p : (0 <= p)%Z -> pos_safe (int_str p) = true.
Proof.
  intros (d & Hd & Hn & _)%to_int_nonneg. unfold int_str. rewrite Hd. by destruct d.
Qed.

Lemma py_int_int_str p :
  (0 <= p)%Z -> (String.length (int_str p) <= int_max_str_digits)%nat -> py_int (int_str p) = Some p.
Proof.
  intros (d & Hd & Hn & Hv)%to_int_nonneg. unfold int_str. rewrite Hd. cbn [NilEmpty.string_of_int].
  rewrite length_string_of_uint. intros Hl. unfold py_int. rewrite strip_nospace by apply uint_nospace.
  rewrite <-Hv, <-uint_value_of_uint.
  destruct d; try done; cbn -[digits_value int_max_str_digits]; cbn [digits_value];
    rewrite digits_value_uint; cbn in Hl; eval_digit;
    (destruct (Nat.leb_spec (1 + Decimal.nb_digits d) int_max_str_digits); [|lia]);
    f_equal; rewrite Z.mul_1_l; f_equal; lia.
Qed.

(** ** Classification and the rounds of the loop *)

Lemma parse_optional_pos s : pos_safe s = true -> parse_optional s = CPos.
Proof. destruct s as [|c s]; [done|]. cbn. by intros ->. Qed.

Lemma pos_safe_not_dashdash s : pos_safe s = true -> String.eqb s "--" = false.
Proof. destruct s as [|c s]; [done|]. cbn. by destruct (Ascii.eqb c "-"). Qed.

Lemma classify_pos l rest its :
  Forall (fun a => pos_safe a = true) l -> classify rest = inl its ->
  classify (l ++ rest)%list = inl (map (fun a => (a, MA)) l ++ its)%list.
Proof.
  induction 1 as [|a l Ha _ IH]; [done|]. intros Hr. cbn.
  by rewrite pos_safe_not_dashdash, parse_optional_pos, IH.
Qed.

Lemma existsb_opt_args l : existsb is_opt_mark (map (fun a => (a, MA)) l) = false.
Proof. by induction l. Qed.

Lemma run_before_option_args l rest :
  match rest with it :: _ => is_opt_mark it = true | [] => True end ->
  run_before_option (map (fun a => (a, MA)) l ++ rest)%list = (map (fun a => (a, MA)) l, rest).
Proof.
  intros Hr. induction l as [|a l IH]; cbn; [|by rewrite IH].
  destruct rest as [|[x [| |o ostr e]] rest]; done.
Qed.

Lemma map_fst_args (l : list string) : map fst (map (fun a => (a, MA)) l) = l.
Proof. induction l as [|a l IH]; cbn; congruence. Qed.

Lemma remove_first_dashdash_safe l :
  Forall (fun a => pos_safe a = true) l -> remove_first_dashdash l = l.
Proof. induction 1 as [|x l Hx _ IH]; cbn; [done|]. by rewrite pos_safe_not_dashdash, IH. Qed.

(** The first run of arguments is the files. *)
Lemma consume_files_args l :
  l <> [] -> Forall (fun a => pos_safe a = true) l ->
  consume_files ns_defaults (map (fun a => (a, MA)) l) = Some (mk_ns (Some l) false "127.0.0.1" 8050).
Proof.
  intros Hne Hl. unfold consume_files. destruct l as [|a l]; [done|]. cbn -[remove_first_dashdash].
  rewrite map_fst_args. by rewrite (remove_first_dashdash_safe (a :: l)).
Qed.

(** A round of the loop on the files before an option. *)
Lemma parse_loop_files n ns ns' ex l rest :
  match rest with it :: _ => is_opt_mark it = true | [] => False end ->
  consume_files ns (map (fun a => (a, MA)) l) = Some ns' -> l <> [] ->
  parse_loop (S n) ns ex (map (fun a => (a, MA)) l ++ rest)%list = parse_loop n ns' ex rest.
Proof.
  intros Hr Hc Hne. cbn [parse_loop].
  rewrite existsb_app, existsb_opt_args. destruct rest as [|it rest]; [done|]. cbn [existsb orb]. rewrite Hr.
  rewrite run_before_option_args by done. destruct l as [|a l]; [done|]. cbn [map app].
  change ((a, MA) :: map (fun x => (x, MA)) l)%list with (map (fun x => (x, MA)) (a :: l)). by rewrite Hc.
Qed.

(** The options after the files, as classified. *)
Lemma classify_options (d : bool) h p :
  pos_safe h = true -> (0 <= p)%Z ->
  classify ((if d then ["--debug"] else []) ++ ["--host"; h; "--port"; int_str p])%list =
  inl ((if d then [("--debug", MO (Some ODebug) "--debug" None)] else []) ++
       [("--host", MO (Some OHost) "--host" None); (h, MA);
        ("--port", MO (Some OPort) "--port" None); (int_str p, MA)])%list.
Proof.
  intros Hh Hp. pose proof (int_str_pos_safe p Hp) as Hs.
  destruct d; cbn -[parse_optional];
    rewrite ?(pos_safe_not_dashdash h), ?(pos_safe_not_dashdash (int_str p)),
            ?(parse_optional_pos h), ?(parse_optional_pos (int_str p)) by done; reflexivity.
Qed.

(** C20 (roundtrip).  [parse_args] reads back the arguments from the
    command line that lists the files, then [--debug] when it is set, then
    [--host] and [--port] with their values: for files and a host that do
    not start with [-], and a port that [int] accepts back (non-negative,
    at most 4300 digits). *)
Theorem parse_args_roundtrip a :
  arg_files a <> [] -> Forall (fun f => pos_safe f = true) (arg_files a) ->
  pos_safe (arg_host a) = true -> (0 <= arg_port a)%Z ->
  (String.length (int_str (arg_port a)) <= int_max_str_digits)%nat ->
  parse_args (argv_of a) = Parsed a.
Proof.
  destruct a as [files d h p]. unfold argv_of, parse_args. cbn [arg_files arg_debug arg_host arg_port].
  intros Hne Hf Hh Hp Hl.
  rewrite (classify_pos _ _ _ Hf (classify_options d h p Hh Hp)). cbn [default fmap option_fmap option_map].
  match goal with |- context [parse_loop _ _ _ ?it] => set (items := it) end.
  assert (Hrun : parse_loop 6 ns_defaults [] items = Some (inl (mk_ns (Some files) d h p, []))).
  { subst items. erewrite parse_loop_files;
      [|destruct d; exact eq_refl|exact (consume_files_args _ Hne Hf)|exact Hne].
    destruct d; cbn; by rewrite py_int_int_str. }
  apply (parse_loop_mono _ (S (length items))) in Hrun.
  - by rewrite Hrun.
  - subst items. rewrite length_app, length_map. destruct files; [done|]. destruct d; cbn; lia.
Qed.

(** C31 (error).  The files must come in one run: a file given after an
    option (here [--debug]) is not taken as a file, and [parse_args] exits
    with status 2 and [unrecognized arguments], so [main] never runs, for
    [a.json --debug b.json] as for any such command line. *)
Theorem parse_args_late_positional l1 l2 :
  l1 <> [] -> l2 <> [] ->
  Forall (fun f => pos_safe f = true) l1 -> Forall (fun f => pos_safe f = true) l2 ->
  parse_args (l1 ++ "--debug" :: l2)%list = CliExit 2 ("error: unrecognized arguments: " ++ String.concat " " l2).
Proof.
  intros Hne1 Hne2 H1 H2. unfold parse_args.
  assert (Hc : classify ("--debug" :: l2) = inl (("--debug", MO (Some ODebug) "--debug" None) :: map (fun a => (a, MA)) l2)).
  { pose proof (classify_pos l2 [] [] H2 eq_refl) as E. rewrite app_nil_r in E. cbn. by rewrite E, app_nil_r. }
  rewrite (classify_pos _ _ _ H1 Hc). cbn [default fmap option_fmap option_map].
  match goal with |- context [parse_loop _ _ _ ?it] => set (items := it) end.
  assert (Hrun : parse_loop 4 ns_defaults [] items = Some (inl (mk_ns (Some l1) true "127.0.0.1" 8050, l2))).
  { subst items. erewrite parse_loop_files; [|exact eq_refl|exact (consume_files_args _ Hne1 H1)|exact Hne1].
    cbn. by rewrite existsb_opt_args, map_fst_args. }
  apply (parse_loop_mono _ (S (length items))) in Hrun.
  - rewrite Hrun. cbn. by destruct l2.
  - subst items. rewrite length_app, length_map. destruct l1, l2; cbn; [done|done|done|lia].
Qed.

(** C13 (functional).  [-h] or [--help] makes [parse_args] exit with
    status 0 (after printing the help), even without the required files
    and whatever strings follow it, as long as argparse's classification
    of those strings does not itself fail (an ambiguous abbreviation such
    as [--h] is reported before any string is consumed); the files before
    it, if any, are consumed first. *)
Theorem parse_args_help l1 h l2 its :
  h = "-h" \/ h = "--help" ->
  Forall (fun f => pos_safe f = true) l1 -> classify l2 = inl its ->
  parse_args (l1 ++ h :: l2)%list = CliExit 0 "help".
Proof.
  intros Hh H1 H2. unfold parse_args.
  assert (Hc : classify (h :: l2) = inl ((h, MO (Some OHelp) h None) :: its))
    by (destruct Hh as [-> | ->]; cbn; by rewrite H2).
  rewrite (classify_pos _ _ _ H1 Hc). cbn [default fmap option_fmap option_map].
  assert (Hopt : forall n ns, parse_loop (S n) ns [] ((h, MO (Some OHelp) h None) :: its) =
                           Some (inr (0%Z, "help"))) by done.
  destruct l1 as [|a l1]; [by rewrite app_nil_l, Hopt|].
  assert (Hrun : parse_loop 2 ns_defaults [] (map (fun a => (a, MA)) (a :: l1) ++
                                             (h, MO (Some OHelp) h None) :: its)%list =
                 Some (inr (0%Z, "help"))).
  { assert (Hne : a :: l1 <> []) by discriminate.
    erewrite parse_loop_files; [|exact eq_refl|exact (consume_files_args _ Hne H1)|exact Hne]. apply Hopt. }
  apply (parse_loop_mono _ (S (length (map (fun a => (a, MA)) (a :: l1) ++
                                       (h, MO (Some OHelp) h None) :: its)%list))) in Hrun.
  - by rewrite Hrun.
  - rewrite length_app, length_map. cbn. lia.
Qed.

(** C18 (error).  [--port] is declared with [type=int]: a value that
    [int()] rejects makes [parse_args] exit with status 2 and the message
    [argument --port: invalid int value: '...'], with the value as [repr]
    shows it, so [main] never runs; here after the files, for a value that
    does not start with [-]. *)
Theorem parse_args_invalid_port l v :
  l <> [] -> Forall (fun f => pos_safe f = true) l -> pos_safe v = true -> py_int v = None ->
  parse_args (l ++ ["--port"; v])%list =
  CliExit 2 ("error: argument --port: invalid int value: " ++ repr_str v).
Proof.
  intros Hne H1 Hv Hi. unfold parse_args.
  assert (Hc : classify ["--port"; v] = inl [("--port", MO (Some OPort) "--port" None); (v, MA)]).
  { cbn -[parse_optional]. by rewrite pos_safe_not_dashdash, (parse_optional_pos v). }
  rewrite (classify_pos _ _ _ H1 Hc). cbn [default fmap option_fmap option_map].
  match goal with |- context [parse_loop _ _ _ ?it] => set (items := it) end.
  assert (Hrun : parse_loop 2 ns_defaults [] items =
                 Some (inr (cli_error ("argument --port: invalid int value: " ++ repr_str v)))).
  { subst items. erewrite parse_loop_files; [|exact eq_refl|exact (consume_files_args _ Hne H1)|exact Hne].
    cbn. by rewrite Hi. }
  apply (parse_loop_mono _ (S (length items))) in Hrun.
  - by rewrite Hrun.
  - subst items. rewrite length_app, length_map. cbn. lia.
Qed.

End CliFacts.

(** ** Witnesses *)

Lemma parse_args_roundtrip_witness :
  parse_args (argv_of (mk_args ["a.json"; "b.json"] true "0.0.0.0" 8080)) =
  Parsed (mk_args ["a.json"; "b.json"] true "0.0.0.0" 8080).
Proof.
  apply parse_args_roundtrip; cbn; [done|by repeat constructor|done|lia|].
  apply Nat.leb_le. vm_compute. reflexivity.
Defined.

Lemma parse_args_late_positional_witness :
  parse_args (["a.json"] ++ "--debug" :: ["b.json"])%list =
  CliExit 2 ("error: unrecognized arguments: " ++ String.concat " " ["b.json"]).
Proof. apply parse_args_late_positional; [done|done|by repeat constructor|by repeat constructor]. Defined.

Lemma parse_args_help_witness :
  parse_args (["a.json"] ++ "--help" :: ["--port"; "x"])%list = CliExit 0 "help".
Proof.
  apply (parse_args_help _ _ _ [("--port", MO (Some OPort) "--port" None); ("x", MA)]);
    [by right|by repeat constructor|vm_compute; reflexivity].
Defined.

Lemma parse_args_invalid_port_witness :
  parse_args (["a.json"] ++ ["--port"; "80a"])%list =
  CliExit 2 ("error: argument --port: invalid int value: " ++ repr_str "80a").
Proof. apply parse_args_invalid_port; [done|by repeat constructor|done|vm_compute; reflexivity]. Defined.
