(* ===== verification/Session.v ===== *)
(** * Session: the Dash page and server around the callback

    Lines 205-217 and 297-299 of src/password_cracking_curve.py.  [run]
    serves the page that [_setup_layout] built once, in [__init__]; each
    browser that opens it gets the layout's initial props, and Dash then
    calls [update_graph_and_settings] once with no trigger.  The callback is
    wired (lines 208-217) to two Inputs, the [n_intervals] of the interval
    component and the [n_clicks] of the Update button, whose changes fire
    it, and to four States, the control values, which it reads but which
    do not fire it; its two Outputs are the interval of the timer and the
    figure of the graph.  When the callback raises, Dash writes neither
    output.  Meanwhile hashcat writes the status files.

    A [session] is the server's app state with the props of one open page
    and the files on disk; [session_step] is what each [event] does to it,
    and [exec] runs a sequence of events (the order the browser, the user
    and hashcat produce them).  The timer's period in milliseconds is not
    modelled: fairness of the ticks is a hypothesis of the liveness
    theorem. *)

From Stdlib Require Import ZArith String Lia Bool.
From stdpp Require Import base list tactics.
From S2P Require Import Prelude PyValue Reader Parser Figure App Layout Main.

Local Open Scope string_scope.

(** What happens next: a browser opens the page, the interval component
    increments [n_intervals], the user clicks Update (incrementing
    [n_clicks]), the user changes a control, or hashcat writes. *)
Inductive event :=
| PageLoad
| Tick
| Click
| Edit (c : controls)
| Write (fs : file_system).

Record session := mk_session {
  ses_app : app_state;
  ses_layout : layout;
  ses_fs : file_system;
  ses_ui : controls;
  ses_interval : json;
  ses_n_intervals : Z;
  ses_n_clicks : Z;
  ses_graph : option figure
}.

(** Line 222: [ctx.triggered and ctx.triggered[0]['prop_id'] ==
    'update-button.n_clicks'], for the prop ids Dash lists as triggered. *)
Definition trigger_of (triggered : list string) : trigger :=
  match triggered with
  | p :: _ => if String.eqb p "update-button.n_clicks" then UpdateClick else OtherTrigger
  | [] => OtherTrigger
  end.

(** Dash calls the callback with the States of the page (lines 208-217)
    and writes its Outputs back, or none of them when it raises. *)
Definition fire `{JsonDecoder} (triggered : list string) (s : session) : session :=
  let '(st, r) := callback (ses_fs s) (ses_app s) (trigger_of triggered) (ses_ui s) in
  match r with
  | Ok (iv, fig) =>
      mk_session st (ses_layout s) (ses_fs s) (ses_ui s) iv (ses_n_intervals s) (ses_n_clicks s) (Some fig)
  | Exc _ =>
      mk_session st (ses_layout s) (ses_fs s) (ses_ui s) (ses_interval s) (ses_n_intervals s)
                 (ses_n_clicks s) (ses_graph s)
  end.

(** [run] (lines 297-299): the server sends the layout built in
    [__init__]; the page starts with its props, before the initial call. *)
Definition open_page (st : app_state) (lay : layout) (fs : file_system) : session :=
  mk_session st lay fs (initial_controls lay) (interval_ms lay) (intervals lay) (update_clicks lay) None.

Definition session_step `{JsonDecoder} (ev : event) (s : session) : session :=
  match ev with
  | PageLoad => fire ["."] (open_page (ses_app s) (ses_layout s) (ses_fs s))
  | Tick =>
      fire ["interval-component.n_intervals"]
        (mk_session (ses_app s) (ses_layout s) (ses_fs s) (ses_ui s) (ses_interval s)
                    (ses_n_intervals s + 1) (ses_n_clicks s) (ses_graph s))
  | Click =>
      fire ["update-button.n_clicks"]
        (mk_session (ses_app s) (ses_layout s) (ses_fs s) (ses_ui s) (ses_interval s)
                    (ses_n_intervals s) (ses_n_clicks s + 1) (ses_graph s))
  | Edit c =>
      mk_session (ses_app s) (ses_layout s) (ses_fs s) c (ses_interval s) (ses_n_intervals s)
                 (ses_n_clicks s) (ses_graph s)
  | Write fs =>
      mk_session (ses_app s) (ses_layout s) fs (ses_ui s) (ses_interval s) (ses_n_intervals s)
                 (ses_n_clicks s) (ses_graph s)
  end.

(** The session after the first [k] events of [ev]. *)
Fixpoint exec `{JsonDecoder} (ev : nat -> event) (s0 : session) (k : nat) : session :=
  match k with
  | O => s0
  | S k => session_step (ev k) (exec ev s0 k)
  end.

(** The session [main] starts: the app and page it serves, before any
    browser has opened the page. *)
Definition session_start (fs : file_system) (o : main_outcome) : option session :=
  match o with
  | Serving st lay _ _ _ _ => Some (open_page st lay fs)
  | ExitError _ _ => None
  end.

(** The figure the callback would draw now, from the files on disk and the
    app's settings. *)
Definition current_figure `{JsonDecoder} (s : session) : result figure :=
  create_figure (ses_fs s) (app_x_axis_type (ses_app s)) (app_y_axis_type (ses_app s))
                (no_potfile_highlight (ses_app s)) (parsers (ses_app s)).

Definition figure_ok `{JsonDecoder} (s : session) : Prop :=
  exists fig, current_figure s = Ok fig.

(** The timer fires again and again: after any point there is a tick. *)
Definition fair_ticks (ev : nat -> event) : Prop :=
  forall k, exists m, k <= m /\ ev m = Tick.

(** Hashcat no longer writes after the [n]-th event. *)
Definition writes_stop (ev : nat -> event) (n : nat) : Prop :=
  forall k fs, n <= k -> ev k <> Write fs.

(** The sessions [main] leads to, by events in any order. *)
Inductive session_reachable `{JsonDecoder} (fs0 : file_system) (a : cli_args) : session -> Prop :=
| ses_reach_start s : session_start fs0 (main fs0 a) = Some s -> session_reachable fs0 a s
| ses_reach_step ev s : session_reachable fs0 a s -> session_reachable fs0 a (session_step ev s).

(** ** What the events do *)

Section SessionFacts.
Context `{JsonDecoder}.

(** What [fire] keeps and what it writes. *)
Lemma fire_app tr s :
  ses_app (fire tr s) = (callback (ses_fs s) (ses_app s) (trigger_of tr) (ses_ui s)).1.
Proof. unfold fire. by destruct (callback _ _ _ _) as [st [[iv fig]|e]]. Qed.

Lemma fire_layout tr s : ses_layout (fire tr s) = ses_layout s.
Proof. unfold fire. by destruct (callback _ _ _ _) as [st [[iv fig]|e]]. Qed.

Lemma fire_fs tr s : ses_fs (fire tr s) = ses_fs s.
Proof. unfold fire. by destruct (callback _ _ _ _) as [st [[iv fig]|e]]. Qed.

Lemma fire_ui tr s : ses_ui (fire tr s) = ses_ui s.
Proof. unfold fire. by destruct (callback _ _ _ _) as [st [[iv fig]|e]]. Qed.

(** A click with an int refresh value assigns the settings, then draws. *)
Lemma callback_click_int fs st c r :
  num_view (refresh_input c) = Some (inl r) ->
  let st' := update_parsers (mk_app (hashcat_files st) (JInt (r * 1000)) (x_axis_radio c) (y_axis_radio c)
                 (app_status_timer st) (negb (existsb (String.eqb "highlight") (potfile_highlight_check c)))
                 (parsers st)) in
  callback fs st UpdateClick c =
    (st', let? fig := create_figure fs (app_x_axis_type st') (app_y_axis_type st')
                                    (no_potfile_highlight st') (parsers st') in
          Ok (update_interval st', fig)).
Proof. intros Hr. unfold callback, apply_settings, py_mul_int. by rewrite Hr. Qed.

Lemma step_layout ev s : ses_layout (session_step ev s) = ses_layout s.
Proof. destruct ev; cbn -[fire]; try done; by rewrite fire_layout. Qed.

Lemma step_fs ev s :
  ses_fs (session_step ev s) = match ev with Write fs => fs | _ => ses_fs s end.
Proof. destruct ev; cbn -[fire]; try done; by rewrite fire_fs. Qed.

Lemma session_start_main fs0 a s :
  session_start fs0 (main fs0 a) = Some s ->
  ses_app s = app_init (arg_files a) /\ ses_layout s = setup_layout (app_init (arg_files a)).
Proof.
  unfold session_start. destruct (main fs0 a) eqn:Em; [discriminate|].
  apply main_serving in Em as (_ & Hst & _). injection Hst as <- <-. by injection 1 as <-.
Qed.

Lemma session_reachable_layout fs0 a s :
  session_reachable fs0 a s -> ses_layout s = setup_layout (app_init (arg_files a)).
Proof.
  induction 1 as [s Hs|ev s _ IH]; [by apply (session_start_main fs0)|by rewrite step_layout].
Qed.

Lemma exec_fs_stable ev s0 n k :
  writes_stop ev n -> n <= k -> ses_fs (exec ev s0 k) = ses_fs (exec ev s0 n).
Proof.
  intros Hw. induction 1 as [|k Hk IH]; [done|].
  cbn. rewrite step_fs, <-IH. destruct (ev k) eqn:E; try done.
  exfalso. by apply (Hw k fs); [lia|].
Qed.

(** A tick redraws the figure from the files on disk with the app's
    settings, which it leaves as they are. *)
Lemma tick_redraws s fig :
  current_figure s = Ok fig ->
  let s' := session_step Tick s in
  ses_app s' = ses_app s /\ ses_fs s' = ses_fs s /\ ses_graph s' = Some fig /\
  ses_interval s' = update_interval (ses_app s).
Proof. unfold current_figure. intros Hf. cbn. unfold fire, callback. cbn. by rewrite Hf. Qed.

(** Ticks alone leave the settings and the files as they are. *)
Lemma exec_ticks s0 k :
  ses_app (exec (fun _ => Tick) s0 k) = ses_app s0 /\ ses_fs (exec (fun _ => Tick) s0 k) = ses_fs s0.
Proof.
  induction k as [|k [IHa IHf]]; [done|]. cbn -[fire].
  by rewrite fire_app, fire_fs, <-IHa, <-IHf.
Qed.

Lemma current_figure_same s s' :
  ses_app s' = ses_app s -> ses_fs s' = ses_fs s -> current_figure s' = current_figure s.
Proof. unfold current_figure. by intros -> ->. Qed.

End SessionFacts.

Section SessionClaims.
Context `{JsonDecoder}.

(** C12 (liveness).  Once hashcat has stopped writing, a page whose timer
    keeps firing shows the final files again and again: after every point
    there is a tick after which the graph holds the figure of the files as
    they were left, drawn with the app's settings of that moment, and the
    timer runs at the app's interval, provided those files can be drawn
    (no record raises). *)
Theorem session_eventually_current ev s0 n :
  fair_ticks ev -> writes_stop ev n ->
  (forall k, n <= k -> figure_ok (exec ev s0 k)) ->
  forall k, n <= k -> exists m fig, k <= m /\
    ses_fs (exec ev s0 (S m)) = ses_fs (exec ev s0 n) /\
    current_figure (exec ev s0 (S m)) = Ok fig /\
    ses_graph (exec ev s0 (S m)) = Some fig /\
    ses_interval (exec ev s0 (S m)) = update_interval (ses_app (exec ev s0 (S m))).
Proof.
  intros Hfair Hw Hok k Hk. destruct (Hfair k) as (m & Hm & Ht).
  destruct (Hok m ltac:(lia)) as [fig Hf].
  destruct (tick_redraws _ _ Hf) as (Ha & Hfs & Hg & Hi).
  exists m, fig. cbn [exec]. rewrite Ht. split_and!; [done| | |done|by rewrite Hi, Ha].
  - rewrite Hfs. apply exec_fs_stable; [done|lia].
  - by rewrite (current_figure_same _ _ Ha Hfs).
Qed.

(** C14 (functional).  A browser that opens or reloads the page gets the
    controls of the layout [__init__] built (refresh 10, the guesses and
    percentage axes, the highlight checked), whatever settings the app has
    now, and the initial call leaves those settings as they are; so a click
    on Update right after puts every setting back to its default. *)
Theorem page_load_defaults fs0 a s :
  session_reachable fs0 a s ->
  let s1 := session_step PageLoad s in
  let s2 := session_step Click s1 in
  ses_app s1 = ses_app s /\
  ses_ui s1 = mk_controls (JInt 10) "guesses" "percentage" ["highlight"] /\
  update_interval (ses_app s2) = JInt 10000 /\ app_x_axis_type (ses_app s2) = "guesses" /\
  app_y_axis_type (ses_app s2) = "percentage" /\ no_potfile_highlight (ses_app s2) = false.
Proof.
  intros Hr%session_reachable_layout. cbn -[fire].
  rewrite !fire_app, !fire_ui. cbn -[fire]. rewrite Hr, (callback_click_int _ _ _ 10); done.
Qed.

(** C15 (error).  When the files hold a record that makes the figure
    raise (a short [recovered_hashes], a [guess_mod] that is not a str), a
    click with an int refresh value [r] still assigns the new settings, the
    interval [r * 1000] included, before [_create_figure] raises; Dash then
    writes neither output, so the page's timer keeps its old interval and
    the graph its old figure, and the two disagree with the app. *)
Theorem click_error_timer_stale s r e :
  num_view (refresh_input (ses_ui s)) = Some (inl r) ->
  current_figure (session_step Click s) = Exc e ->
  let s' := session_step Click s in
  update_interval (ses_app s') = JInt (r * 1000) /\ app_x_axis_type (ses_app s') = x_axis_radio (ses_ui s) /\
  ses_interval s' = ses_interval s /\ ses_graph s' = ses_graph s.
Proof.
  intros Hr. unfold current_figure. cbn -[fire]. rewrite fire_app, fire_fs. cbn [ses_fs ses_app ses_ui].
  rewrite (callback_click_int _ _ _ r Hr). cbn [fst]. intros Hf.
  unfold fire. cbn [ses_fs ses_app ses_ui]. rewrite (callback_click_int _ _ _ r Hr), Hf. done.
Qed.

End SessionClaims.
