(* ===== verification/Threads.v ===== *)
(** * Threads: the callback as the steps Python runs, and their interleaving

    Lines 218-232 and 234-295 of src/password_cracking_curve.py.  The
    callback [update_graph_and_settings] is not one atomic step: a click
    assigns [self.update_interval], [self.x_axis_type], [self.y_axis_type]
    and [self.no_potfile_highlight] one after the other (lines 223-226),
    then rebuilds [self.parsers] (line 227); [_create_figure] reads the axis
    types for the titles (lines 239-240), then [self.parsers] and
    [self.no_potfile_highlight] to draw the traces (lines 246-284); the
    callback finally reads [self.update_interval] again for its output
    (line 232).  Dash serves requests with Flask's threaded server, so two
    requests (two browser tabs, or a tick while a click is served) run the
    callback in two threads over the same app object.

    An [action] is one of those steps, a [thread] one call of the callback
    with its local variables, [thread_step] runs a thread's next action on
    the shared app state, and [run_sched] runs the threads in the order a
    schedule (a list of thread indices) gives.  The drawing loop of lines
    246-284 is one action here: it reads [self.parsers] once (line 246,
    [.items()] of the dict) and, in this model, the highlight flag once;
    splitting it finer only adds schedules.  [tick_progress] says how far
    a tick has run on a state no one writes, the invariant by which ticks
    alone are serializable. *)

From Stdlib Require Import ZArith String Lia Bool.
From stdpp Require Import base list tactics.
From S2P Require Import Prelude PyValue Reader Parser Figure App.

Local Open Scope string_scope.

Inductive action :=
| SetInterval
| SetXAxis
| SetYAxis
| SetHighlight
| UpdateParsers
| ReadTitles
| DrawTraces
| Return.

(** One call of the callback: the actions left, its arguments (the
    [State] values), its locals (the titles and the traces of
    [_create_figure]), and its outcome once it has returned or raised. *)
Record thread := mk_thread {
  th_todo : list action;
  th_controls : controls;
  th_titles : string * string;
  th_traces : list trace;
  th_out : option (result (json * figure))
}.

(** Lines 222-232: what a call runs, by what fired it. *)
Definition callback_actions (t : trigger) : list action :=
  match t with
  | UpdateClick => [SetInterval; SetXAxis; SetYAxis; SetHighlight; UpdateParsers; ReadTitles; DrawTraces; Return]
  | OtherTrigger => [ReadTitles; DrawTraces; Return]
  end.

Definition spawn (t : trigger) (c : controls) : thread :=
  mk_thread (callback_actions t) c (EmptyString, EmptyString) [] None.

(** The assignments of lines 223-226, one attribute each. *)
Definition set_interval (st : app_state) (iv : json) : app_state :=
  mk_app (hashcat_files st) iv (app_x_axis_type st) (app_y_axis_type st) (app_status_timer st)
         (no_potfile_highlight st) (parsers st).

Definition set_x_axis (st : app_state) (x : string) : app_state :=
  mk_app (hashcat_files st) (update_interval st) x (app_y_axis_type st) (app_status_timer st)
         (no_potfile_highlight st) (parsers st).

Definition set_y_axis (st : app_state) (y : string) : app_state :=
  mk_app (hashcat_files st) (update_interval st) (app_x_axis_type st) y (app_status_timer st)
         (no_potfile_highlight st) (parsers st).

Definition set_highlight (st : app_state) (h : bool) : app_state :=
  mk_app (hashcat_files st) (update_interval st) (app_x_axis_type st) (app_y_axis_type st)
         (app_status_timer st) h (parsers st).

(** The next action of a thread, on the shared state.  An exception ends
    the thread with the exception as its outcome. *)
Definition thread_step `{JsonDecoder} (fs : file_system) (st : app_state) (th : thread)
    : app_state * thread :=
  let c := th_controls th in
  let raise e := (st, mk_thread [] c (th_titles th) (th_traces th) (Some (Exc e))) in
  match th_todo th with
  | [] => (st, th)
  | a :: rest =>
      let next st' := (st', mk_thread rest c (th_titles th) (th_traces th) (th_out th)) in
      match a with
      | SetInterval =>
          match py_mul_int (refresh_input c) 1000 with
          | Ok iv => next (set_interval st iv)
          | Exc e => raise e
          end
      | SetXAxis => next (set_x_axis st (x_axis_radio c))
      | SetYAxis => next (set_y_axis st (y_axis_radio c))
      | SetHighlight =>
          next (set_highlight st (negb (existsb (String.eqb "highlight") (potfile_highlight_check c))))
      | UpdateParsers => next (update_parsers st)
      | ReadTitles =>
          (st, mk_thread rest c (x_axis_title (app_x_axis_type st), y_axis_title (app_y_axis_type st))
                         (th_traces th) (th_out th))
      | DrawTraces =>
          match figure_traces fs (no_potfile_highlight st) (parsers st) with
          | Ok ts => (st, mk_thread rest c (th_titles th) ts (th_out th))
          | Exc e => raise e
          end
      | Return =>
          (st, mk_thread rest c (th_titles th) (th_traces th)
                         (Some (Ok (update_interval st,
                                    make_figure (th_titles th).1 (th_titles th).2 (th_traces th)))))
      end
  end.

(** One step of the schedule: the thread it names runs its next action. *)
Definition sched_step `{JsonDecoder} (fs : file_system) (cfg : app_state * list thread) (i : nat)
    : app_state * list thread :=
  let '(st, ths) := cfg in
  match ths !! i with
  | Some th => let '(st', th') := thread_step fs st th in (st', <[i := th']> ths)
  | None => (st, ths)
  end.

Definition run_sched `{JsonDecoder} (fs : file_system) (st : app_state) (ths : list thread)
    (sched : list nat) : app_state * list thread :=
  foldl (sched_step fs) (st, ths) sched.

(** The outcome of thread [i] after a schedule. *)
Definition outcome (cfg : app_state * list thread) (i : nat) : option (result (json * figure)) :=
  cfg.2 !! i ≫= th_out.

(** How far a tick has run, on a state no thread changes: what it has read
    so far is what the callback reads, and once it has ended its outcome is
    the callback's. *)
Definition tick_progress `{JsonDecoder} (fs : file_system) (st : app_state) (th : thread) : Prop :=
  let titles := (x_axis_title (app_x_axis_type st), y_axis_title (app_y_axis_type st)) in
  match th_todo th with
  | [ReadTitles; DrawTraces; Return] => th_out th = None
  | [DrawTraces; Return] => th_titles th = titles /\ th_out th = None
  | [Return] =>
      th_titles th = titles /\
      figure_traces fs (no_potfile_highlight st) (parsers st) = Ok (th_traces th) /\ th_out th = None
  | [] => th_out th = Some (callback fs st OtherTrigger (th_controls th)).2
  | _ => False
  end.

(** ** A call that runs alone is the callback *)

Section ThreadFacts.
Context `{JsonDecoder}.
Variable fs : file_system.

(** C19 (safety).  The callback is not atomic: when a tick is served
    while a click with refresh [r] is between its assignment of
    [self.x_axis_type] (line 224) and its [self.update_parsers()] (line
    227), the tick returns the new interval and a figure whose x title
    follows the new x axis, while its traces are drawn by the old parsers,
    with the old y axis and the old highlight; neither order of the two
    calls run whole gives that figure when the axis changes. *)
Theorem interleaved_tick_mixes st c c' r :
  num_view (refresh_input c) = Some (inl r) ->
  outcome (run_sched fs st [spawn UpdateClick c; spawn OtherTrigger c'] [0; 0; 1; 1; 1]) 1 =
  Some (let? ts := figure_traces fs (no_potfile_highlight st) (parsers st) in
        Ok (JInt (r * 1000),
            make_figure (x_axis_title (x_axis_radio c)) (y_axis_title (app_y_axis_type st)) ts)).
Proof.
  intros Hr. cbn -[figure_traces py_mul_int]. unfold py_mul_int. rewrite Hr. cbn -[figure_traces].
  by destruct (figure_traces _ _ _).
Qed.

Lemma tick_step_progress st th :
  tick_progress fs st th ->
  (thread_step fs st th).1 = st /\ tick_progress fs st (thread_step fs st th).2.
Proof.
  destruct th as [todo c ti tr out]. unfold tick_progress, thread_step. cbn [th_todo th_out th_titles th_traces th_controls].
  destruct todo as [|[] [|[] [|[] [|]]]]; try done; cbn; intros Hp; destruct_and?; subst; try done.
  - destruct (figure_traces _ _ _) eqn:E; cbn; [done|]. unfold callback, create_figure. by rewrite E.
  - unfold callback, create_figure.
    match goal with Hf : figure_traces _ _ _ = Ok _ |- _ => by rewrite Hf end.
Qed.

Lemma sched_step_ticks cfg i :
  Forall (tick_progress fs cfg.1) cfg.2 ->
  (sched_step fs cfg i).1 = cfg.1 /\ Forall (tick_progress fs cfg.1) (sched_step fs cfg i).2.
Proof.
  destruct cfg as [st ths]. cbn. intros Hall. destruct (ths !! i) as [th|] eqn:Ei; [|done].
  pose proof (tick_step_progress st th (Forall_lookup_1 _ _ _ _ Hall Ei)) as [Hst Hp].
  destruct (thread_step fs st th) as [st' th']. cbn in *. subst st'. split; [done|].
  by apply Forall_insert.
Qed.

(** C37 (safety).  Ticks alone never race: whatever the interleaving of any
    number of tick requests, the app's state stays as it was, and every
    tick that has ended returns exactly what the callback returns when it
    runs alone; only a click's assignments make the callback's outcome
    depend on the schedule. *)
Theorem ticks_serializable st cs sched :
  let cfg := run_sched fs st (map (spawn OtherTrigger) cs) sched in
  cfg.1 = st /\
  forall i th, cfg.2 !! i = Some th -> th_todo th = [] ->
    th_out th = Some (callback fs st OtherTrigger (th_controls th)).2.
Proof.
  unfold run_sched.
  assert (Hinv : forall cfg, cfg.1 = st -> Forall (tick_progress fs st) cfg.2 ->
            (foldl (sched_step fs) cfg sched).1 = st /\
            Forall (tick_progress fs st) (foldl (sched_step fs) cfg sched).2).
  { induction sched as [|i sched IH]; intros [st0 ths] Hst Hall; [done|]. cbn [foldl].
    cbn in Hst. subst st0. destruct (sched_step_ticks (st, ths) i Hall) as [Hs Hf]. by apply IH. }
  destruct (Hinv (st, map (spawn OtherTrigger) cs)) as [Hs Hf]; [done|by apply Forall_fmap, Forall_true|].
  split; [done|]. intros i th Hi Ht.
  pose proof (Forall_lookup_1 _ _ _ _ Hf Hi) as Hp. unfold tick_progress in Hp. by rewrite Ht in Hp.
Qed.

End ThreadFacts.
