(* ===== verification/Scenarios.v ===== *)
(** * Scenarios: concrete status files run through the whole model

    Small hashcat status files, written as text and decoded by [JsonDecode],
    run through [parse_status_file] by evaluation: the spec's scenarios and
    the behaviours where the code and the spec part, and the witnesses of
    the parser's theorems. *)

From Stdlib Require Import ZArith SpecFloat String Ascii Lia Bool.
From stdpp Require Import base list tactics.
From S2P Require Import Prelude Segmenter PyFloat PyString PyValue Reader JsonDecode Parser Downsample Figure App Layout Main Session Threads.

Local Open Scope string_scope.

(** A JSON string literal. *)
Definition jstr (s : string) : string := String "034" (s ++ String "034" EmptyString).

(** One status line with the fields the program reads. *)
Definition status_line (base : string) (gm : option string) (progress cracked total : Z) : string :=
  "{" ++ jstr "session" ++ ": " ++ jstr "hashcat" ++ ", " ++
  jstr "guess" ++ ": {" ++ jstr "guess_base" ++ ": " ++ jstr base ++ ", " ++
  jstr "guess_mod" ++ ": " ++ (match gm with None => "null" | Some m => jstr m end) ++ "}, " ++
  jstr "progress" ++ ": [" ++ int_str progress ++ ", 1000], " ++
  jstr "recovered_hashes" ++ ": [" ++ int_str cracked ++ ", " ++ int_str total ++ "]}".

Definition one_file (name text : string) : file_system :=
  fun p => if String.eqb p name then Some text else None.

Definition default_cfg : parser_cfg := mk_cfg "guesses" "percentage" 1.

Definition lines_B : list string :=
  [status_line "dict1" None 10 2 100; status_line "dict1" None 10 2 100;
   status_line "dict1" None 10 2 100].

Definition lines_C : list string :=
  [status_line "dict1" None 10 2 100; status_line "dict1" None 10 2 100;
   status_line "autocat_new_cracked_potfile" None 10 3 100].

Definition fs_B : file_system := one_file "status.json" (join_lines lines_B).
Definition fs_C : file_system := one_file "status.json" (join_lines lines_C).

(** The points of Scenario C, curve by curve. *)
Definition curves_x_C : list (list json) := [[JInt 0; JInt 10; JInt 20]; [JInt 20; JInt 30]].
Definition curves_y_C : list (list json) :=
  [[JInt 0; JFloat (float_lit 2); JFloat (float_lit 2)]; [JFloat (float_lit 2); JFloat (float_lit 3)]].
Definition labels_C : list key := [("unknown/dict1", JNull); ("unknown/potfile", JNull)].

Definition loop_B : loop_state :=
  mk_loop (mk_seg [[JInt 0; JInt 10; JInt 20; JInt 30]]
                  [[JInt 0; JFloat (float_lit 2); JFloat (float_lit 2); JFloat (float_lit 2)]]
                  [("unknown/dict1", JNull)] (Some ("unknown/dict1", JNull)))
          (JInt 30) 3.

Definition fs_short : file_system :=
  one_file "s" (join_lines (("{" ++ jstr "recovered_hashes" ++ ": [5]}") :: lines_B)).

(** Scenario B, then a record with a one-item [recovered_hashes] and no
    [progress], then Scenario C. *)
Definition short_record : json := JDict [("recovered_hashes", JList [JInt 5])].
Definition fs_short_late : file_system :=
  one_file "s" (join_lines (lines_B ++ ("{" ++ jstr "recovered_hashes" ++ ": [5]}") :: lines_C)).

(** The record points of Scenario B and the final counters. *)
Definition extract_B : list (key * json * json) * json * Z :=
  match extract_all default_cfg (JInt 0) 0 (read_records fs_B "status.json") with
  | Ok r => r
  | Exc _ => ([], JInt 0, 0%Z)
  end.

Definition parsers_C : list (string * parser_cfg) := [("status.json", default_cfg)].

Definition figure_C : figure :=
  match create_figure fs_C "guesses" "percentage" false parsers_C with
  | Ok fig => fig
  | Exc _ => mk_figure EmptyString EmptyString EmptyString EmptyString EmptyString (0, 0)%Z []
  end.

Definition traces_C : list trace :=
  match file_traces default_cfg fs_C false "status.json" with
  | Ok ts => ts
  | Exc _ => []
  end.

(** The record points of Scenario C and the final counters. *)
Definition extract_C : list (key * json * json) * json * Z :=
  match extract_all default_cfg (JInt 0) 0 (read_records fs_C "status.json") with
  | Ok r => r
  | Exc _ => ([], JInt 0, 0%Z)
  end.

(** Scenario C with the time axis. *)
Definition time_cfg : parser_cfg := mk_cfg "time" "percentage" 1.

Definition parse_C (cfg : parser_cfg) : list (list json) * list (list json) * list key :=
  match parse_status_file cfg fs_C "status.json" with
  | Ok r => r
  | Exc _ => ([], [], [])
  end.

(** A curve of 1020 points, whose last point the stride misses. *)
Definition long_curve : list nat := seq 0 1020.
Definition long_sampled : list nat * list nat :=
  match downsample long_curve long_curve with
  | Ok r => r
  | Exc _ => ([], [])
  end.

(** The file of Scenario C when two of its three lines are written, and
    when the third has followed; the result of a parse, or nothing. *)
Definition fs_grow_before : file_system := one_file "s" (join_lines (take 2 lines_C)).
Definition fs_grow_after : file_system :=
  one_file "s" (join_lines (take 2 lines_C) ++ join_lines (drop 2 lines_C)).
Definition parse_or_empty (cfg : parser_cfg) (fs : file_system) (f : string)
    : list (list json) * list (list json) * list key :=
  match parse_status_file cfg fs f with
  | Ok r => r
  | Exc _ => ([], [], [])
  end.

Definition no_trace : trace := mk_trace [] [] EmptyString EmptyString None EmptyString None.
Definition trace_C0 : trace := nth 0 traces_C no_trace.
Definition trace_C1 : trace := nth 1 traces_C no_trace.

(** The dashboard on Scenario C's file: the page as [main] serves it, and
    after the user picks the time and count axes and clicks Update. *)
Definition args_C : cli_args := mk_args ["status.json"] false "127.0.0.1" 8050.
Definition start_C : session :=
  open_page (app_init ["status.json"]) (setup_layout (app_init ["status.json"])) fs_C.
Definition edited_C : session := session_step Click (session_step (Edit click_controls) start_C).

(** Two calls on Scenario C's file: a click choosing the time and count
    axes, and a tick served after the click's first two assignments. *)
Definition two_calls : list thread := [spawn UpdateClick click_controls; spawn OtherTrigger click_controls].
Definition mixed_C : option (result (json * figure)) :=
  outcome (run_sched fs_C (app_init ["status.json"]) two_calls [0; 0; 1; 1; 1]) 1.

(** The dashboard on a file whose record has a short [recovered_hashes],
    with a refresh of 5 typed in. *)
Definition start_short : session :=
  session_step (Edit click_controls) (open_page (app_init ["s"]) (setup_layout (app_init ["s"])) fs_short).

(** Scenario B: three records of one phase give one
    curve, x [0, 10, 20, 30] (guesses mode) and y [0, 2.0, 2.0, 2.0]
    (percentage mode; the anchor is the int 0). *)
Example scenario_B :
  parse_status_file default_cfg fs_B "status.json" =
  Ok ([[JInt 0; JInt 10; JInt 20; JInt 30]],
      [[JInt 0; JFloat (float_lit 2); JFloat (float_lit 2); JFloat (float_lit 2)]],
      [("unknown/dict1", JNull)]).
Proof. vm_compute. reflexivity. Qed.

(** Scenario C: two [dict1] records then one
    [autocat_new_cracked_potfile] record give two curves; the potfile
    phase's label is ["potfile"].  The first curve ends at the last [dict1]
    point and the second starts there: the code does not append the
    transition point to the closed curve, as section 4.2 of the spec
    describes. *)
Example scenario_C :
  parse_status_file default_cfg fs_C "status.json" = Ok (curves_x_C, curves_y_C, labels_C) /\
  map attack_label labels_C = [Ok "dict1"; Ok "potfile"].
Proof. split; vm_compute; reflexivity. Qed.

(** Scenario D: [recovered_hashes = [5, 0]] takes the
    total as 1, and the percentage is 500.0 (no division by zero). *)
Example scenario_D :
  parse_status_file default_cfg (one_file "s" (join_lines [status_line "d" None 1 5 0])) "s" =
  Ok ([[JInt 0; JInt 1]], [[JInt 0; JFloat (float_lit 500)]], [("unknown/d", JNull)]).
Proof. vm_compute. reflexivity. Qed.

(** The phase key holds [guess_mod]: two records of the
    same [time_start] and [guess_base] with different rules give two
    curves, where the spec's [phase_identifier = (time_start, guess_base)]
    gives one. *)
Example guess_mod_splits_phase :
  parse_status_file default_cfg
    (one_file "s" (join_lines [status_line "dict1" (Some "rules/best64.rule") 10 0 10;
                              status_line "dict1" (Some "rules/d3ad0ne.rule") 10 0 10])) "s" =
  Ok ([[JInt 0; JInt 10]; [JInt 10; JInt 20]],
      [[JInt 0; JFloat (S754_zero false)]; [JFloat (S754_zero false); JFloat (S754_zero false)]],
      [("unknown/dict1", JStr "rules/best64.rule"); ("unknown/dict1", JStr "rules/d3ad0ne.rule")]).
Proof. vm_compute. reflexivity. Qed.

(** ** Witnesses of the parser's theorems *)

Lemma parse_curves_maximal_runs_witness :
  exists pts rs g el,
    extract_all default_cfg (JInt 0) 0 (read_records fs_C "status.json") = Ok (pts, g, el) /\
    segmentation key_eqb pts rs /\
    curves_x_C = stitch pt_x (JInt 0) rs /\ curves_y_C = stitch pt_y (JInt 0) rs /\
    labels_C = omap run_head_key rs.
Proof. apply (parse_curves_maximal_runs default_cfg fs_C "status.json"). vm_compute. reflexivity. Defined.

Lemma parse_status_file_continuity_witness :
  (forall i c c', curves_x_C !! i = Some c -> curves_x_C !! S i = Some c' -> head c' = list.last c) /\
  (forall i d d', curves_y_C !! i = Some d -> curves_y_C !! S i = Some d' -> head d' = list.last d).
Proof. apply (parse_status_file_continuity default_cfg fs_C "status.json" _ _ labels_C). vm_compute. reflexivity. Defined.

Lemma parse_status_file_shape_witness :
  length curves_x_C = length labels_C /\ length curves_y_C = length labels_C /\
  Forall2 (fun a b => length a = length b /\ 2 <= length a) curves_x_C curves_y_C.
Proof. apply (parse_status_file_shape default_cfg fs_C "status.json"). vm_compute. reflexivity. Defined.

Lemma parse_lines_skip_nonrecords_witness :
  parse_lines default_cfg loop_init (lines_B ++ ["garbage"; "{" ++ jstr "progress" ++ ": [1"; "  "] ++ lines_C) =
  parse_lines default_cfg loop_init (lines_B ++ lines_C).
Proof.
  apply (parse_lines_skip_nonrecords default_cfg).
  repeat constructor; vm_compute; reflexivity.
Defined.

Lemma parse_guesses_sum_witness : guesses loop_B = JInt (foldr Z.add 0%Z [10; 10; 10]%Z).
Proof.
  apply (parse_guesses_sum default_cfg lines_B).
  - vm_compute. reflexivity.
  - repeat constructor; vm_compute; reflexivity.
Defined.

Lemma parse_elapsed_witness :
  elapsed_seconds loop_B = (status_timer default_cfg * Z.of_nat (length (status_records lines_B)))%Z.
Proof. apply (parse_elapsed default_cfg). vm_compute. reflexivity. Defined.

Lemma short_recovered_aborts_witness : parse_status_file default_cfg fs_short_late "s" = Exc IndexError.
Proof.
  apply (short_recovered_aborts default_cfg fs_short_late "s" (read_records fs_B "status.json") short_record
           (read_records fs_C "status.json") extract_B.1.1 extract_B.1.2 extract_B.2 (JInt 30) [JInt 5]);
    [vm_compute; reflexivity..|cbn; lia].
Defined.

Lemma parse_no_records_witness :
  parse_status_file default_cfg fs_B "missing.json" = Ok ([], [], []).
Proof. apply (parse_no_records default_cfg). vm_compute. reflexivity. Defined.

(** ** Witnesses of the figure's theorems *)

Lemma attack_label_segments_witness :
  attack_label ("1700000000" ++ "/" ++ "dict1", JNull) = Ok "dict1" /\
  attack_label ("1700000000" ++ "/" ++ "dict1", JStr ("rules" ++ "/" ++ "best64.rule")) =
  Ok ("dict1" ++ " " ++ "best64.rule").
Proof. apply attack_label_segments; vm_compute; reflexivity. Defined.

Lemma create_figure_colors_witness :
  Forall (fun t => tr_color t = None \/ tr_color t = Some "black") (fig_traces figure_C).
Proof. apply (create_figure_colors fs_C "guesses" "percentage" false parsers_C). vm_compute. reflexivity. Defined.

Lemma file_traces_connect_witness :
  head (tr_x trace_C1) = list.last (tr_x trace_C0) /\ head (tr_y trace_C1) = list.last (tr_y trace_C0).
Proof.
  refine (file_traces_connect default_cfg fs_C false "status.json" traces_C _ 0 _ _ _ _);
    vm_compute; reflexivity.
Defined.

Lemma parse_curve_count_witness :
  length curves_x_C = key_changes key_eqb None extract_C.1.1 /\
  length curves_y_C = key_changes key_eqb None extract_C.1.1 /\
  length labels_C = key_changes key_eqb None extract_C.1.1.
Proof.
  apply (parse_curve_count default_cfg fs_C "status.json" _ _ _ _ extract_C.1.2 extract_C.2);
    vm_compute; [reflexivity|reflexivity|repeat econstructor].
Defined.

Lemma parse_time_axis_ordered_witness :
  Forall (fun c => chainb int_leb c = true) (parse_C time_cfg).1.1.
Proof.
  apply (parse_time_axis_ordered time_cfg fs_C "status.json" _ (parse_C time_cfg).1.2 (parse_C time_cfg).2);
    [reflexivity|cbn; lia|vm_compute; reflexivity].
Defined.

Lemma parse_guesses_axis_ordered_witness :
  Forall (fun c => chainb int_leb c = true) (parse_C default_cfg).1.1.
Proof.
  apply (parse_guesses_axis_ordered default_cfg fs_C "status.json" _
           (parse_C default_cfg).1.2 (parse_C default_cfg).2 [10; 10; 10]%Z).
  - discriminate.
  - vm_compute. repeat constructor.
  - repeat constructor; lia.
  - vm_compute. reflexivity.
Defined.

Lemma file_traces_legend_witness :
  length traces_C = length (parse_C default_cfg).1.1 /\
  forall i t, traces_C !! i = Some t ->
    exists lab, (parse_C default_cfg).2 !! i = Some lab /\ attack_label lab = Ok (tr_name t) /\
      tr_group t = path_stem "status.json" /\
      tr_group_title t = (if (i =? 0)%nat then Some (path_stem "status.json") else None).
Proof.
  apply (file_traces_legend default_cfg fs_C false "status.json" traces_C _ (parse_C default_cfg).1.2);
    vm_compute; reflexivity.
Defined.

Lemma downsample_size_witness :
  (length long_curve <= 1000 -> long_sampled.1 = long_curve /\ long_sampled.2 = long_curve) /\
  (1000 < length long_curve ->
   length long_sampled.1 <= (length long_curve + (sample_rate - 1)) / sample_rate + 1).
Proof. apply downsample_size. vm_compute. reflexivity. Defined.

Lemma parse_values_numeric_witness :
  Forall (Forall (fun v => is_number v = true)) (parse_C default_cfg).1.1 /\
  (y_axis_type default_cfg <> "count" -> Forall (Forall (fun v => is_number v = true)) (parse_C default_cfg).1.2).
Proof.
  apply (parse_values_numeric default_cfg fs_C "status.json" _ _ (parse_C default_cfg).2).
  vm_compute. reflexivity.
Defined.

Lemma parse_append_extends_witness :
  extends (parse_or_empty default_cfg fs_grow_before "s").1.1 (parse_or_empty default_cfg fs_grow_after "s").1.1 /\
  extends (parse_or_empty default_cfg fs_grow_before "s").1.2 (parse_or_empty default_cfg fs_grow_after "s").1.2 /\
  (parse_or_empty default_cfg fs_grow_before "s").2 `prefix_of` (parse_or_empty default_cfg fs_grow_after "s").2.
Proof.
  apply (parse_append_extends default_cfg fs_grow_before fs_grow_after "s" (take 2 lines_C)
           (join_lines (drop 2 lines_C))).
  - vm_compute. reflexivity.
  - vm_compute. reflexivity.
  - repeat constructor.
  - vm_compute. reflexivity.
  - vm_compute. reflexivity.
Defined.

(** ** Witnesses of the session's theorems *)

Lemma session_eventually_current_witness :
  exists m fig, 0 <= m /\
    ses_fs (exec (fun _ => Tick) start_C (S m)) = ses_fs (exec (fun _ => Tick) start_C 0) /\
    current_figure (exec (fun _ => Tick) start_C (S m)) = Ok fig /\
    ses_graph (exec (fun _ => Tick) start_C (S m)) = Some fig /\
    ses_interval (exec (fun _ => Tick) start_C (S m)) =
      update_interval (ses_app (exec (fun _ => Tick) start_C (S m))).
Proof.
  apply (session_eventually_current (fun _ => Tick) start_C 0);
    [by intros k; exists k|by intros k fs _|..|lia].
  intros k _. destruct (exec_ticks start_C k) as [Ha Hf]. exists figure_C.
  rewrite (current_figure_same start_C _ Ha Hf). vm_compute. reflexivity.
Defined.

Lemma page_load_defaults_witness :
  let s1 := session_step PageLoad edited_C in
  let s2 := session_step Click s1 in
  ses_app s1 = ses_app edited_C /\
  ses_ui s1 = mk_controls (JInt 10) "guesses" "percentage" ["highlight"] /\
  update_interval (ses_app s2) = JInt 10000 /\ app_x_axis_type (ses_app s2) = "guesses" /\
  app_y_axis_type (ses_app s2) = "percentage" /\ no_potfile_highlight (ses_app s2) = false.
Proof.
  apply (page_load_defaults fs_C args_C). unfold edited_C.
  do 2 apply ses_reach_step. apply ses_reach_start. vm_compute. reflexivity.
Defined.

Lemma click_error_timer_stale_witness :
  let s' := session_step Click start_short in
  update_interval (ses_app s') = JInt (5 * 1000) /\
  app_x_axis_type (ses_app s') = x_axis_radio (ses_ui start_short) /\
  ses_interval s' = ses_interval start_short /\ ses_graph s' = ses_graph start_short.
Proof. apply (click_error_timer_stale start_short 5 IndexError); vm_compute; reflexivity. Defined.

(** ** Witnesses of the threads' theorems *)

Lemma interleaved_tick_mixes_witness :
  outcome (run_sched fs_C (app_init ["status.json"]) two_calls [0; 0; 1; 1; 1]) 1 =
  Some (let? ts := figure_traces fs_C (no_potfile_highlight (app_init ["status.json"]))
                                  (parsers (app_init ["status.json"])) in
        Ok (JInt (5 * 1000),
            make_figure (x_axis_title (x_axis_radio click_controls))
                        (y_axis_title (app_y_axis_type (app_init ["status.json"]))) ts)).
Proof. apply (interleaved_tick_mixes fs_C _ click_controls click_controls 5). reflexivity. Defined.

(** The tick's figure of that schedule is neither the one it returns when
    it runs before the click nor the one it returns after: its title says
    time, its traces are in guesses, and its y title is still the
    percentage's. *)
Example interleaving_not_serial :
  let st0 := app_init ["status.json"] in
  let st1 := (callback fs_C st0 UpdateClick click_controls).1 in
  mixed_C <> Some (callback fs_C st0 OtherTrigger click_controls).2 /\
  mixed_C <> Some (callback fs_C st1 OtherTrigger click_controls).2 /\
  match mixed_C with
  | Some (Ok (_, fig)) => fig_x_title fig = "Time (seconds)" /\ fig_y_title fig = "Cracked passwords (%)"
  | _ => False
  end.
Proof. vm_compute. split_and!; [intros Heq; discriminate Heq|intros Heq; discriminate Heq|done|done]. Qed.
